(** * Round-trip timestamp tests of [tztest/main.py]

    A shallow embedding of the save/load strategies, the comparison of a
    round trip, the numbering of [Test] objects and the result table of
    [tztest.tztest.main], together with the parts of [datetime], [pytz] and
    the Postgres-backed [Timestamp] model the module calls. *)

From Stdlib Require Import ZArith List String Ascii Bool Lia DecimalString.
From Stdlib Require DecimalZ.
From stdpp Require Import base option list gmap strings.

Local Open Scope string_scope.
Local Open Scope Z_scope.

(** ** Exceptions and fallible results *)

Inductive exception :=
| TypeError
| ValueError
| OverflowError
| AssertionError
| DoesNotExist
| DatabaseError
| AmbiguousTimeError
| NonExistentTimeError
| RecursionError.

Inductive result (A : Type) :=
| Ok (a : A)
| Raise (e : exception).
Arguments Ok {A} a.
Arguments Raise {A} e.

Definition to_option {A} (r : result A) : option A :=
  match r with Ok a => Some a | Raise _ => None end.

Definition rbind {A B} (r : result A) (k : A -> result B) : result B :=
  match r with Ok a => k a | Raise e => Raise e end.

(** ** [datetime] and [timedelta]

    The date and time fields of a [datetime] are kept as one count of
    microseconds since 0001-01-01T00:00:00, the scale of Python's proleptic
    ordinal; a [timedelta] is a signed count of microseconds. A [datetime]
    object has fields from [datetime.min] to [datetime.max], and arithmetic
    that leaves these bounds raises [OverflowError]. *)

Module datetime.

Definition timedelta := Z.

Definition timedelta_of (days hours minutes seconds : Z) : timedelta :=
  (((days * 24 + hours) * 60 + minutes) * 60 + seconds) * 1000000.

Definition _is_leap (year : Z) : bool :=
  (year mod 4 =? 0) && (negb (year mod 100 =? 0) || (year mod 400 =? 0)).

Definition _days_before_year (year : Z) : Z :=
  let y := year - 1 in y * 365 + y / 4 - y / 100 + y / 400.

Definition _DAYS_IN_MONTH : list Z :=
  [31; 28; 31; 30; 31; 30; 31; 31; 30; 31; 30; 31].

Definition _days_before_month (year month : Z) : Z :=
  fold_right Z.add 0 (firstn (Z.to_nat (month - 1)) _DAYS_IN_MONTH)
  + (if (2 <? month) && _is_leap year then 1 else 0).

Definition _ymd2ord (year month day : Z) : Z :=
  _days_before_year year + _days_before_month year month + day.

Definition MINYEAR : Z := 1.
Definition MAXYEAR : Z := 9999.

(** The fields of [datetime.max], 9999-12-31T23:59:59.999999; those of
    [datetime.min], 0001-01-01T00:00:00, are 0. *)
Definition max_fields : Z :=
  Eval cbv in timedelta_of (_ymd2ord MAXYEAR 12 31 - 1) 23 59 59 + 999999.

(** Whether fields are those of a date from [MINYEAR] to [MAXYEAR]. *)
Definition in_range (x : Z) : bool := (0 <=? x) && (x <=? max_fields).

(** [ttinfo] is the triple [(utcoffset, dst, tzname)] that identifies one
    [tzinfo] instance of a pytz zone; offsets are in microseconds. *)
Record ttinfo := mk_ttinfo {
  tt_utcoffset : Z;
  tt_dst : Z;
  tt_tzname : string
}.

(** The [tzinfo] objects a [datetime] can carry: the [pytz.UTC] singleton,
    a [StaticTzInfo], or the instance of a [DstTzInfo] zone for one of its
    [ttinfo] triples. *)
Inductive tzinfo :=
| tzUTC
| tzStatic (zone : string) (info : ttinfo)
| tzDst (zone : string) (info : ttinfo).

Definition _utcoffset (tz : tzinfo) : Z :=
  match tz with
  | tzUTC => 0
  | tzStatic _ info => tt_utcoffset info
  | tzDst _ info => tt_utcoffset info
  end.

Definition _dst (tz : tzinfo) : Z :=
  match tz with
  | tzUTC => 0
  | tzStatic _ info => tt_dst info
  | tzDst _ info => tt_dst info
  end.

Definition tzinfo_zone (tz : tzinfo) : string :=
  match tz with
  | tzUTC => "UTC"
  | tzStatic zone _ => zone
  | tzDst zone _ => zone
  end.

Record datetime := mk_datetime {
  fields : Z;
  tzinfo_of : option tzinfo
}.

(** [datetime(year, month, day, hour, minute, second, tzinfo=tz)] *)
Definition new (year month day hour minute second : Z) (tz : option tzinfo)
  : datetime :=
  mk_datetime
    (timedelta_of (_ymd2ord year month day - 1) hour minute second) tz.

Definition replace_tzinfo (dt : datetime) (tz : option tzinfo) : datetime :=
  mk_datetime (fields dt) tz.

(** [dt + delta]: the fields move, the [tzinfo] stays; a result before
    [datetime.min] or after [datetime.max] is an [OverflowError]. *)
Definition add (dt : datetime) (delta : timedelta) : result datetime :=
  if in_range (fields dt + delta)
  then Ok (mk_datetime (fields dt + delta) (tzinfo_of dt))
  else Raise OverflowError.

Definition is_aware (dt : datetime) : bool :=
  match tzinfo_of dt with Some _ => true | None => false end.

(** The physical instant of an aware value, as UTC fields. *)
Definition instant (dt : datetime) : Z :=
  match tzinfo_of dt with
  | Some tz => fields dt - _utcoffset tz
  | None => fields dt
  end.

(** The fields of a [datetime] object are within the bounds. *)
Definition valid (dt : datetime) : Prop := in_range (fields dt) = true.

End datetime.
Export datetime.

#[global] Instance ttinfo_eq_dec : EqDecision ttinfo.
Proof. solve_decision. Defined.
#[global] Instance tzinfo_eq_dec : EqDecision tzinfo.
Proof. solve_decision. Defined.
#[global] Instance datetime_eq_dec : EqDecision datetime.
Proof. solve_decision. Defined.

(** [a == b] on datetimes. Two naive values compare their fields. Two aware
    values with the same [tzinfo] compare their fields, and otherwise
    compare after subtracting each one's UTC offset. Mixing a naive and an
    aware value raises [TypeError]. *)
Definition datetime_eq (a b : datetime) : result bool :=
  match tzinfo_of a, tzinfo_of b with
  | None, None => Ok (fields a =? fields b)
  | Some ta, Some tb =>
      if decide (ta = tb) then Ok (fields a =? fields b)
      else Ok (fields a - _utcoffset ta =? fields b - _utcoffset tb)
  | _, _ => Raise TypeError
  end.

(** [a - b] on datetimes, with the same three cases as [datetime_eq]. *)
Definition datetime_sub (a b : datetime) : result timedelta :=
  match tzinfo_of a, tzinfo_of b with
  | None, None => Ok (fields a - fields b)
  | Some ta, Some tb =>
      if decide (ta = tb) then Ok (fields a - fields b)
      else Ok ((fields a - _utcoffset ta) - (fields b - _utcoffset tb))
  | _, _ => Raise TypeError
  end.

(** ** [TestResult] *)

Record TestResult := mk_TestResult {
  stored_correctly : bool;
  loaded_correctly : bool;
  stored_error : timedelta;
  loaded_error : timedelta
}.

(** [TestResult.__init__(self, saved_dt, stored_dt, loaded_dt)] *)
Definition TestResult_init (saved_dt stored_dt loaded_dt : datetime)
  : result TestResult :=
  rbind (datetime_eq saved_dt stored_dt) (fun sc =>
  rbind (datetime_eq saved_dt loaded_dt) (fun lc =>
  rbind (datetime_sub stored_dt saved_dt) (fun se =>
  rbind (datetime_sub loaded_dt saved_dt) (fun le =>
  Ok (mk_TestResult sc lc se le))))).

(** ** The [pytz] zones

    The zone objects [main.py] receives from [pytz.timezone] and [pytz.UTC].
    A [DstTzInfo] zone lists its UTC transition instants in increasing
    order, each with the [ttinfo] in force from that instant on; [lmt] is
    the entry in force before the first of them. *)

Module pytz.

Inductive timezone :=
| UTC
| StaticTzInfo (zone : string) (info : ttinfo)
| DstTzInfo (zone : string) (lmt : ttinfo) (transitions : list (Z * ttinfo)).

(** [tz.zone] *)
Definition zone (tz : timezone) : string :=
  match tz with
  | UTC => "UTC"
  | StaticTzInfo z _ => z
  | DstTzInfo z _ _ => z
  end.

(** [_transition_info[max(0, bisect_right(_utc_transition_times, x) - 1)]] *)
Fixpoint transition_info_at (cur : ttinfo) (trs : list (Z * ttinfo)) (x : Z)
  : ttinfo :=
  match trs with
  | [] => cur
  | (t, inf) :: rest => if x <? t then cur else transition_info_at inf rest x
  end.

(** The UTC offset a zone has at the UTC instant [utc]. *)
Definition utcoffset_at (tz : timezone) (utc : Z) : Z :=
  match tz with
  | UTC => 0
  | StaticTzInfo _ info => tt_utcoffset info
  | DstTzInfo _ lmt trs => tt_utcoffset (transition_info_at lmt trs utc)
  end.

(** The [tzinfo] a zone attaches at the UTC instant [utc]. *)
Definition tzinfo_at (tz : timezone) (utc : Z) : tzinfo :=
  match tz with
  | UTC => tzUTC
  | StaticTzInfo z info => tzStatic z info
  | DstTzInfo z lmt trs => tzDst z (transition_info_at lmt trs utc)
  end.

(** The value a zone gives the UTC instant [utc]: the wall clock of the
    instant in the zone, with the [tzinfo] in force at the instant. *)
Definition reading (tz : timezone) (utc : Z) : datetime :=
  mk_datetime (utc + utcoffset_at tz utc) (Some (tzinfo_at tz utc)).

(** [tz.fromutc(dt)] for naive UTC fields [utc]: [pytz.UTC] attaches
    itself, the other zones compute [dt + offset]. *)
Definition fromutc (tz : timezone) (utc : Z) : result datetime :=
  match tz with
  | UTC => Ok (mk_datetime utc (Some tzUTC))
  | StaticTzInfo z info =>
      rbind (add (mk_datetime utc None) (tt_utcoffset info)) (fun dt =>
      Ok (replace_tzinfo dt (Some (tzStatic z info))))
  | DstTzInfo z lmt trs =>
      let inf := transition_info_at lmt trs utc in
      rbind (add (mk_datetime utc None) (tt_utcoffset inf)) (fun dt =>
      Ok (replace_tzinfo dt (Some (tzDst z inf))))
  end.

(** [dt.replace(tzinfo=None) - offset], the UTC fields of an aware value
    as [normalize] and [astimezone] compute them. *)
Definition to_utc (dt : datetime) (ti : tzinfo) : result Z :=
  rbind (add (replace_tzinfo dt None) (- _utcoffset ti)) (fun utc =>
  Ok (fields utc)).

(** [tz.normalize(dt)]. [UTC] and [StaticTzInfo] return [dt] itself when it
    already carries them and otherwise go through [astimezone]; a
    [DstTzInfo] always converts to UTC and back. All raise [ValueError] on a
    naive value, and [OverflowError] when the UTC fields or the wall clock
    in the zone leave the bounds of [datetime]. *)
Definition normalize (tz : timezone) (dt : datetime) : result datetime :=
  match tzinfo_of dt with
  | None => Raise ValueError
  | Some ti =>
      match tz with
      | UTC =>
          if decide (ti = tzUTC) then Ok dt
          else rbind (to_utc dt ti) (fromutc tz)
      | StaticTzInfo z info =>
          if decide (ti = tzStatic z info) then Ok dt
          else rbind (to_utc dt ti) (fromutc tz)
      | DstTzInfo _ _ _ => rbind (to_utc dt ti) (fromutc tz)
      end
  end.

Definition HOURS_6 : timedelta := timedelta_of 0 6 0 0.
Definition DAYS_1 : timedelta := timedelta_of 1 0 0 0.

(** Equality of two aware datetimes as used by [set] and [dict]. *)
Definition aware_eqb (a b : datetime) : bool :=
  match datetime_eq a b with Ok r => r | Raise _ => false end.

(** [possible_loc_dt.add(loc_dt)] *)
Definition set_add (x : datetime) (s : list datetime) : list datetime :=
  if existsb (aware_eqb x) s then s else s ++ [x].

(** [if loc_dt.replace(tzinfo=None) == dt: possible_loc_dt.add(loc_dt)] *)
Definition keep (x : Z) (loc_dt : datetime) (s : list datetime)
  : list datetime :=
  if fields loc_dt =? x then set_add loc_dt s else s.

(** One round of the candidate search of [DstTzInfo.localize]: the zone
    entry found at [dt + delta], applied to the wall clock [x] of [dt] and
    normalized, is kept when it reads [x] again. *)
Definition candidate (z : string) (lmt : ttinfo) (trs : list (Z * ttinfo))
    (x : Z) (delta : timedelta) (s : list datetime)
  : result (list datetime) :=
  let dt := mk_datetime x None in
  rbind (add dt delta) (fun loc_dt =>
  let inf := transition_info_at lmt trs (fields loc_dt) in
  rbind (normalize (DstTzInfo z lmt trs)
           (replace_tzinfo dt (Some (tzDst z inf)))) (fun loc_dt =>
  Ok (keep x loc_dt s))).

(** [for delta in [timedelta(days=-1), timedelta(days=1)]: ...] *)
Definition possible_loc_dt (z : string) (lmt : ttinfo)
    (trs : list (Z * ttinfo)) (x : Z) : result (list datetime) :=
  rbind (candidate z lmt trs x (- DAYS_1) []) (fun s =>
  candidate z lmt trs x DAYS_1 s).

(** [dates[min(dates)]] or [dates[max(dates)]] over the UTC instants. *)
Fixpoint extreme (latest : bool) (best : datetime) (l : list datetime)
  : datetime :=
  match l with
  | [] => best
  | p :: rest =>
      let better :=
        if latest then instant best <? instant p
        else instant p <? instant best in
      extreme latest (if better then p else best) rest
  end.

(** [p.tzinfo._dst] *)
Definition _dst_of (q : datetime) : Z :=
  match tzinfo_of q with Some ti => _dst ti | None => 0 end.

(** [DstTzInfo.localize(dt, is_dst)] on the naive fields [x]; [is_dst] is
    [None], [Some true] or [Some false] (the default). The recursion of
    the nonexistent case is bounded by [fuel]. *)
Fixpoint localize_dst (fuel : nat) (z : string) (lmt : ttinfo)
    (trs : list (Z * ttinfo)) (x : Z) (is_dst : option bool)
  : result datetime :=
  match fuel with
  | O => Raise RecursionError
  | S fuel' =>
      rbind (possible_loc_dt z lmt trs x) (fun possible =>
      match possible with
      | [p] => Ok p
      | [] =>
          match is_dst with
          | None => Raise NonExistentTimeError
          | Some true =>
              rbind (add (mk_datetime x None) HOURS_6) (fun dt' =>
              rbind (localize_dst fuel' z lmt trs (fields dt') is_dst)
                    (fun r => add r (- HOURS_6)))
          | Some false =>
              rbind (add (mk_datetime x None) (- HOURS_6)) (fun dt' =>
              rbind (localize_dst fuel' z lmt trs (fields dt') is_dst)
                    (fun r => add r HOURS_6))
          end
      | p :: ps =>
          match is_dst with
          | None => Raise AmbiguousTimeError
          | Some b =>
              let filtered :=
                List.filter
                  (fun q => Bool.eqb (negb (_dst_of q =? 0)) b) (p :: ps) in
              match filtered with
              | [q] => Ok q
              | [] => Ok (extreme (negb b) p ps)
              | q :: qs => Ok (extreme (negb b) q qs)
              end
          end
      end)
  end.

(** *** Descriptions of a zone used in the statements *)

(** Every offset of the zone is less than a day, as Python requires of a
    [tzinfo], and no transition falls in the first four days after
    [datetime.min]. *)
Definition small_offset (info : ttinfo) : bool :=
  (- DAYS_1 <? tt_utcoffset info) && (tt_utcoffset info <? DAYS_1).

Definition well_formed (tz : timezone) : bool :=
  match tz with
  | UTC => true
  | StaticTzInfo _ info => small_offset info
  | DstTzInfo _ lmt trs =>
      small_offset lmt
      && forallb (fun p => small_offset (snd p) && (4 * DAYS_1 <=? fst p)) trs
  end.

(** The transitions are in increasing order and at least two days apart. *)
Fixpoint spaced (trs : list (Z * ttinfo)) : bool :=
  match trs with
  | (t, _) :: rest =>
      match rest with
      | (t', _) :: _ => (t + 2 * DAYS_1 <=? t') && spaced rest
      | [] => true
      end
  | [] => true
  end.

(** Between two readings of one wall clock, the instant [u] under the
    entry [inf] and the instant [u'] under [inf'], [localize] with
    [is_dst=False] goes for the first when it alone has no daylight-saving
    component, or when both or neither have one and it is the later. *)
Definition default_prefers (inf : ttinfo) (u : Z) (inf' : ttinfo) (u' : Z)
  : bool :=
  (tt_dst inf =? 0) && negb (tt_dst inf' =? 0)
  || Bool.eqb (tt_dst inf =? 0) (tt_dst inf' =? 0) && (u' <? u).

(** [x] is [days] days or more away from both bounds of [datetime]. *)
Definition inside (days : Z) (x : Z) : Prop :=
  days * DAYS_1 <= x <= max_fields - days * DAYS_1.

End pytz.
Export pytz.

(** The fuel [DstTzInfo.localize] is run with: the number of six-hour
    steps that takes the fields before the first transition, or past the
    last one, with a margin of a day and of the offset in force there. *)
Definition last_info (cur : ttinfo) (trs : list (Z * ttinfo)) : ttinfo :=
  List.last (List.map snd trs) cur.

Definition steps_back (lmt : ttinfo) (trs : list (Z * ttinfo)) (x : Z) : Z :=
  match trs with
  | [] => 0
  | (t1, _) :: _ =>
      (x - Z.min (t1 - DAYS_1) (t1 + tt_utcoffset lmt)) / HOURS_6 + 1
  end.

Definition steps_forward (lmt : ttinfo) (trs : list (Z * ttinfo)) (x : Z)
  : Z :=
  match trs with
  | [] => 0
  | (t1, _) :: _ =>
      let tmax := fold_right Z.max t1 (List.map fst trs) in
      (Z.max (tmax + DAYS_1) (tmax + tt_utcoffset (last_info lmt trs)) - x)
        / HOURS_6 + 1
  end.

Definition localize_fuel (lmt : ttinfo) (trs : list (Z * ttinfo)) (x : Z)
  : nat :=
  S (Z.to_nat (Z.max (steps_back lmt trs x) (steps_forward lmt trs x))).

(** [tz.localize(dt, is_dst)]: [UTC] and [StaticTzInfo] attach themselves,
    a [DstTzInfo] searches its transitions. All raise [ValueError] when
    [dt] already carries a [tzinfo]. *)
Definition localize (tz : timezone) (dt : datetime) (is_dst : option bool)
  : result datetime :=
  match tzinfo_of dt with
  | Some _ => Raise ValueError
  | None =>
      match tz with
      | UTC => Ok (replace_tzinfo dt (Some tzUTC))
      | StaticTzInfo z info => Ok (replace_tzinfo dt (Some (tzStatic z info)))
      | DstTzInfo z lmt trs =>
          localize_dst (localize_fuel lmt trs (fields dt)) z lmt trs
                       (fields dt) is_dst
      end
  end.

(** A value is in the zone [tz] when it carries one of its [tzinfo]s. *)
Definition in_zone (tz : timezone) (dt : datetime) : Prop :=
  exists ti, tzinfo_of dt = Some ti /\ tzinfo_zone ti = zone tz.

(** ** State and exceptions

    A computation reads and updates a state and either returns a value or
    raises; the state reached when it raises is kept, as a Python
    exception leaves the objects mutated so far. *)

Definition M (St A : Type) : Type := St -> result A * St.

Definition ret {St A} (a : A) : M St A := fun s => (Ok a, s).

Definition raise {St A} (e : exception) : M St A := fun s => (Raise e, s).

Definition bind {St A B} (m : M St A) (k : A -> M St B) : M St B :=
  fun s =>
    match m s with
    | (Ok a, s') => k a s'
    | (Raise e, s') => (Raise e, s')
    end.

Definition lift {St A} (r : result A) : M St A := fun s => (r, s).

Notation "'let!' x ':=' m 'in' k" := (bind m (fun x => k))
  (at level 10, x pattern, m at level 100, k at level 200).

(** ** The [Timestamp] model

    The table behind [Timestamp] maps each primary key to the value of its
    [timestamp with time zone] column, a UTC instant in microseconds. *)

Record Timestamp := mk_Timestamp {
  pk : positive;
  timestamp : datetime
}.

(** What [qs.get] returns under [extra(select=...)]: the model field and
    the two extra columns, all naive. *)
Record TimestampRow := mk_TimestampRow {
  row_timestamp : datetime;
  row_timestamp_explicit : datetime;
  row_timestamp_stored : datetime
}.

Record SaveMethod := mk_SaveMethod {
  save_tz : timezone;
  style : string
}.

Record LoadMethod := mk_LoadMethod {
  load_tz : timezone;
  conversion : string
}.

Record Test := mk_Test {
  test_number : Z;
  save_method : SaveMethod;
  load_method : LoadMethod
}.

(** A row of the table is the list
    [[test, test.save_method, test.load_method, result, ...]]; the three
    leading cells are kept as fields and [row_results] is [row[3:]]. *)
Record Row := mk_Row {
  row_test : Test;
  row_save : SaveMethod;
  row_load : LoadMethod;
  row_results : list TestResult
}.

(** [TestTable.headers] is [['#', 'Save As', 'Load As', dt, ...]];
    [headers] keeps [self.headers[3:]]. *)
Record TestTable := mk_TestTable {
  headers : list datetime;
  rows : list Row
}.

Definition in_tuple (s : string) (t : list string) : bool :=
  existsb (String.eqb s) t.

(** [SaveMethod.__init__(self, tz, style)] *)
Definition SaveMethod_init (tz : timezone) (style : string)
  : result SaveMethod :=
  if in_tuple style ["aware"; "naive"] then Ok (mk_SaveMethod tz style)
  else Raise AssertionError.

(** [LoadMethod.__init__(self, tz, conversion)] *)
Definition LoadMethod_init (tz : timezone) (conversion : string)
  : result LoadMethod :=
  if in_tuple conversion ["implicit"; "explicit"]
  then Ok (mk_LoadMethod tz conversion)
  else Raise AssertionError.

(** [Test.__init__(self, save_method, load_method)], on the class
    attribute [Test.next_test_number]. *)
Definition Test_init (save_method : SaveMethod) (load_method : LoadMethod)
  : M Z Test :=
  fun next_test_number =>
    (Ok (mk_Test next_test_number save_method load_method),
     next_test_number + 1).

(** [Test.next_test_number = 1] *)
Definition Test_next_test_number_init : Z := 1.

(** The list literal [tests = [Test(s1, l1), Test(s2, l2), ...]]. *)
Fixpoint Test_init_all (methods : list (SaveMethod * LoadMethod))
  : M Z (list Test) :=
  match methods with
  | [] => ret []
  | (s, l) :: rest =>
      let! t := Test_init s l in
      let! ts := Test_init_all rest in
      ret (t :: ts)
  end.

(** ** [main.py] over its environment

    [DJANGO_TZ] is [timezone(settings.TIME_ZONE)]. The database server is
    described by the zones it knows by name besides UTC ([pg_timezone]),
    the zone of the connection ([connection_tz]) and the UTC instant it
    reads from a literal without offset ([pg_input_local]). The connection
    hands [timestamp with time zone] values back as naive wall-clock
    values of its zone, which is what [tz.localize] requires. *)

Class Environment := {
  DJANGO_TZ : timezone;
  pg_timezone : string -> option timezone;
  connection_tz : timezone;
  pg_input_local : Z -> Z
}.

Abbreviation Database := (gmap positive Z).

Section Main.

Context {env : Environment}.


(** The zone a name denotes in SQL. *)
Definition pg_zone (name : string) : option timezone :=
  if String.eqb name "UTC" then Some UTC else pg_timezone name.

(** [Timestamp.objects.create(timestamp=dt)]: one row is inserted under a
    primary key no row has yet. An aware value is stored as its instant,
    a naive one as the server reads it. *)
Definition Timestamp_objects_create (dt : datetime) : M Database Timestamp :=
  fun db =>
    let key := fresh (dom db) in
    let value :=
      match tzinfo_of dt with
      | Some ti => fields dt - _utcoffset ti
      | None => pg_input_local (fields dt)
      end in
    (Ok (mk_Timestamp key dt), <[key := value]> db).

(** SQL [timestamp at time zone 'name'] on a stored instant. *)
Definition at_time_zone (name : string) (utc : Z) : result datetime :=
  match pg_zone name with
  | Some tz => Ok (mk_datetime (utc + utcoffset_at tz utc) None)
  | None => Raise DatabaseError
  end.

(** The columns selected for a row whose stored instant is [utc], with
    [select = {'timestamp_explicit': "timestamp at time zone 'zone'",
               'timestamp_stored': "timestamp at time zone 'UTC'"}]. *)
Definition select_row (zone : string) (utc : Z) : result TimestampRow :=
  rbind (at_time_zone zone utc) (fun explicit =>
  rbind (at_time_zone "UTC" utc) (fun stored =>
  Ok (mk_TimestampRow
        (mk_datetime (utc + utcoffset_at connection_tz utc) None)
        explicit stored))).

(** [Timestamp.objects.extra(select=select).get(pk=key)] *)
Definition Timestamp_objects_extra_get (zone : string) (key : positive)
  : M Database TimestampRow :=
  fun db =>
    match db !! key with
    | None => (Raise DoesNotExist, db)
    | Some utc => (select_row zone utc, db)
    end.

(** [SaveMethod.save(self, dt)] *)
Definition save (self : SaveMethod) (dt : datetime) : M Database Timestamp :=
  let! dt := lift (normalize (save_tz self) dt) in
  let dt :=
    if String.eqb (style self) "naive" then replace_tzinfo dt None else dt in
  Timestamp_objects_create dt.

(** [LoadMethod.load(self, timestamp)] *)
Definition load (self : LoadMethod) (timestamp : Timestamp)
  : M Database (datetime * datetime) :=
  let loaded_attr :=
    if String.eqb (conversion self) "implicit" then row_timestamp
    else row_timestamp_explicit in
  let! timestamp :=
    Timestamp_objects_extra_get (zone (load_tz self)) (pk timestamp) in
  let! stored_datetime :=
    lift (localize UTC (row_timestamp_stored timestamp) (Some false)) in
  let! loaded_datetime :=
    lift (localize (load_tz self) (loaded_attr timestamp) (Some false)) in
  ret (stored_datetime, loaded_datetime).

(** [Test.make_roundtrip(self, saved_dt)] *)
Definition make_roundtrip (self : Test) (saved_dt : datetime)
  : M Database (datetime * datetime) :=
  let! timestamp := save (save_method self) saved_dt in
  load (load_method self) timestamp.

(** [Test.run_test(self, saved_dt)] *)
Definition run_test (self : Test) (saved_dt : datetime)
  : M Database TestResult :=
  let! roundtrip := make_roundtrip self saved_dt in
  lift (TestResult_init saved_dt (fst roundtrip) (snd roundtrip)).

(** [TestTable.__init__(self)] *)
Definition TestTable_init : TestTable := mk_TestTable [] [].

(** [row.append(result)] *)
Definition row_append (row : Row) (r : TestResult) : Row :=
  mk_Row (row_test row) (row_save row) (row_load row) (row_results row ++ [r]).

(** [for row in self.rows: row.append(row[0].run_test(dt))]: the rows
    reached before an exception keep their new cell, the others are left
    as they were. *)
Fixpoint append_column (dt : datetime) (rs : list Row) (db : Database)
  : result unit * list Row * Database :=
  match rs with
  | [] => (Ok tt, [], db)
  | row :: rest =>
      match run_test (row_test row) dt db with
      | (Raise e, db') => (Raise e, row :: rest, db')
      | (Ok r, db') =>
          let '(res, rest', db'') := append_column dt rest db' in
          (res, row_append row r :: rest', db'')
      end
  end.

(** [for dt in hs: row.append(test.run_test(dt))] on the row [row], for
    the header cells [hs] still to visit. *)
Fixpoint fill_row (test : Test) (hs : list datetime) (row : Row)
    (db : Database) : result unit * Row * Database :=
  match hs with
  | [] => (Ok tt, row, db)
  | dt :: rest =>
      match run_test test dt db with
      | (Raise e, db') => (Raise e, row, db')
      | (Ok r, db') => fill_row test rest (row_append row r) db'
      end
  end.

(** [TestTable.add_datetime(self, dt)], on the table and the database. *)
Definition add_datetime (dt : datetime) : M (TestTable * Database) unit :=
  fun '(self, db) =>
    match normalize DJANGO_TZ dt with
    | Raise e => (Raise e, (self, db))
    | Ok h =>
        let '(res, rows', db') := append_column dt (rows self) db in
        (res, (mk_TestTable (headers self ++ [h]) rows', db'))
    end.

(** [TestTable.add_test(self, test)], on the table and the database. *)
Definition add_test (test : Test) : M (TestTable * Database) unit :=
  fun '(self, db) =>
    let row := mk_Row test (save_method test) (load_method test) [] in
    let '(res, row', db') := fill_row test (headers self) row db in
    (res, (mk_TestTable (headers self) (rows self ++ [row']), db')).

(** The two mutations of a table, and a sequence of calls in order. *)
Inductive call :=
| AddDatetime (dt : datetime)
| AddTest (test : Test).

Definition run_call (c : call) : M (TestTable * Database) unit :=
  match c with
  | AddDatetime dt => add_datetime dt
  | AddTest test => add_test test
  end.

Fixpoint run_calls (cs : list call) : M (TestTable * Database) unit :=
  match cs with
  | [] => ret tt
  | c :: rest => let! _ := run_call c in run_calls rest
  end.

(** A fresh table filled by a sequence of calls; the table is returned
    when no call raised. *)
Definition build (cs : list call) : M Database TestTable :=
  fun db =>
    match run_calls cs (TestTable_init, db) with
    | (Ok _, (table, db')) => (Ok table, db')
    | (Raise e, (_, db')) => (Raise e, db')
    end.

(** [generate_test_table()] for the catalogs [datetimes] and [tests]:
    every column first, then every row. *)
Definition generate_test_table (datetimes : list datetime)
    (tests : list Test) : M Database TestTable :=
  build (List.map AddDatetime datetimes ++ List.map AddTest tests).

(** The same catalogs with every row first, then every column. *)
Definition generate_rows_first (datetimes : list datetime)
    (tests : list Test) : M Database TestTable :=
  build (List.map AddTest tests ++ List.map AddDatetime datetimes).

(** *** Descriptions used in the statements *)

(** What [save] hands to [create] and the instant the row then holds. *)
Definition saved_value (self : SaveMethod) (dt : datetime)
  : result (datetime * Z) :=
  rbind (normalize (save_tz self) dt) (fun n =>
  let handed :=
    if String.eqb (style self) "naive" then replace_tzinfo n None else n in
  Ok (handed,
      match tzinfo_of handed with
      | Some ti => fields handed - _utcoffset ti
      | None => pg_input_local (fields handed)
      end)).

(** What [load] returns for a row holding the instant [utc]. *)
Definition load_values (self : LoadMethod) (utc : Z)
  : result (datetime * datetime) :=
  rbind (select_row (zone (load_tz self)) utc) (fun row =>
  rbind (localize UTC (row_timestamp_stored row) (Some false)) (fun s =>
  rbind (localize (load_tz self)
           ((if String.eqb (conversion self) "implicit" then row_timestamp
             else row_timestamp_explicit) row) (Some false)) (fun l =>
  Ok (s, l)))).

(** The outcome of a round trip as a function of the test and the
    datetime alone. *)
Definition trial (test : Test) (dt : datetime) : result TestResult :=
  rbind (saved_value (save_method test) dt) (fun hv =>
  rbind (load_values (load_method test) (snd hv)) (fun p =>
  TestResult_init dt (fst p) (snd p))).

(** Every row has one result per header cell. *)
Definition rectangular (t : TestTable) : Prop :=
  Forall (fun row => length (row_results row) = length (headers t)) (rows t).

(** The result of one round trip, when it has one. *)
Definition cell (test : Test) (dt : datetime) : option TestResult :=
  to_option (fst (run_test test dt ∅)).

Fixpoint map_some {A B} (f : A -> option B) (l : list A) : option (list B) :=
  match l with
  | [] => Some []
  | a :: rest =>
      match f a, map_some f rest with
      | Some b, Some bs => Some (b :: bs)
      | _, _ => None
      end
  end.

(** The cell a new column adds to a row. *)
Definition column_cell (dt : datetime) (row : Row) : option Row :=
  match cell (row_test row) dt with
  | Some r => Some (row_append row r)
  | None => None
  end.

(** The table a sequence of calls leaves, when every call returned. *)
Definition built (out : result unit * (TestTable * Database))
  : option TestTable :=
  match out with
  | (Ok _, (t, _)) => Some t
  | (Raise _, _) => None
  end.

(** The row of [test] over the datetimes [dts]. *)
Definition expected_row (dts : list datetime) (test : Test) : option Row :=
  match map_some (cell test) dts with
  | Some rs => Some (mk_Row test (save_method test) (load_method test) rs)
  | None => None
  end.

(** The table of the catalogs [dts] and [tests]: the header cells are the
    datetimes normalized to [DJANGO_TZ], and the row of each test holds
    its round trip of each datetime. *)
Definition expected_table (dts : list datetime) (tests : list Test)
  : option TestTable :=
  match map_some (fun dt => to_option (normalize DJANGO_TZ dt)) dts,
        map_some (expected_row dts) tests with
  | Some hs, Some rs => Some (mk_TestTable hs rs)
  | _, _ => None
  end.

(** The zones of the environment are well formed, and the server reads
    a literal without offset as an instant less than a day from the fields
    it spells. *)
Definition env_well_formed : Prop :=
  well_formed DJANGO_TZ = true
  /\ well_formed connection_tz = true
  /\ (forall name tz, pg_timezone name = Some tz -> well_formed tz = true)
  /\ (forall x, x - DAYS_1 < pg_input_local x < x + DAYS_1).

End Main.

(** ** Rendering *)

Definition newline : string := String (ascii_of_nat 10) EmptyString.

(** [c * n] for a one-character string [c]. *)
Fixpoint string_repeat (c : string) (n : nat) : string :=
  match n with
  | O => EmptyString
  | S n' => c +:+ string_repeat c n'
  end.

(** [sep.join(l)] *)
Fixpoint join (sep : string) (l : list string) : string :=
  match l with
  | [] => EmptyString
  | [s] => s
  | s :: rest => s +:+ sep +:+ join sep rest
  end.

(** ['%d' % n] *)
Definition unicode_int (n : Z) : string :=
  DecimalString.NilZero.string_of_int (Z.to_int n).

(** ['%0wd' % n] for [0 <= n]. *)
Definition zero_pad (w : nat) (n : Z) : string :=
  let s := unicode_int n in
  string_repeat "0" (w - String.length s) +:+ s.

(** [u'{:>w}'.format(s)] *)
Definition format_right (w : nat) (s : string) : string :=
  string_repeat " " (w - String.length s) +:+ s.

(** [u'{:^w}'.format(s)] *)
Definition format_center (w : nat) (s : string) : string :=
  let total := (w - String.length s)%nat in
  let lpad := (total / 2)%nat in
  string_repeat " " lpad +:+ s +:+ string_repeat " " (total - lpad).

(** [str(delta)]: days, then [h:mm:ss], then the microseconds if any. *)
Definition str_timedelta (delta : timedelta) : string :=
  let days := delta / 86400000000 in
  let rest := delta mod 86400000000 in
  let seconds := rest / 1000000 in
  let us := rest mod 1000000 in
  let ss := seconds mod 60 in
  let mm := (seconds / 60) mod 60 in
  let hh := seconds / 3600 in
  (if days =? 0 then EmptyString
   else unicode_int days +:+ " day"
        +:+ (if Z.abs days =? 1 then EmptyString else "s") +:+ ", ")
  +:+ unicode_int hh +:+ ":" +:+ zero_pad 2 mm +:+ ":" +:+ zero_pad 2 ss
  +:+ (if us =? 0 then EmptyString else "." +:+ zero_pad 6 us).

(** [SaveMethod.__unicode__(self)] *)
Definition SaveMethod_unicode (self : SaveMethod) : string :=
  style self +:+ " " +:+ zone (save_tz self).

(** [LoadMethod.__unicode__(self)] *)
Definition LoadMethod_unicode (self : LoadMethod) : string :=
  conversion self +:+ " " +:+ zone (load_tz self).

(** [Test.__unicode__(self)] *)
Definition Test_unicode (self : Test) : string :=
  unicode_int (test_number self).

(** [TestResult.__unicode__(self)] *)
Definition TestResult_unicode (self : TestResult) : string :=
  (if stored_correctly self then "OK" else str_timedelta (stored_error self))
  +:+ "/"
  +:+ (if loaded_correctly self then "OK"
       else str_timedelta (loaded_error self)).

(** The local [add_row] of [TestTable.__unicode__], on the three leading
    cells of a row and the text of the others: the columns and the line. *)
Definition add_row_cols (c0 c1 c2 : string) (vals : list string)
  : list string :=
  [format_right 2 c0; format_center 18 c1; format_center 21 c2]
  ++ List.map (format_center 27) vals.

Definition add_row (c0 c1 c2 : string) (vals : list string) : string :=
  join "|" (add_row_cols c0 c1 c2 vals).

Section Rendering.

(** [unicode(dt)] of a header cell, Python's [datetime.__str__]. *)
Variable str_datetime : datetime -> string.

Definition header_line (self : TestTable) : string :=
  add_row "#" "Save As" "Load As" (List.map str_datetime (headers self)).

Definition row_line (row : Row) : string :=
  add_row (Test_unicode (row_test row)) (SaveMethod_unicode (row_save row))
          (LoadMethod_unicode (row_load row))
          (List.map TestResult_unicode (row_results row)).

(** The list [lines] of [TestTable.__unicode__]. *)
Definition TestTable_lines (self : TestTable) : list string :=
  let first := header_line self in
  first :: string_repeat "-" (String.length first)
        :: List.map row_line (rows self).

(** [TestTable.__unicode__(self)] *)
Definition TestTable_unicode (self : TestTable) : string :=
  join newline (TestTable_lines self).

End Rendering.

(** ** The catalogs of [main.py] *)

(** The part of the US/Pacific table around 2002: standard time until
    2002-04-07T10:00Z, daylight time until 2002-10-27T09:00Z, standard time
    after. *)
Definition PST : ttinfo := mk_ttinfo (timedelta_of 0 (-8) 0 0) 0 "PST".
Definition PDT : ttinfo :=
  mk_ttinfo (timedelta_of 0 (-7) 0 0) (timedelta_of 0 1 0 0) "PDT".

Definition utc_fields (year month day hour minute second : Z) : Z :=
  fields (datetime.new year month day hour minute second None).

Definition US_Pacific : timezone :=
  DstTzInfo "US/Pacific" PST
    [(utc_fields 2002 4 7 10 0 0, PDT); (utc_fields 2002 10 27 9 0 0, PST)].

(** [datetimes]: half an hour before the fall-back of 2002 in
    US/Pacific, and an instant whose UTC wall clock, read as US/Pacific,
    falls in the hour the fall-forward of 2002 skips. *)
Definition dt_fall_back : datetime :=
  datetime.new 2002 10 27 8 30 0 (Some tzUTC).

Definition dt_fall_forward : datetime :=
  datetime.new 2002 4 7 2 30 0 (Some tzUTC).

Definition datetimes : list datetime := [dt_fall_back; dt_fall_forward].

(** [Test(SaveMethod(stz, style), LoadMethod(ltz, conversion))] *)
Definition new_Test (stz : timezone) (style : string) (ltz : timezone)
    (conversion : string) : M Z Test :=
  let! s := lift (SaveMethod_init stz style) in
  let! l := lift (LoadMethod_init ltz conversion) in
  Test_init s l.

Fixpoint sequence {St A} (l : list (M St A)) : M St (list A) :=
  match l with
  | [] => ret []
  | m :: rest =>
      let! a := m in
      let! r := sequence rest in
      ret (a :: r)
  end.

(** [tests] *)
Definition tests (DJANGO_TZ : timezone) : M Z (list Test) :=
  sequence
    [new_Test DJANGO_TZ "naive" DJANGO_TZ "implicit";
     new_Test DJANGO_TZ "naive" DJANGO_TZ "explicit";
     new_Test DJANGO_TZ "aware" DJANGO_TZ "implicit";
     new_Test DJANGO_TZ "aware" DJANGO_TZ "explicit";
     new_Test DJANGO_TZ "naive" UTC "explicit";
     new_Test UTC "aware" DJANGO_TZ "implicit";
     new_Test UTC "naive" UTC "implicit";
     new_Test UTC "aware" UTC "explicit";
     new_Test DJANGO_TZ "aware" UTC "explicit"].

(** An environment with [TIME_ZONE = 'US/Pacific']: the server knows the
    zone under that name, the connection is in it, and a literal without
    offset is stored as the wall-clock fields it spells. *)
Definition pacific_env : Environment := {|
  DJANGO_TZ := US_Pacific;
  pg_timezone := fun name =>
    if String.eqb name "US/Pacific" then Some US_Pacific else None;
  connection_tz := US_Pacific;
  pg_input_local := fun x => x
|}.

(** 2002-10-27 01:30 Pacific standard time, one hour after [dt_fall_back]. *)
Definition fall_back_loaded : datetime :=
  datetime.new 2002 10 27 1 30 0 (Some (tzDst "US/Pacific" PST)).


(** The tests of the catalog under [TIME_ZONE = 'US/Pacific'], numbered
    from the initial counter, and the calls of [generate_test_table]. *)
Definition pacific_tests : list Test :=
  match fst (tests US_Pacific Test_next_test_number_init) with
  | Ok ts => ts
  | Raise _ => []
  end.

Definition pacific_calls : list call :=
  List.map AddDatetime datetimes ++ List.map AddTest pacific_tests.

(** The datetimes and the tests a sequence of calls adds, in call order. *)
Fixpoint call_datetimes (cs : list call) : list datetime :=
  match cs with
  | [] => []
  | AddDatetime dt :: rest => dt :: call_datetimes rest
  | AddTest _ :: rest => call_datetimes rest
  end.

Fixpoint call_tests (cs : list call) : list Test :=
  match cs with
  | [] => []
  | AddDatetime _ :: rest => call_tests rest
  | AddTest test :: rest => test :: call_tests rest
  end.

Section Command.

Context {env : Environment}.

Variable str_datetime : datetime -> string.

(** [Command.handle(self, *args, **opts)] of [tztest_test.py], as the text
    it prints: [unicode(generate_test_table())] over the catalogs of
    [main.py], whose tests were numbered when the module was loaded. *)
Definition Command_handle : M Database string :=
  let! ts := lift (fst (tests DJANGO_TZ Test_next_test_number_init)) in
  let! table := generate_test_table datetimes ts in
  ret (TestTable_unicode str_datetime table).

End Command.

(** Whether every label and cell of a table fits the width of its
    column. *)
Definition cell_fits (w : nat) (s : string) : bool :=
  Nat.leb (String.length s) w.

Definition row_fits (row : Row) : bool :=
  cell_fits 2 (Test_unicode (row_test row))
  && cell_fits 18 (SaveMethod_unicode (row_save row))
  && cell_fits 21 (LoadMethod_unicode (row_load row))
  && forallb (fun r => cell_fits 27 (TestResult_unicode r)) (row_results row).

Definition table_fits (str_datetime : datetime -> string) (t : TestTable)
  : bool :=
  forallb (fun dt => cell_fits 27 (str_datetime dt)) (headers t)
  && forallb row_fits (rows t).

(** The width the cells after the three labels add to a line. *)
Definition cells_width (vals : list string) : nat :=
  fold_right (fun s acc => (1 + Nat.max 27 (String.length s) + acc)%nat)
             0%nat vals.

(** * Properties *)

(** ** Comparison of a round trip *)

Lemma datetime_eq_aware (a b : datetime) :
  is_aware a = true -> is_aware b = true ->
  datetime_eq a b = Ok (instant a =? instant b).
Proof.
  unfold is_aware, datetime_eq, instant.
  destruct (tzinfo_of a) as [ta|], (tzinfo_of b) as [tb|]; try discriminate.
  intros _ _. destruct (decide (ta = tb)) as [->|_]; [|reflexivity].
  f_equal. destruct (Z.eqb_spec (fields a) (fields b)) as [->|Hne].
  - symmetry. apply Z.eqb_refl.
  - symmetry. apply Z.eqb_neq. lia.
Qed.

Lemma datetime_sub_aware (a b : datetime) :
  is_aware a = true -> is_aware b = true ->
  datetime_sub a b = Ok (instant a - instant b).
Proof.
  unfold is_aware, datetime_sub, instant.
  destruct (tzinfo_of a) as [ta|], (tzinfo_of b) as [tb|]; try discriminate.
  intros _ _. destruct (decide (ta = tb)) as [->|_]; f_equal; lia.
Qed.

Lemma datetime_eq_refl (v : datetime) : datetime_eq v v = Ok true.
Proof.
  unfold datetime_eq. destruct (tzinfo_of v) as [t|].
  - rewrite decide_True by reflexivity. now rewrite Z.eqb_refl.
  - now rewrite Z.eqb_refl.
Qed.

Lemma datetime_sub_refl (v : datetime) : datetime_sub v v = Ok 0.
Proof.
  unfold datetime_sub. destruct (tzinfo_of v) as [t|].
  - rewrite decide_True by reflexivity. f_equal. lia.
  - f_equal. lia.
Qed.

Lemma TestResult_init_aware (saved_dt stored_dt loaded_dt : datetime) :
  is_aware saved_dt = true ->
  is_aware stored_dt = true ->
  is_aware loaded_dt = true ->
  TestResult_init saved_dt stored_dt loaded_dt =
    Ok (mk_TestResult (instant stored_dt =? instant saved_dt)
                      (instant loaded_dt =? instant saved_dt)
                      (instant stored_dt - instant saved_dt)
                      (instant loaded_dt - instant saved_dt)).
Proof.
  intros Hs Ht Hl. unfold TestResult_init.
  rewrite !datetime_eq_aware, !datetime_sub_aware by assumption. simpl.
  now rewrite (Z.eqb_sym (instant saved_dt) (instant stored_dt)),
              (Z.eqb_sym (instant saved_dt) (instant loaded_dt)).
Qed.

(** C1. [TestResult] is a function of its three arguments alone: for aware
    [saved_dt], [stored_dt] and [loaded_dt] the two flags say whether the
    stored and the loaded value are the same instant as the saved one, and
    the two errors are the differences of the instants, whatever zone each
    value is expressed in; and [TestResult(v, v, v)] has both flags true
    and both errors zero. *)
Theorem TestResult_init_compares_instants
    (saved_dt stored_dt loaded_dt : datetime) :
  is_aware saved_dt = true ->
  is_aware stored_dt = true ->
  is_aware loaded_dt = true ->
  TestResult_init saved_dt stored_dt loaded_dt =
    Ok (mk_TestResult (instant stored_dt =? instant saved_dt)
                      (instant loaded_dt =? instant saved_dt)
                      (instant stored_dt - instant saved_dt)
                      (instant loaded_dt - instant saved_dt))
  /\ forall v, TestResult_init v v v = Ok (mk_TestResult true true 0 0).
Proof.
  intros Hs Ht Hl. split.
  - now apply TestResult_init_aware.
  - intros v. unfold TestResult_init.
    now rewrite datetime_eq_refl, datetime_sub_refl.
Qed.

(** ** Construction of the strategies *)

Lemma in_tuple_spec (s : string) (t : list string) :
  in_tuple s t = true <-> In s t.
Proof.
  unfold in_tuple. rewrite existsb_exists. split.
  - intros (x & Hin & Heq). apply String.eqb_eq in Heq. now subst.
  - intros Hin. exists s. split; [assumption | apply String.eqb_refl].
Qed.

(** C9. Constructing a [SaveMethod] succeeds exactly when [style] is
    ['aware'] or ['naive'], and a [LoadMethod] exactly when [conversion] is
    ['implicit'] or ['explicit']; any other value fails the assertion of
    [__init__], which touches neither the database nor any table. *)
Theorem init_asserts_allowed_values (tz : timezone) (s : string) :
  (SaveMethod_init tz s =
     if bool_decide (s = "aware" \/ s = "naive")
     then Ok (mk_SaveMethod tz s) else Raise AssertionError)
  /\ (LoadMethod_init tz s =
        if bool_decide (s = "implicit" \/ s = "explicit")
        then Ok (mk_LoadMethod tz s) else Raise AssertionError).
Proof.
  split.
  - unfold SaveMethod_init.
    destruct (in_tuple s ["aware"; "naive"]) eqn:E.
    + apply in_tuple_spec in E. rewrite bool_decide_eq_true_2; [reflexivity|].
      simpl in E. intuition congruence.
    + rewrite bool_decide_eq_false_2; [reflexivity|].
      intros H. assert (In s ["aware"; "naive"]) as Hin
        by (simpl; intuition congruence).
      apply in_tuple_spec in Hin. congruence.
  - unfold LoadMethod_init.
    destruct (in_tuple s ["implicit"; "explicit"]) eqn:E.
    + apply in_tuple_spec in E. rewrite bool_decide_eq_true_2; [reflexivity|].
      simpl in E. intuition congruence.
    + rewrite bool_decide_eq_false_2; [reflexivity|].
      intros H. assert (In s ["implicit"; "explicit"]) as Hin
        by (simpl; intuition congruence).
      apply in_tuple_spec in Hin. congruence.
Qed.

(** ** Numbering of the tests *)

Lemma Test_init_all_from (methods : list (SaveMethod * LoadMethod)) (n : Z) :
  exists ts,
    Test_init_all methods n = (Ok ts, n + Z.of_nat (length methods))
    /\ length ts = length methods
    /\ forall i t, ts !! i = Some t ->
         test_number t = n + Z.of_nat i
         /\ methods !! i = Some (save_method t, load_method t).
Proof.
  revert n. induction methods as [|[s l] rest IH]; intros n.
  - exists []. simpl. unfold ret. split; [f_equal; lia|]. split; [reflexivity|].
    intros i t H. now rewrite lookup_nil in H.
  - destruct (IH (n + 1)) as (ts & Hrun & Hlen & Hnum).
    exists (mk_Test n s l :: ts). split; [|split].
    + simpl. unfold bind, Test_init, ret. rewrite Hrun. f_equal. simpl length. lia.
    + simpl. now rewrite Hlen.
    + intros [|i] t Hi.
      * injection Hi as <-. simpl. split; [lia | reflexivity].
      * simpl in Hi. destruct (Hnum i t Hi) as [Hn Hm].
        split; [lia | exact Hm].
Qed.

(** C10. The tests are numbered by the class counter
    [Test.next_test_number]: constructed one after the other from the
    initial counter, the first gets number 1 and each later one the number
    of its predecessor plus one, so the numbers are pairwise different and
    increase in construction order; the counter is the only state the
    constructor reads or writes. *)
Theorem Test_numbers_count_up (methods : list (SaveMethod * LoadMethod)) :
  exists ts,
    Test_init_all methods Test_next_test_number_init
      = (Ok ts, 1 + Z.of_nat (length methods))
    /\ length ts = length methods
    /\ (forall i t, ts !! i = Some t -> test_number t = 1 + Z.of_nat i)
    /\ (forall i t u, ts !! i = Some t -> ts !! S i = Some u ->
          test_number u = test_number t + 1)
    /\ (forall i j t u, ts !! i = Some t -> ts !! j = Some u ->
          (i < j)%nat -> test_number t < test_number u)
    /\ (forall i j t u, ts !! i = Some t -> ts !! j = Some u ->
          test_number t = test_number u -> i = j).
Proof.
  destruct (Test_init_all_from methods Test_next_test_number_init)
    as (ts & Hrun & Hlen & Hnum).
  unfold Test_next_test_number_init in *.
  exists ts. split; [exact Hrun|]. split; [exact Hlen|].
  assert (forall i t, ts !! i = Some t -> test_number t = 1 + Z.of_nat i)
    as Hn by (intros i t H; now apply Hnum).
  split; [|split; [|split]].
  - exact Hn.
  - intros i t u Ht Hu. rewrite (Hn _ _ Ht), (Hn _ _ Hu). lia.
  - intros i j t u Ht Hu Hij. rewrite (Hn _ _ Ht), (Hn _ _ Hu). lia.
  - intros i j t u Ht Hu Heq. rewrite (Hn _ _ Ht), (Hn _ _ Hu) in Heq. lia.
Qed.

(** ** The zones *)

Lemma HOURS_6_eq : HOURS_6 = 21600000000.
Proof. reflexivity. Qed.

Lemma DAYS_1_eq : DAYS_1 = 86400000000.
Proof. reflexivity. Qed.

Lemma max_fields_eq : max_fields = 315537897599999999.
Proof. reflexivity. Qed.

Lemma in_range_spec (x : Z) : in_range x = true <-> 0 <= x <= max_fields.
Proof. unfold in_range. rewrite andb_true_iff, !Z.leb_le. reflexivity. Qed.

Lemma in_range_false (x : Z) :
  in_range x = false <-> x < 0 \/ max_fields < x.
Proof.
  destruct (in_range x) eqn:E.
  - apply in_range_spec in E. split; [discriminate | lia].
  - split; [|reflexivity]. intros _.
    destruct (Z.lt_ge_cases x 0) as [|H0]; [now left|].
    destruct (Z.lt_ge_cases max_fields x) as [|H1]; [now right|].
    assert (in_range x = true) by (apply in_range_spec; lia). congruence.
Qed.

Lemma add_ok (dt : datetime) (delta : timedelta) :
  in_range (fields dt + delta) = true ->
  add dt delta = Ok (mk_datetime (fields dt + delta) (tzinfo_of dt)).
Proof. intros H. unfold add. now rewrite H. Qed.

Lemma add_inv (dt : datetime) (delta : timedelta) (r : datetime) :
  add dt delta = Ok r ->
  in_range (fields dt + delta) = true
  /\ r = mk_datetime (fields dt + delta) (tzinfo_of dt).
Proof.
  unfold add. destruct (in_range (fields dt + delta)); [|discriminate].
  intros [= <-]. now split.
Qed.

Lemma add_raise (dt : datetime) (delta : timedelta) (e : exception) :
  add dt delta = Raise e ->
  e = OverflowError /\ in_range (fields dt + delta) = false.
Proof.
  unfold add. destruct (in_range (fields dt + delta)); [discriminate|].
  intros [= <-]. now split.
Qed.

Lemma in_zone_aware (tz : timezone) (dt : datetime) :
  in_zone tz dt -> is_aware dt = true.
Proof. intros (ti & H & _). unfold is_aware. now rewrite H. Qed.

Lemma reading_instant (tz : timezone) (utc : Z) :
  instant (reading tz utc) = utc.
Proof. unfold instant, reading. destruct tz; simpl; lia. Qed.

Lemma reading_in_zone (tz : timezone) (utc : Z) : in_zone tz (reading tz utc).
Proof. destruct tz; eexists; split; reflexivity. Qed.

Lemma reading_aware (tz : timezone) (utc : Z) :
  is_aware (reading tz utc) = true.
Proof. reflexivity. Qed.

Lemma fromutc_inv (tz : timezone) (utc : Z) (d : datetime) :
  fromutc tz utc = Ok d -> d = reading tz utc.
Proof.
  destruct tz as [|z info|z lmt trs]; unfold fromutc, reading; simpl.
  - intros [= <-]. f_equal. lia.
  - destruct (add _ _) as [a|] eqn:E; [|discriminate].
    apply add_inv in E as [_ ->]. now intros [= <-].
  - destruct (add _ _) as [a|] eqn:E; [|discriminate].
    apply add_inv in E as [_ ->]. now intros [= <-].
Qed.

Lemma fromutc_ok (tz : timezone) (utc : Z) :
  in_range (utc + utcoffset_at tz utc) = true ->
  fromutc tz utc = Ok (reading tz utc).
Proof.
  destruct tz as [|z info|z lmt trs]; unfold fromutc, reading; simpl;
    intros H.
  - do 2 f_equal. lia.
  - now rewrite add_ok.
  - now rewrite add_ok.
Qed.

Lemma fromutc_raise (tz : timezone) (utc : Z) (e : exception) :
  fromutc tz utc = Raise e ->
  e = OverflowError /\ in_range (utc + utcoffset_at tz utc) = false.
Proof.
  destruct tz as [|z info|z lmt trs]; unfold fromutc; simpl.
  - discriminate.
  - destruct (add _ _) as [a|e'] eqn:E; [discriminate|].
    intros [= <-]. now apply add_raise in E.
  - destruct (add _ _) as [a|e'] eqn:E; [discriminate|].
    intros [= <-]. now apply add_raise in E.
Qed.

Lemma to_utc_inv (dt : datetime) (ti : tzinfo) (u : Z) :
  to_utc dt ti = Ok u ->
  u = fields dt - _utcoffset ti /\ in_range u = true.
Proof.
  unfold to_utc. destruct (add _ _) as [a|] eqn:E; [|discriminate].
  apply add_inv in E as [Hr ->]. simpl in *. intros [= <-].
  replace (fields dt - _utcoffset ti) with (fields dt + - _utcoffset ti)
    by lia.
  now split.
Qed.

Lemma to_utc_ok (dt : datetime) (ti : tzinfo) :
  in_range (fields dt - _utcoffset ti) = true ->
  to_utc dt ti = Ok (fields dt - _utcoffset ti).
Proof.
  intros H. unfold to_utc.
  replace (fields dt - _utcoffset ti) with (fields dt + - _utcoffset ti) in *
    by lia.
  now rewrite add_ok.
Qed.

Lemma to_utc_raise (dt : datetime) (ti : tzinfo) (e : exception) :
  to_utc dt ti = Raise e ->
  e = OverflowError /\ in_range (fields dt - _utcoffset ti) = false.
Proof.
  unfold to_utc. destruct (add _ _) as [a|e'] eqn:E; [discriminate|].
  intros [= <-]. apply add_raise in E as [-> E]. simpl in E.
  replace (fields dt - _utcoffset ti) with (fields dt + - _utcoffset ti)
    by lia.
  now split.
Qed.

(** A value that carries the [tzinfo] of [UTC] or of a [StaticTzInfo] is
    the reading of its own instant in that zone. *)
Lemma reading_own (tz : timezone) (dt : datetime) :
  tzinfo_of dt = Some (tzinfo_at tz 0) ->
  (tz = UTC \/ exists z info, tz = StaticTzInfo z info) ->
  dt = reading tz (instant dt).
Proof.
  intros H Htz. destruct dt as [f t]. simpl in H. subst t.
  unfold reading, instant.
  destruct Htz as [->|(z & info & ->)]; simpl; f_equal; lia.
Qed.

(** What [normalize] returns is the reading of the instant in the zone. *)
Lemma normalize_inv (tz : timezone) (dt n : datetime) :
  normalize tz dt = Ok n ->
  is_aware dt = true /\ n = reading tz (instant dt).
Proof.
  unfold normalize, is_aware.
  destruct (tzinfo_of dt) as [ti|] eqn:Et; [|discriminate].
  intros H. split; [reflexivity|].
  assert (rbind (to_utc dt ti) (fromutc tz) = Ok n ->
          n = reading tz (instant dt)) as Hconv.
  { destruct (to_utc dt ti) as [u|] eqn:Eu; [|discriminate]. simpl.
    apply to_utc_inv in Eu as [-> _]. intros Hf.
    apply fromutc_inv in Hf. unfold instant. now rewrite Et. }
  destruct tz as [|z info|z lmt trs].
  - destruct (decide (ti = tzUTC)) as [->|_]; [|now apply Hconv].
    injection H as <-. apply reading_own; [assumption | now left].
  - destruct (decide (ti = tzStatic z info)) as [->|_]; [|now apply Hconv].
    injection H as <-. apply reading_own; [assumption | right; eauto].
  - now apply Hconv.
Qed.

Lemma normalize_ok (tz : timezone) (dt : datetime) :
  is_aware dt = true ->
  in_range (instant dt) = true ->
  in_range (instant dt + utcoffset_at tz (instant dt)) = true ->
  normalize tz dt = Ok (reading tz (instant dt)).
Proof.
  intros Ha Hu Hx. unfold normalize. unfold is_aware in Ha.
  destruct (tzinfo_of dt) as [ti|] eqn:Et; [|discriminate].
  assert (instant dt = fields dt - _utcoffset ti) as Hi
    by (unfold instant; now rewrite Et).
  assert (rbind (to_utc dt ti) (fromutc tz) = Ok (reading tz (instant dt)))
    as Hconv.
  { rewrite to_utc_ok by (rewrite <- Hi; exact Hu). simpl. rewrite <- Hi.
    now apply fromutc_ok. }
  destruct tz as [|z info|z lmt trs]; [| |exact Hconv].
  - destruct (decide (ti = tzUTC)) as [->|_]; [|exact Hconv].
    f_equal. apply reading_own; [exact Et | now left].
  - destruct (decide (ti = tzStatic z info)) as [->|_]; [|exact Hconv].
    f_equal. apply reading_own; [exact Et | right; eauto].
Qed.


(** [normalize] raises [ValueError] on a naive value and nothing but
    [OverflowError] on an aware one, and this only when the instant or its
    wall clock in the zone is out of the bounds. *)
Lemma normalize_raise (tz : timezone) (dt : datetime) (e : exception) :
  normalize tz dt = Raise e ->
  (is_aware dt = false /\ e = ValueError)
  \/ (is_aware dt = true /\ e = OverflowError
      /\ (in_range (instant dt) = false
          \/ in_range (instant dt + utcoffset_at tz (instant dt)) = false)).
Proof.
  unfold normalize, is_aware, instant.
  destruct (tzinfo_of dt) as [ti|] eqn:Et;
    [|intros [= <-]; left; now split].
  intros H. right. split; [reflexivity|].
  assert (rbind (to_utc dt ti) (fromutc tz) = Raise e ->
          e = OverflowError
          /\ (in_range (fields dt - _utcoffset ti) = false
              \/ in_range (fields dt - _utcoffset ti
                           + utcoffset_at tz (fields dt - _utcoffset ti))
                 = false)) as Hconv.
  { destruct (to_utc dt ti) as [u|e'] eqn:Eu; simpl.
    - apply to_utc_inv in Eu as [-> _]. intros Hf.
      apply fromutc_raise in Hf as [-> Hf]. split; [reflexivity | now right].
    - intros [= <-]. apply to_utc_raise in Eu as [-> Eu].
      split; [reflexivity | now left]. }
  destruct tz as [|z info|z lmt trs]; [| |now apply Hconv].
  - destruct (decide (ti = tzUTC)); [discriminate | now apply Hconv].
  - destruct (decide (ti = tzStatic z info)); [discriminate | now apply Hconv].
Qed.

Lemma normalize_raise_aware (tz : timezone) (dt : datetime) (e : exception) :
  is_aware dt = true -> normalize tz dt = Raise e -> e = OverflowError.
Proof.
  intros Ha H. apply normalize_raise in H as [[H _]|(_ & H & _)];
    [congruence | exact H].
Qed.

Lemma fromutc_range (tz : timezone) (utc : Z) (d : datetime) :
  in_range utc = true -> fromutc tz utc = Ok d ->
  in_range (utc + utcoffset_at tz utc) = true.
Proof.
  intros Hu. destruct tz as [|z info|z lmt trs]; unfold fromutc; simpl.
  - intros _. now rewrite Z.add_0_r.
  - destruct (add _ _) as [a|] eqn:E; [|discriminate].
    now apply add_inv in E as [E _].
  - destruct (add _ _) as [a|] eqn:E; [|discriminate].
    now apply add_inv in E as [E _].
Qed.

Lemma normalize_shortcut (tz : timezone) (dt : datetime) :
  tzinfo_of dt = Some (tzinfo_at tz 0) ->
  (tz = UTC \/ exists z info, tz = StaticTzInfo z info) ->
  normalize tz dt = Ok dt.
Proof.
  intros Ht [->|(z & info & ->)]; unfold normalize; rewrite Ht;
    cbn [tzinfo_at]; now rewrite decide_True.
Qed.

(** Unless [dt] already carries the [tzinfo] of [UTC] or of the
    [StaticTzInfo], [normalize] returns exactly when the instant and its
    wall clock in the zone are within the bounds. *)
Lemma normalize_convert (tz : timezone) (dt : datetime) (ti : tzinfo) :
  tzinfo_of dt = Some ti ->
  (ti <> tzinfo_at tz 0 \/ exists z lmt trs, tz = DstTzInfo z lmt trs) ->
  normalize tz dt =
    if in_range (instant dt)
       && in_range (instant dt + utcoffset_at tz (instant dt))
    then Ok (reading tz (instant dt)) else Raise OverflowError.
Proof.
  intros Ht Hno.
  assert (is_aware dt = true) as Ha by (unfold is_aware; now rewrite Ht).
  assert (normalize tz dt = rbind (to_utc dt ti) (fromutc tz)) as Hn.
  { unfold normalize. rewrite Ht.
    destruct tz as [|z info|z lmt trs]; [| |reflexivity].
    - destruct (decide (ti = tzUTC)) as [->|_]; [|reflexivity].
      destruct Hno as [Hno|(? & ? & ? & Hno)]; [now elim Hno|discriminate].
    - destruct (decide (ti = tzStatic z info)) as [->|_]; [|reflexivity].
      destruct Hno as [Hno|(? & ? & ? & Hno)]; [now elim Hno|discriminate]. }
  rewrite Hn. clear Hn.
  assert (instant dt = fields dt - _utcoffset ti) as Hi
    by (unfold instant; now rewrite Ht).
  destruct (to_utc dt ti) as [u|e] eqn:Eu; cbn [rbind].
  - apply to_utc_inv in Eu as [-> Hr]. rewrite Hi, Hr. cbn [andb].
    destruct (fromutc tz _) as [d|e] eqn:Ef.
    + rewrite (fromutc_range _ _ _ Hr Ef). now apply fromutc_inv in Ef as ->.
    + apply fromutc_raise in Ef as [-> ->]. reflexivity.
  - apply to_utc_raise in Eu as [-> Hr]. now rewrite Hi, Hr.
Qed.

Lemma normalize_dichotomy (tz : timezone) (ti : tzinfo) :
  (ti = tzinfo_at tz 0
   /\ (tz = UTC \/ exists z info, tz = StaticTzInfo z info))
  \/ (ti <> tzinfo_at tz 0 \/ exists z lmt trs, tz = DstTzInfo z lmt trs).
Proof.
  destruct tz as [|z info|z lmt trs].
  - destruct (decide (ti = tzinfo_at UTC 0)); [left|right]; auto.
  - destruct (decide (ti = tzinfo_at (StaticTzInfo z info) 0));
      [left|right]; eauto.
  - right. right. eauto.
Qed.

Lemma tzinfo_at_shortcut (tz tz' : timezone) (utc : Z) :
  tzinfo_at tz' utc = tzinfo_at tz 0 ->
  (tz = UTC \/ exists z info, tz = StaticTzInfo z info) ->
  tz' = tz.
Proof.
  intros H [->|(z & info & ->)]; destruct tz'; simpl in H;
    congruence.
Qed.

(** A datetime and its normalization to some zone are normalized alike
    to any zone. *)
Lemma normalize_after (tz tz' : timezone) (d h : datetime) :
  valid d -> normalize tz d = Ok h -> normalize tz' h = normalize tz' d.
Proof.
  intros Hv Hn. pose proof (normalize_inv tz d h Hn) as [Ha Hh].
  unfold is_aware in Ha. destruct (tzinfo_of d) as [ti|] eqn:Et;
    [|discriminate]. clear Ha.
  destruct (normalize_dichotomy tz ti) as [[-> Hs]|Hc].
  { rewrite (normalize_shortcut tz d Et Hs) in Hn. now injection Hn as <-. }
  rewrite (normalize_convert tz d ti Et Hc) in Hn.
  destruct (in_range (instant d)) eqn:Hu; [|discriminate].
  assert (tzinfo_of h = Some (tzinfo_at tz (instant d))) as Eh
    by (now rewrite Hh).
  assert (instant h = instant d) as Hi
    by (rewrite Hh; apply reading_instant).
  destruct (normalize_dichotomy tz' (tzinfo_at tz (instant d)))
    as [[Hti Hs]|Hc'].
  { pose proof (tzinfo_at_shortcut tz' tz _ Hti Hs) as ->.
    rewrite (normalize_shortcut tz' h) by (congruence || assumption).
    rewrite (normalize_convert tz' d ti Et Hc), Hu. now symmetry. }
  rewrite (normalize_convert tz' h _ Eh Hc'), Hi, Hu.
  destruct (normalize_dichotomy tz' ti) as [[-> Hs]|Hc''].
  - rewrite (normalize_shortcut tz' d Et Hs).
    pose proof (reading_own tz' d Et Hs) as Hd.
    assert (in_range (instant d + utcoffset_at tz' (instant d)) = true)
      as ->.
    { unfold valid in Hv. rewrite Hd in Hv at 1. exact Hv. }
    cbn [andb]. now rewrite <- Hd.
  - now rewrite (normalize_convert tz' d ti Et Hc''), Hu.
Qed.

Lemma transition_info_at_In (cur : ttinfo) (trs : list (Z * ttinfo)) (x : Z) :
  In (transition_info_at cur trs x) (cur :: List.map snd trs).
Proof.
  revert cur. induction trs as [|[t inf] rest IH]; intros cur; simpl.
  - now left.
  - destruct (x <? t); [now left|]. right. apply IH.
Qed.

Lemma small_offset_spec (info : ttinfo) :
  small_offset info = true <-> - DAYS_1 < tt_utcoffset info < DAYS_1.
Proof.
  unfold small_offset. rewrite andb_true_iff, !Z.ltb_lt. reflexivity.
Qed.

Lemma well_formed_offset (tz : timezone) (utc : Z) :
  well_formed tz = true -> - DAYS_1 < utcoffset_at tz utc < DAYS_1.
Proof.
  destruct tz as [|z info|z lmt trs]; simpl.
  - intros _. rewrite DAYS_1_eq. lia.
  - apply small_offset_spec.
  - intros H. apply andb_true_iff in H as [Hl Ht].
    destruct (transition_info_at_In lmt trs utc) as [<-|Hin].
    + now apply small_offset_spec.
    + apply in_map_iff in Hin as ([t inf] & Heq & Hin). simpl in Heq.
      rewrite forallb_forall in Ht. specialize (Ht _ Hin). simpl in Ht.
      apply andb_true_iff in Ht as [Ht _]. rewrite <- Heq.
      now apply small_offset_spec.
Qed.

Lemma well_formed_first (z : string) (lmt inf : ttinfo) (t : Z)
    (rest : list (Z * ttinfo)) :
  well_formed (DstTzInfo z lmt ((t, inf) :: rest)) = true ->
  4 * DAYS_1 <= t /\ - DAYS_1 < tt_utcoffset lmt < DAYS_1.
Proof.
  simpl. intros H. apply andb_true_iff in H as [Hl H].
  apply andb_true_iff in H as [H _]. apply andb_true_iff in H as [_ H].
  apply Z.leb_le in H. apply small_offset_spec in Hl. now split.
Qed.

(** In a zone whose transitions are two days apart, the entries in force
    during two days are the one at their start and the one at their
    end. *)
Lemma spaced_window (cur : ttinfo) (trs : list (Z * ttinfo)) (lo v : Z) :
  spaced trs = true -> lo <= v <= lo + 2 * DAYS_1 ->
  transition_info_at cur trs v = transition_info_at cur trs lo
  \/ transition_info_at cur trs v
     = transition_info_at cur trs (lo + 2 * DAYS_1).
Proof.
  revert cur. induction trs as [|[t inf] rest IH]; intros cur Hs Hv.
  - now left.
  - assert (spaced rest = true) as Hrest.
    { simpl in Hs. destruct rest as [|[t' inf'] rest']; [reflexivity|].
      now apply andb_true_iff in Hs as [_ ?]. }
    cbn [transition_info_at].
    destruct (Z.ltb_spec v t) as [Hvt|Hvt],
             (Z.ltb_spec lo t) as [Hlt|Hlt],
             (Z.ltb_spec (lo + 2 * DAYS_1) t) as [Hht|Hht];
      try lia; try (now left); try (now right).
    + right. destruct rest as [|[t' inf'] rest']; [reflexivity|].
      simpl in Hs. apply andb_true_iff in Hs as [Hs _].
      apply Z.leb_le in Hs. cbn [transition_info_at].
      destruct (Z.ltb_spec v t'), (Z.ltb_spec (lo + 2 * DAYS_1) t');
        (reflexivity || lia).
    + now apply IH.
Qed.

Lemma steps_nonpos (a : Z) : a / 21600000000 + 1 <= 0 -> a < 0.
Proof.
  intros H. apply Z.nle_gt. intros Hge.
  pose proof (Z.div_pos a 21600000000 Hge ltac:(lia)). lia.
Qed.

Lemma steps_pos (a : Z) : 0 < a / 21600000000 + 1 -> 0 <= a.
Proof.
  intros H. apply Z.nlt_ge. intros Hlt.
  assert (a / 21600000000 < 0) by (apply Z.div_lt_upper_bound; lia). lia.
Qed.

Lemma set_add_twice (p : datetime) : set_add p (set_add p []) = [p].
Proof.
  unfold set_add. simpl. unfold aware_eqb. now rewrite datetime_eq_refl.
Qed.

Lemma extreme_In (latest : bool) (best : datetime) (l : list datetime) :
  In (extreme latest best l) (best :: l).
Proof.
  revert best. induction l as [|p rest IH]; intros best; simpl.
  - now left.
  - destruct (IH (if (if latest then instant best <? instant p
                      else instant p <? instant best) then p else best))
      as [H|H].
    + destruct (if latest then _ else _); [right; left|left]; exact H.
    + right. right. exact H.
Qed.

Lemma extreme_latest (best : datetime) (l : list datetime) (c : datetime) :
  In c (best :: l) -> instant c <= instant (extreme true best l).
Proof.
  revert best c. induction l as [|p rest IH]; intros best c Hin; simpl.
  - destruct Hin as [->|[]]. lia.
  - destruct (Z.ltb_spec (instant best) (instant p)) as [Hlt|Hge].
    + destruct Hin as [<-|[<-|Hin]].
      * pose proof (IH p p (or_introl eq_refl)). lia.
      * apply IH. now left.
      * apply IH. now right.
    + destruct Hin as [<-|[<-|Hin]].
      * apply IH. now left.
      * pose proof (IH best best (or_introl eq_refl)). lia.
      * apply IH. now right.
Qed.

Lemma last_cons_default (a d d' : ttinfo) (l : list ttinfo) :
  List.last (a :: l) d = List.last (a :: l) d'.
Proof.
  revert a. induction l as [|b l IH]; intros a; [reflexivity|].
  change (List.last (b :: l) d = List.last (b :: l) d'). apply IH.
Qed.

Lemma last_info_cons (cur inf : ttinfo) (t : Z) (l : list (Z * ttinfo)) :
  last_info cur ((t, inf) :: l) = last_info inf l.
Proof.
  unfold last_info. simpl List.map. destruct (List.map snd l) as [|a infos].
  - reflexivity.
  - change (List.last (a :: infos) cur = List.last (a :: infos) inf).
    apply last_cons_default.
Qed.

Lemma transition_info_at_last (cur : ttinfo) (l : list (Z * ttinfo)) (y : Z) :
  Forall (fun t => t <= y) (List.map fst l) ->
  transition_info_at cur l y = last_info cur l.
Proof.
  revert cur. induction l as [|[t inf] rest IH]; intros cur H.
  - reflexivity.
  - apply Forall_cons_1 in H as [Ht Hrest]. simpl in Ht.
    rewrite last_info_cons. simpl.
    destruct (Z.ltb_spec y t); [lia|]. now apply IH.
Qed.

Lemma fold_max_ge (t0 : Z) (l : list Z) :
  t0 <= fold_right Z.max t0 l /\ Forall (fun t => t <= fold_right Z.max t0 l) l.
Proof.
  induction l as [|a l [IH1 IH2]]; simpl.
  - split; [lia | constructor].
  - split; [lia|]. constructor; [lia|].
    eapply Forall_impl; [exact IH2|]. simpl. intros. lia.
Qed.

Lemma localize_dst_S (fuel : nat) (z : string) (lmt : ttinfo)
    (trs : list (Z * ttinfo)) (x : Z) (is_dst : option bool) :
  localize_dst (S fuel) z lmt trs x is_dst =
    rbind (possible_loc_dt z lmt trs x) (fun possible =>
    match possible with
    | [p] => Ok p
    | [] =>
        match is_dst with
        | None => Raise NonExistentTimeError
        | Some true =>
            rbind (add (mk_datetime x None) HOURS_6) (fun dt' =>
            rbind (localize_dst fuel z lmt trs (fields dt') is_dst)
                  (fun r => add r (- HOURS_6)))
        | Some false =>
            rbind (add (mk_datetime x None) (- HOURS_6)) (fun dt' =>
            rbind (localize_dst fuel z lmt trs (fields dt') is_dst)
                  (fun r => add r HOURS_6))
        end
    | p :: ps =>
        match is_dst with
        | None => Raise AmbiguousTimeError
        | Some b =>
            match List.filter
                    (fun q => Bool.eqb (negb (_dst_of q =? 0)) b) (p :: ps)
            with
            | [q] => Ok q
            | [] => Ok (extreme (negb b) p ps)
            | q :: qs => Ok (extreme (negb b) q qs)
            end
        end
    end).
Proof. reflexivity. Qed.


Section DstZone.

Variables (z : string) (lmt : ttinfo).

Lemma candidate_inv (trs : list (Z * ttinfo)) (x delta : Z)
    (s s' : list datetime) :
  candidate z lmt trs x delta s = Ok s' ->
  s' = keep x (reading (DstTzInfo z lmt trs)
                 (x - tt_utcoffset (transition_info_at lmt trs (x + delta))))
            s.
Proof.
  unfold candidate.
  destruct (add (mk_datetime x None) delta) as [loc|] eqn:Ea; [|discriminate].
  apply add_inv in Ea as [_ ->]. cbn [rbind fields].
  destruct (normalize _ _) as [c|] eqn:En; [|discriminate].
  apply normalize_inv in En as [_ ->]. now intros [= <-].
Qed.

Lemma candidate_raise (trs : list (Z * ttinfo)) (x delta : Z)
    (s : list datetime) (e : exception) :
  candidate z lmt trs x delta s = Raise e -> e = OverflowError.
Proof.
  unfold candidate.
  destruct (add (mk_datetime x None) delta) as [loc|e'] eqn:Ea.
  - cbn [rbind]. destruct (normalize _ _) as [c|e''] eqn:En; [discriminate|].
    intros [= <-]. now apply normalize_raise_aware in En.
  - intros [= <-]. now apply add_raise in Ea.
Qed.

Lemma candidate_ok (trs : list (Z * ttinfo)) (x delta : Z)
    (s : list datetime) :
  well_formed (DstTzInfo z lmt trs) = true ->
  inside 2 x -> - DAYS_1 <= delta <= DAYS_1 ->
  exists s', candidate z lmt trs x delta s = Ok s'.
Proof.
  intros Hwf [Hlo Hhi] Hd. unfold candidate.
  rewrite add_ok by (apply in_range_spec; simpl; rewrite DAYS_1_eq in *; lia).
  cbn [rbind fields].
  set (inf := transition_info_at lmt trs (x + delta)).
  pose proof (well_formed_offset _ (x + delta) Hwf) as Ho.
  cbn [utcoffset_at] in Ho. fold inf in Ho.
  pose proof (well_formed_offset _ (x - tt_utcoffset inf) Hwf) as Ho'.
  rewrite normalize_ok.
  - eexists. reflexivity.
  - reflexivity.
  - apply in_range_spec. unfold instant. simpl. rewrite DAYS_1_eq in *. lia.
  - apply in_range_spec. unfold instant. simpl.
    cbn [utcoffset_at] in Ho'. rewrite DAYS_1_eq in *. lia.
Qed.

Lemma keep_readings (trs : list (Z * ttinfo)) (x u : Z) (s : list datetime) :
  Forall (fun c => fields c = x
                   /\ c = reading (DstTzInfo z lmt trs) (instant c)) s ->
  Forall (fun c => fields c = x
                   /\ c = reading (DstTzInfo z lmt trs) (instant c))
         (keep x (reading (DstTzInfo z lmt trs) u) s).
Proof.
  intros Hs. unfold keep.
  destruct (Z.eqb_spec (fields (reading (DstTzInfo z lmt trs) u)) x)
    as [Hx|_]; [|assumption].
  unfold set_add. destruct (existsb _ s); [assumption|].
  apply Forall_app. split; [assumption|].
  constructor; [|constructor]. split; [exact Hx|].
  now rewrite reading_instant.
Qed.

Lemma keep_In (x : Z) (c c' : datetime) (s : list datetime) :
  In c s -> In c (keep x c' s).
Proof.
  intros H. unfold keep, set_add.
  destruct (fields c' =? x); [|assumption].
  destruct (existsb _ s); [assumption|]. apply in_or_app. now left.
Qed.

Lemma keep_found (trs : list (Z * ttinfo)) (x u : Z) (s : list datetime) :
  Forall (fun c => fields c = x
                   /\ c = reading (DstTzInfo z lmt trs) (instant c)) s ->
  fields (reading (DstTzInfo z lmt trs) u) = x ->
  exists c, In c (keep x (reading (DstTzInfo z lmt trs) u) s)
            /\ instant c = u.
Proof.
  intros Hs Hx. unfold keep. rewrite Hx, Z.eqb_refl. unfold set_add.
  destruct (existsb _ s) eqn:E.
  - apply existsb_exists in E as (c & Hin & Heq). exists c.
    split; [exact Hin|].
    rewrite Forall_forall in Hs.
    destruct (Hs c (proj2 (list_elem_of_In _ _) Hin)) as [_ Hc].
    unfold aware_eqb in Heq.
    rewrite datetime_eq_aware in Heq
      by (reflexivity || (rewrite Hc; reflexivity)).
    rewrite reading_instant in Heq. apply Z.eqb_eq in Heq. now symmetry.
  - eexists. split; [apply in_or_app; right; now left|].
    apply reading_instant.
Qed.

Lemma possible_inv (trs : list (Z * ttinfo)) (x : Z) (l : list datetime) :
  possible_loc_dt z lmt trs x = Ok l ->
  l = keep x (reading (DstTzInfo z lmt trs)
                (x - tt_utcoffset (transition_info_at lmt trs (x + DAYS_1))))
        (keep x (reading (DstTzInfo z lmt trs)
                   (x - tt_utcoffset
                          (transition_info_at lmt trs (x - DAYS_1))))
           []).
Proof.
  unfold possible_loc_dt.
  destruct (candidate z lmt trs x (- DAYS_1) []) as [s|] eqn:E1;
    [|discriminate].
  cbn [rbind]. intros E2.
  apply candidate_inv in E1, E2.
  replace (x + - DAYS_1) with (x - DAYS_1) in E1 by lia. now subst.
Qed.

Lemma possible_raise (trs : list (Z * ttinfo)) (x : Z) (e : exception) :
  possible_loc_dt z lmt trs x = Raise e -> e = OverflowError.
Proof.
  unfold possible_loc_dt.
  destruct (candidate z lmt trs x (- DAYS_1) []) as [s|e'] eqn:E1;
    cbn [rbind].
  - apply candidate_raise.
  - intros [= <-]. now apply candidate_raise in E1.
Qed.

Lemma possible_ok (trs : list (Z * ttinfo)) (x : Z) :
  well_formed (DstTzInfo z lmt trs) = true -> inside 2 x ->
  exists l, possible_loc_dt z lmt trs x = Ok l.
Proof.
  intros Hwf Hx. unfold possible_loc_dt.
  destruct (candidate_ok trs x (- DAYS_1) [] Hwf Hx) as [s ->];
    [rewrite DAYS_1_eq; lia|].
  cbn [rbind]. apply candidate_ok; [assumption..|rewrite DAYS_1_eq; lia].
Qed.

(** What the search keeps are readings of the wall clock [x]. *)
Lemma possible_readings (trs : list (Z * ttinfo)) (x : Z)
    (l : list datetime) :
  possible_loc_dt z lmt trs x = Ok l ->
  Forall (fun c => fields c = x
                   /\ c = reading (DstTzInfo z lmt trs) (instant c)) l.
Proof.
  intros H. apply possible_inv in H as ->.
  apply keep_readings, keep_readings. constructor.
Qed.

(** A reading of [x] under the entry found a day before or a day after
    [x] is kept by the search. *)
Lemma possible_complete (trs : list (Z * ttinfo)) (x u : Z)
    (l : list datetime) :
  possible_loc_dt z lmt trs x = Ok l ->
  transition_info_at lmt trs (x - DAYS_1) = transition_info_at lmt trs u
  \/ transition_info_at lmt trs (x + DAYS_1) = transition_info_at lmt trs u ->
  u + tt_utcoffset (transition_info_at lmt trs u) = x ->
  exists c, In c l /\ instant c = u.
Proof.
  intros H Hent Hu. apply possible_inv in H as ->.
  assert (fields (reading (DstTzInfo z lmt trs) u) = x) as Hf by exact Hu.
  destruct Hent as [Ha|Hb].
  - rewrite Ha. replace (x - tt_utcoffset (transition_info_at lmt trs u))
      with u by lia.
    destruct (keep_found trs x u [] ltac:(constructor) Hf) as (c & Hin & Hc).
    exists c. split; [now apply keep_In | exact Hc].
  - rewrite Hb. replace (x - tt_utcoffset (transition_info_at lmt trs u))
      with u by lia.
    apply keep_found; [|exact Hf]. apply keep_readings. constructor.
Qed.

(** When the same zone entry is found a day before and a day after the
    wall clock [x] and at the instant that entry gives [x], the search
    has exactly that candidate. *)
Lemma possible_single (trs : list (Z * ttinfo)) (x : Z) (inf : ttinfo)
    (l : list datetime) :
  transition_info_at lmt trs (x - DAYS_1) = inf ->
  transition_info_at lmt trs (x + DAYS_1) = inf ->
  transition_info_at lmt trs (x - tt_utcoffset inf) = inf ->
  possible_loc_dt z lmt trs x = Ok l ->
  l = [mk_datetime x (Some (tzDst z inf))].
Proof.
  intros Hb Ha Hu H. apply possible_inv in H as ->. rewrite Hb, Ha.
  assert (reading (DstTzInfo z lmt trs) (x - tt_utcoffset inf)
          = mk_datetime x (Some (tzDst z inf))) as ->.
  { unfold reading. simpl. rewrite Hu. f_equal. lia. }
  unfold keep. simpl. rewrite Z.eqb_refl. apply set_add_twice.
Qed.

Lemma possible_before_first (trs : list (Z * ttinfo)) (x : Z)
    (l : list datetime) :
  steps_back lmt trs x <= 0 ->
  possible_loc_dt z lmt trs x = Ok l ->
  l = [mk_datetime x (Some (tzDst z lmt))].
Proof.
  intros H. apply possible_single; destruct trs as [|[t1 i1] rest];
    try reflexivity; unfold steps_back in H; rewrite HOURS_6_eq in H;
    apply steps_nonpos in H; simpl; rewrite ?DAYS_1_eq in *;
    match goal with |- context [?a <? ?t] =>
      destruct (Z.ltb_spec a t); [reflexivity|lia] end.
Qed.

Lemma possible_after_last (trs : list (Z * ttinfo)) (x : Z)
    (l : list datetime) :
  steps_forward lmt trs x <= 0 ->
  possible_loc_dt z lmt trs x = Ok l ->
  l = [mk_datetime x (Some (tzDst z (last_info lmt trs)))].
Proof.
  intros H. unfold steps_forward in H.
  destruct trs as [|[t1 i1] rest] eqn:E.
  - now apply possible_single.
  - rewrite <- E in *. rewrite HOURS_6_eq, DAYS_1_eq in H.
    apply steps_nonpos in H.
    destruct (fold_max_ge t1 (List.map fst trs)) as [_ Hall].
    apply possible_single; apply transition_info_at_last;
      (eapply Forall_impl; [exact Hall|]); simpl; intros;
      rewrite ?DAYS_1_eq; lia.
Qed.

Lemma steps_back_step (trs : list (Z * ttinfo)) (x : Z) :
  0 < steps_back lmt trs x ->
  steps_back lmt trs (x - HOURS_6) = steps_back lmt trs x - 1.
Proof.
  unfold steps_back. destruct trs as [|[t1 i1] rest]; [lia|].
  intros _. rewrite HOURS_6_eq.
  replace (x - 21600000000 - Z.min (t1 - DAYS_1) (t1 + tt_utcoffset lmt))
    with (x - Z.min (t1 - DAYS_1) (t1 + tt_utcoffset lmt)
          + (-1) * 21600000000) by lia.
  rewrite Z.div_add by lia. lia.
Qed.

Lemma steps_forward_step (trs : list (Z * ttinfo)) (x : Z) :
  0 < steps_forward lmt trs x ->
  steps_forward lmt trs (x + HOURS_6) = steps_forward lmt trs x - 1.
Proof.
  unfold steps_forward. destruct trs as [|[t1 i1] rest]; [lia|].
  intros _. rewrite HOURS_6_eq.
  set (m := Z.max _ _).
  replace (m - (x + 21600000000)) with (m - x + (-1) * 21600000000) by lia.
  rewrite Z.div_add by lia. lia.
Qed.

(** Among the readings the search kept, [is_dst=False] returns one that
    [default_prefers] over every other. *)
Lemma select_default (trs : list (Z * ttinfo)) (x : Z) (p : datetime)
    (ps : list datetime) :
  Forall (fun c => fields c = x
                   /\ c = reading (DstTzInfo z lmt trs) (instant c))
         (p :: ps) ->
  exists r,
    match List.filter (fun q => Bool.eqb (negb (_dst_of q =? 0)) false)
                      (p :: ps) with
    | [q] => Ok q
    | [] => Ok (extreme (negb false) p ps)
    | q :: qs => Ok (extreme (negb false) q qs)
    end = Ok r
    /\ In r (p :: ps)
    /\ forall c, In c (p :: ps) -> instant c <> instant r ->
         default_prefers (transition_info_at lmt trs (instant r)) (instant r)
                         (transition_info_at lmt trs (instant c)) (instant c)
         = true.
Proof.
  intros Hl. set (l := p :: ps) in *.
  set (f := fun q => Bool.eqb (negb (_dst_of q =? 0)) false).
  assert (forall c, In c l ->
            _dst_of c = tt_dst (transition_info_at lmt trs (instant c)))
    as Hdst.
  { intros c Hc. rewrite Forall_forall in Hl.
    destruct (Hl c (proj2 (list_elem_of_In _ _) Hc)) as [_ Hr].
    rewrite Hr at 1. reflexivity. }
  assert (forall c, f c = true <-> (_dst_of c =? 0) = true) as Hf.
  { intros c. unfold f. destruct (_dst_of c =? 0); simpl; intuition congruence. }
  assert (forall r, In r l ->
            (forall c, In c l -> instant c <> instant r ->
               ((_dst_of r =? 0) = true /\ (_dst_of c =? 0) = false)
               \/ ((_dst_of r =? 0) = (_dst_of c =? 0)
                   /\ instant c < instant r)) ->
            forall c, In c l -> instant c <> instant r ->
              default_prefers
                (transition_info_at lmt trs (instant r)) (instant r)
                (transition_info_at lmt trs (instant c)) (instant c) = true)
    as Hpref.
  { intros r Hr H c Hc Hne. unfold default_prefers.
    rewrite <- (Hdst r Hr), <- (Hdst c Hc).
    destruct (H c Hc Hne) as [[-> ->]|[-> Hlt]]; [reflexivity|].
    apply Z.ltb_lt in Hlt. rewrite Hlt, eqb_reflx.
    now destruct (_dst_of c =? 0). }
  destruct (List.filter f l) as [|q [|q' qs]] eqn:Ef.
  - exists (extreme true p ps). split; [reflexivity|].
    pose proof (extreme_In true p ps) as Hin. split; [exact Hin|].
    assert (forall c, In c l -> (_dst_of c =? 0) = false) as Hnone.
    { intros c Hc. destruct (_dst_of c =? 0) eqn:E; [|reflexivity].
      assert (In c (List.filter f l)) as Hcf
        by (apply filter_In; split; [exact Hc | now apply Hf]).
      rewrite Ef in Hcf. destruct Hcf. }
    apply (Hpref _ Hin). intros c Hc Hne. right.
    rewrite (Hnone _ Hin), (Hnone _ Hc). split; [reflexivity|].
    pose proof (extreme_latest p ps c Hc). lia.
  - exists q. split; [reflexivity|].
    assert (In q (List.filter f l)) as Hq by (rewrite Ef; now left).
    apply filter_In in Hq as [Hq Hfq]. split; [exact Hq|].
    apply (Hpref _ Hq). intros c Hc Hne. left.
    split; [now apply Hf|].
    destruct (_dst_of c =? 0) eqn:E; [|reflexivity].
    assert (In c (List.filter f l)) as Hcf
      by (apply filter_In; split; [exact Hc | now apply Hf]).
    rewrite Ef in Hcf. destruct Hcf as [->|[]]. congruence.
  - exists (extreme true q (q' :: qs)). split; [reflexivity|].
    pose proof (extreme_In true q (q' :: qs)) as Hin.
    rewrite <- Ef in Hin. apply filter_In in Hin as [Hin Hfr].
    split; [exact Hin|].
    apply (Hpref _ Hin). intros c Hc Hne.
    apply Hf in Hfr. rewrite Hfr.
    destruct (_dst_of c =? 0) eqn:E; [|left; now split].
    right. split; [reflexivity|].
    assert (In c (q :: q' :: qs)) as Hcf
      by (rewrite <- Ef; apply filter_In; split; [exact Hc | now apply Hf]).
    pose proof (extreme_latest q (q' :: qs) c Hcf). lia.
Qed.

(** When the search keeps a reading, [is_dst=False] returns a reading of
    [x] that [default_prefers] over every other one kept. *)
Lemma localize_dst_found (trs : list (Z * ttinfo)) (fuel : nat) (x : Z)
    (l : list datetime) :
  possible_loc_dt z lmt trs x = Ok l -> l <> [] ->
  exists r,
    localize_dst (S fuel) z lmt trs x (Some false) = Ok r
    /\ In r l
    /\ forall c, In c l -> instant c <> instant r ->
         default_prefers (transition_info_at lmt trs (instant r)) (instant r)
                         (transition_info_at lmt trs (instant c)) (instant c)
         = true.
Proof.
  intros Hp Hne. pose proof (possible_readings trs x l Hp) as Hl.
  rewrite localize_dst_S, Hp. cbn [rbind].
  destruct l as [|p [|q ps]]; [congruence| |].
  - exists p. split; [reflexivity|]. split; [now left|].
    intros c [->|[]] Hc. congruence.
  - exact (select_default trs x p (q :: ps) Hl).
Qed.

(** With fuel for the steps left, the search returns a value of the zone
    with the wall clock it was given, or raises [OverflowError]. *)
Lemma localize_dst_cases (trs : list (Z * ttinfo)) (b : bool) (n : nat)
    (x : Z) :
  (if b then steps_forward lmt trs x else steps_back lmt trs x)
    <= Z.of_nat n ->
  localize_dst (S n) z lmt trs x (Some b) = Raise OverflowError
  \/ exists r, localize_dst (S n) z lmt trs x (Some b) = Ok r
               /\ fields r = x /\ in_zone (DstTzInfo z lmt trs) r.
Proof.
  revert x. induction n as [|n IH]; intros x Hn; rewrite localize_dst_S;
    (destruct (possible_loc_dt z lmt trs x) as [l|e] eqn:Hp;
     [|left; apply possible_raise in Hp as ->; reflexivity]);
    pose proof (possible_readings trs x l Hp) as Hl; cbn [rbind];
    assert (forall r, In r l ->
              fields r = x /\ in_zone (DstTzInfo z lmt trs) r) as Hin
      by (intros r Hr; rewrite Forall_forall in Hl;
          destruct (Hl r (proj2 (list_elem_of_In _ _) Hr)) as [Hf Hrd];
          split; [exact Hf | rewrite Hrd; apply reading_in_zone]).
  - assert (l <> []) as Hne.
    { intros ->. destruct b;
        [apply possible_after_last in Hp | apply possible_before_first in Hp];
        (discriminate || lia). }
    destruct l as [|p [|q ps]]; [congruence| |].
    + right. exists p. split; [reflexivity|]. apply Hin. now left.
    + right. set (l := p :: q :: ps) in *.
      destruct (List.filter _ l) as [|q0 [|q1 qs]] eqn:Ef.
      * eexists. split; [reflexivity|]. apply Hin.
        exact (extreme_In (negb b) p (q :: ps)).
      * eexists. split; [reflexivity|]. apply Hin.
        assert (In q0 (List.filter
                         (fun q2 => Bool.eqb (negb (_dst_of q2 =? 0)) b) l))
          as Hq by (rewrite Ef; now left).
        now apply filter_In in Hq as [? _].
      * eexists. split; [reflexivity|]. apply Hin.
        pose proof (extreme_In (negb b) q0 (q1 :: qs)) as Hq.
        rewrite <- Ef in Hq. now apply filter_In in Hq as [? _].
  - destruct l as [|p [|q ps]].
    + assert (0 < (if b then steps_forward lmt trs x
                   else steps_back lmt trs x)) as Hpos.
      { apply Z.nle_gt. intros Hle. destruct b;
          [apply possible_after_last in Hp | apply possible_before_first in Hp];
          (discriminate || assumption). }
      destruct b.
      * destruct (add (mk_datetime x None) HOURS_6) as [dt'|e] eqn:Ea;
          [|left; apply add_raise in Ea as [-> _]; reflexivity].
        apply add_inv in Ea as [_ ->]. cbn [rbind fields].
        destruct (IH (x + HOURS_6)) as [->|(r & -> & Hf & Hz)].
        { rewrite steps_forward_step by exact Hpos. lia. }
        { now left. }
        cbn [rbind].
        destruct (add r (- HOURS_6)) as [r'|e] eqn:Er;
          [|left; apply add_raise in Er as [-> _]; reflexivity].
        apply add_inv in Er as [_ ->]. right. eexists.
        split; [reflexivity|]. split; [simpl; lia|].
        destruct Hz as (ti & Hti & Hzone). exists ti. now split.
      * destruct (add (mk_datetime x None) (- HOURS_6)) as [dt'|e] eqn:Ea;
          [|left; apply add_raise in Ea as [-> _]; reflexivity].
        apply add_inv in Ea as [_ ->]. cbn [rbind fields].
        destruct (IH (x + - HOURS_6)) as [->|(r & -> & Hf & Hz)].
        { replace (x + - HOURS_6) with (x - HOURS_6) by lia.
          rewrite steps_back_step by exact Hpos. lia. }
        { now left. }
        cbn [rbind].
        destruct (add r HOURS_6) as [r'|e] eqn:Er;
          [|left; apply add_raise in Er as [-> _]; reflexivity].
        apply add_inv in Er as [_ ->]. right. eexists.
        split; [reflexivity|]. split; [simpl; lia|].
        destruct Hz as (ti & Hti & Hzone). exists ti. now split.
    + right. exists p. split; [reflexivity|]. apply Hin. now left.
    + right. set (l := p :: q :: ps) in *.
      destruct (List.filter _ l) as [|q0 [|q1 qs]] eqn:Ef.
      * eexists. split; [reflexivity|]. apply Hin.
        exact (extreme_In (negb b) p (q :: ps)).
      * eexists. split; [reflexivity|]. apply Hin.
        assert (In q0 (List.filter
                         (fun q2 => Bool.eqb (negb (_dst_of q2 =? 0)) b) l))
          as Hq by (rewrite Ef; now left).
        now apply filter_In in Hq as [? _].
      * eexists. split; [reflexivity|]. apply Hin.
        pose proof (extreme_In (negb b) q0 (q1 :: qs)) as Hq.
        rewrite <- Ef in Hq. now apply filter_In in Hq as [? _].
Qed.

(** A wall clock that the search finds no reading for is at or after the
    first transition, less a day. *)
Lemma possible_none_late (trs : list (Z * ttinfo)) (x : Z) :
  well_formed (DstTzInfo z lmt trs) = true ->
  possible_loc_dt z lmt trs x = Ok [] ->
  0 < steps_back lmt trs x /\ 3 * DAYS_1 <= x.
Proof.
  intros Hwf Hp.
  assert (0 < steps_back lmt trs x) as Hpos.
  { apply Z.nle_gt. intros Hle. apply possible_before_first in Hp;
      [discriminate | assumption]. }
  split; [exact Hpos|].
  unfold steps_back in Hpos. destruct trs as [|[t1 i1] rest]; [lia|].
  apply well_formed_first in Hwf as [Ht Ho].
  rewrite HOURS_6_eq in Hpos. apply steps_pos in Hpos.
  rewrite DAYS_1_eq in *. lia.
Qed.

Lemma localize_dst_found_zone (trs : list (Z * ttinfo)) (fuel : nat) (x : Z)
    (l : list datetime) :
  possible_loc_dt z lmt trs x = Ok l -> l <> [] ->
  exists r, localize_dst (S fuel) z lmt trs x (Some false) = Ok r
            /\ fields r = x /\ in_zone (DstTzInfo z lmt trs) r.
Proof.
  intros Hp Hne.
  destruct (localize_dst_found trs fuel x l Hp Hne) as (r & Hr & Hin & _).
  exists r. split; [exact Hr|].
  pose proof (possible_readings trs x l Hp) as Hl.
  rewrite Forall_forall in Hl.
  destruct (Hl r (proj2 (list_elem_of_In _ _) Hin)) as [Hf Hrd].
  split; [exact Hf | rewrite Hrd; apply reading_in_zone].
Qed.

(** In a well-formed zone, two days or more from the bounds, the search
    under [is_dst=False] returns. *)
Lemma localize_dst_returns (trs : list (Z * ttinfo)) (n : nat) (x : Z) :
  well_formed (DstTzInfo z lmt trs) = true ->
  steps_back lmt trs x <= Z.of_nat n ->
  inside 2 x ->
  exists r, localize_dst (S n) z lmt trs x (Some false) = Ok r
            /\ fields r = x /\ in_zone (DstTzInfo z lmt trs) r.
Proof.
  intros Hwf. revert x. induction n as [|n IH]; intros x Hn Hx;
    destruct (possible_ok trs x Hwf Hx) as [l Hp];
    (destruct (decide (l = [])) as [->|Hne];
     [|now apply (localize_dst_found_zone trs _ x l)]);
    destruct (possible_none_late trs x Hwf Hp) as [Hpos H3].
  - lia.
  - rewrite localize_dst_S, Hp. cbn [rbind].
    assert (inside 2 (x + - HOURS_6)) as Hx'.
    { destruct Hx as [Hlo Hhi]. unfold inside.
      rewrite HOURS_6_eq, DAYS_1_eq in *. lia. }
    rewrite add_ok
      by (apply in_range_spec; destruct Hx' as [? ?]; simpl;
          rewrite DAYS_1_eq in *; lia).
    cbn [rbind fields].
    destruct (IH (x + - HOURS_6)) as (r & -> & Hf & Hz).
    { replace (x + - HOURS_6) with (x - HOURS_6) by lia.
      rewrite steps_back_step by exact Hpos. lia. }
    { exact Hx'. }
    cbn [rbind].
    rewrite add_ok
      by (apply in_range_spec; rewrite Hf; destruct Hx as [? ?];
          rewrite DAYS_1_eq in *; lia).
    eexists. split; [reflexivity|]. split; [simpl; lia|].
    destruct Hz as (ti & Hti & Hzone). exists ti. now split.
Qed.

(** In a well-formed zone whose transitions are two days apart, the
    entry under which an instant reads the wall clock [x] is found a day
    before or a day after [x]. *)
Lemma reading_entry_found (trs : list (Z * ttinfo)) (x u : Z) :
  well_formed (DstTzInfo z lmt trs) = true -> spaced trs = true ->
  u + tt_utcoffset (transition_info_at lmt trs u) = x ->
  transition_info_at lmt trs (x - DAYS_1) = transition_info_at lmt trs u
  \/ transition_info_at lmt trs (x + DAYS_1) = transition_info_at lmt trs u.
Proof.
  intros Hwf Hs Hu.
  pose proof (well_formed_offset _ u Hwf) as Ho. cbn [utcoffset_at] in Ho.
  destruct (spaced_window lmt trs (x - DAYS_1) u Hs) as [H|H]; [lia| |].
  - left. now symmetry.
  - right. replace (x - DAYS_1 + 2 * DAYS_1) with (x + DAYS_1) in H by lia.
    now symmetry.
Qed.

(** The default localization of a wall clock that some instant reads, in
    a well-formed zone whose transitions are two days apart: the reading
    that [default_prefers] over every other reading of the wall clock. *)
Lemma localize_dst_preferred (trs : list (Z * ttinfo)) (fuel : nat)
    (x u0 : Z) :
  well_formed (DstTzInfo z lmt trs) = true -> spaced trs = true ->
  inside 2 x ->
  u0 + tt_utcoffset (transition_info_at lmt trs u0) = x ->
  exists r,
    localize_dst (S fuel) z lmt trs x (Some false) = Ok r
    /\ fields r = x
    /\ r = reading (DstTzInfo z lmt trs) (instant r)
    /\ forall u',
         u' + tt_utcoffset (transition_info_at lmt trs u') = x ->
         u' <> instant r ->
         default_prefers (transition_info_at lmt trs (instant r)) (instant r)
                         (transition_info_at lmt trs u') u' = true.
Proof.
  intros Hwf Hs Hx Hu0.
  destruct (possible_ok trs x Hwf Hx) as [l Hp].
  assert (forall u, u + tt_utcoffset (transition_info_at lmt trs u) = x ->
                    exists c, In c l /\ instant c = u) as Hall.
  { intros u Hu. apply (possible_complete trs x u l Hp); [|exact Hu].
    now apply reading_entry_found. }
  assert (l <> []) as Hne.
  { destruct (Hall u0 Hu0) as (c & Hin & _). intros ->. destruct Hin. }
  destruct (localize_dst_found trs fuel x l Hp Hne) as (r & Hr & Hin & Hpref).
  pose proof (possible_readings trs x l Hp) as Hl. rewrite Forall_forall in Hl.
  destruct (Hl r (proj2 (list_elem_of_In _ _) Hin)) as [Hf Hrd].
  exists r. split; [exact Hr|]. split; [exact Hf|]. split; [exact Hrd|].
  intros u' Hu' Hne'. destruct (Hall u' Hu') as (c & Hc & <-).
  now apply Hpref.
Qed.



End DstZone.

(** [tz.localize(dt)] and [tz.localize(dt, is_dst=True)] of a naive [dt]
    return an aware value of the zone with the fields of [dt], or raise
    [OverflowError]; they raise nothing else. *)
Lemma localize_cases (tz : timezone) (x : Z) (b : bool) :
  localize tz (mk_datetime x None) (Some b) = Raise OverflowError
  \/ exists r, localize tz (mk_datetime x None) (Some b) = Ok r
               /\ fields r = x /\ in_zone tz r.
Proof.
  destruct tz as [|z info|z lmt trs]; unfold localize; simpl.
  - right. eexists. split; [reflexivity|]. split; [reflexivity|].
    exists tzUTC. now split.
  - right. eexists. split; [reflexivity|]. split; [reflexivity|].
    eexists. split; reflexivity.
  - unfold localize_fuel. apply localize_dst_cases.
    destruct b; lia.
Qed.

(** In a well-formed zone, the default [tz.localize(dt)] of naive fields
    two days or more from the bounds returns. *)
Lemma localize_returns (tz : timezone) (x : Z) :
  well_formed tz = true -> inside 2 x ->
  exists r, localize tz (mk_datetime x None) (Some false) = Ok r
            /\ fields r = x /\ in_zone tz r.
Proof.
  intros Hwf Hx.
  destruct tz as [|z info|z lmt trs]; unfold localize; simpl.
  - eexists. split; [reflexivity|]. split; [reflexivity|].
    exists tzUTC. now split.
  - eexists. split; [reflexivity|]. split; [reflexivity|].
    eexists. split; reflexivity.
  - unfold localize_fuel. apply localize_dst_returns; [assumption| |assumption].
    lia.
Qed.

(** The fuel of [localize] is never used up. *)
Lemma localize_fuel_suffices (tz : timezone) (dt : datetime)
    (is_dst : option bool) :
  localize tz dt is_dst <> Raise RecursionError.
Proof.
  destruct dt as [x [ti|]]; [unfold localize; simpl; discriminate|].
  destruct is_dst as [b|].
  - destruct (localize_cases tz x b) as [->|(r & -> & _)]; discriminate.
  - destruct tz as [|z info|z lmt trs]; unfold localize;
      cbn [tzinfo_of fields]; try discriminate.
    unfold localize_fuel. rewrite localize_dst_S.
    destruct (possible_loc_dt z lmt trs x) as [[|p [|q ps]]|e] eqn:Hp;
      cbn [rbind]; try discriminate.
    apply possible_raise in Hp as ->. discriminate.
Qed.

Lemma localize_ok_aware (tz : timezone) (x : datetime) (b : bool)
    (r : datetime) :
  localize tz x (Some b) = Ok r -> is_aware r = true.
Proof.
  intros H. destruct x as [f [ti|]].
  - unfold localize in H. simpl in H. discriminate.
  - destruct (localize_cases tz f b) as [Hr|(r' & Hr & _ & Hin)];
      rewrite Hr in H; [discriminate|].
    injection H as <-. exact (in_zone_aware _ _ Hin).
Qed.

Lemma localize_raise (tz : timezone) (x : Z) (b : bool) (e : exception) :
  localize tz (mk_datetime x None) (Some b) = Raise e -> e = OverflowError.
Proof.
  intros H. destruct (localize_cases tz x b) as [Hr|(r & Hr & _)];
    rewrite Hr in H; [now injection H as <- | discriminate].
Qed.

(** ** Saving and loading *)

Section MainFacts.

Context {env : Environment}.

Lemma pg_zone_UTC : pg_zone "UTC" = Some UTC.
Proof. reflexivity. Qed.

Lemma pg_zone_well_formed (name : string) (tz : timezone) :
  env_well_formed -> pg_zone name = Some tz -> well_formed tz = true.
Proof.
  intros (_ & _ & Hpg & _). unfold pg_zone.
  destruct (String.eqb name "UTC"); [now intros [= <-] | apply Hpg].
Qed.

Lemma fresh_key_free (db : Database) : db !! fresh (dom db) = None.
Proof. apply not_elem_of_dom, is_fresh. Qed.

Lemma save_eq (self : SaveMethod) (dt : datetime) (db : Database) :
  save self dt db =
    match saved_value self dt with
    | Raise e => (Raise e, db)
    | Ok (handed, value) =>
        (Ok (mk_Timestamp (fresh (dom db)) handed),
         <[fresh (dom db) := value]> db)
    end.
Proof.
  unfold save, saved_value, bind, lift.
  destruct (normalize (save_tz self) dt) as [n|e]; reflexivity.
Qed.

Lemma load_eq (self : LoadMethod) (ts : Timestamp) (db : Database) :
  load self ts db =
    (match db !! pk ts with
     | None => Raise DoesNotExist
     | Some utc => load_values self utc
     end, db).
Proof.
  unfold load, load_values, bind, lift, ret, Timestamp_objects_extra_get.
  destruct (db !! pk ts) as [utc|]; [|reflexivity].
  destruct (select_row _ utc) as [row|e]; [|reflexivity]. simpl.
  destruct (localize UTC _ _) as [s|e]; [|reflexivity]. simpl.
  destruct (localize (load_tz self) _ _) as [l|e]; reflexivity.
Qed.

Lemma run_test_eq (test : Test) (dt : datetime) (db : Database) :
  fst (run_test test dt db) = trial test dt.
Proof.
  unfold run_test, make_roundtrip, trial, bind.
  rewrite save_eq.
  destruct (saved_value (save_method test) dt) as [[handed value]|e];
    [|reflexivity].
  rewrite load_eq. simpl pk. rewrite lookup_insert_eq. simpl.
  destruct (load_values (load_method test) value) as [p|e]; reflexivity.
Qed.

Lemma cell_eq (test : Test) (dt : datetime) :
  cell test dt = to_option (trial test dt).
Proof. unfold cell. now rewrite run_test_eq. Qed.

(** What [save] hands over and stores, when [normalize] returned. *)
Lemma saved_value_inv (self : SaveMethod) (dt handed : datetime) (value : Z) :
  saved_value self dt = Ok (handed, value) ->
  is_aware dt = true
  /\ normalize (save_tz self) dt = Ok (reading (save_tz self) (instant dt))
  /\ handed = (if String.eqb (style self) "naive"
               then replace_tzinfo (reading (save_tz self) (instant dt)) None
               else reading (save_tz self) (instant dt))
  /\ value = (if String.eqb (style self) "naive"
              then pg_input_local
                     (instant dt + utcoffset_at (save_tz self) (instant dt))
              else instant dt).
Proof.
  unfold saved_value.
  destruct (normalize (save_tz self) dt) as [n|] eqn:En; [|discriminate].
  pose proof (normalize_inv _ _ _ En) as [Ha ->]. cbn [rbind].
  intros [= <- <-]. split; [exact Ha|]. split; [reflexivity|].
  split; [reflexivity|].
  destruct (String.eqb (style self) "naive"); [reflexivity|].
  cbn [tzinfo_of fields reading].
  change (tzinfo_of (reading (save_tz self) (instant dt)))
    with (Some (tzinfo_at (save_tz self) (instant dt))).
  pose proof (reading_instant (save_tz self) (instant dt)) as Hi.
  unfold instant at 1 in Hi. exact Hi.
Qed.

Lemma saved_value_raise (self : SaveMethod) (dt : datetime) (e : exception) :
  saved_value self dt = Raise e <-> normalize (save_tz self) dt = Raise e.
Proof.
  unfold saved_value.
  destruct (normalize (save_tz self) dt) as [n|e']; simpl;
    split; intros H; first [discriminate H | injection H as ->; reflexivity].
Qed.

Lemma saved_value_aware (self : SaveMethod) (dt : datetime) :
  is_aware dt = true ->
  in_range (instant dt) = true ->
  in_range (instant dt + utcoffset_at (save_tz self) (instant dt)) = true ->
  exists handed value, saved_value self dt = Ok (handed, value)
    /\ (style self <> "naive" -> value = instant dt)
    /\ (style self = "naive" ->
        value = pg_input_local
                  (instant dt + utcoffset_at (save_tz self) (instant dt))).
Proof.
  intros Ha Hu Hx.
  destruct (saved_value self dt) as [[handed value]|e] eqn:E.
  - apply saved_value_inv in E as (_ & _ & _ & ->).
    eexists _, _. split; [reflexivity|].
    split; intros Hs; [apply String.eqb_neq in Hs | apply String.eqb_eq in Hs];
      now rewrite Hs.
  - apply saved_value_raise in E. rewrite normalize_ok in E by assumption.
    discriminate.
Qed.


(** What [load] computes for a row holding the instant [utc], when the
    server knows the zone name. *)
Lemma load_values_known (self : LoadMethod) (utc : Z) (ztz : timezone) :
  pg_zone (zone (load_tz self)) = Some ztz ->
  load_values self utc =
    rbind (localize (load_tz self)
             (mk_datetime
                (utc + utcoffset_at
                         (if String.eqb (conversion self) "implicit"
                          then connection_tz else ztz) utc) None)
             (Some false))
          (fun l => Ok (mk_datetime utc (Some tzUTC), l)).
Proof.
  intros Hz. unfold load_values, select_row, at_time_zone.
  rewrite Hz, pg_zone_UTC. cbn [rbind utcoffset_at row_timestamp_stored].
  rewrite Z.add_0_r. cbn [localize tzinfo_of rbind replace_tzinfo fields].
  now destruct (String.eqb (conversion self) "implicit").
Qed.

Lemma load_values_unknown_zone (self : LoadMethod) (utc : Z) :
  pg_zone (zone (load_tz self)) = None ->
  load_values self utc = Raise DatabaseError.
Proof.
  intros Hz. unfold load_values, select_row, at_time_zone. now rewrite Hz.
Qed.

Lemma load_values_cases (self : LoadMethod) (utc : Z) (ztz : timezone) :
  pg_zone (zone (load_tz self)) = Some ztz ->
  load_values self utc = Raise OverflowError
  \/ exists loaded,
       load_values self utc = Ok (mk_datetime utc (Some tzUTC), loaded)
       /\ in_zone (load_tz self) loaded
       /\ localize (load_tz self)
            (mk_datetime
               (utc + utcoffset_at
                        (if String.eqb (conversion self) "implicit"
                         then connection_tz else ztz) utc) None)
            (Some false) = Ok loaded.
Proof.
  intros Hz. rewrite (load_values_known self utc ztz Hz).
  destruct (localize_cases (load_tz self)
              (utc + utcoffset_at
                       (if String.eqb (conversion self) "implicit"
                        then connection_tz else ztz) utc) false)
    as [->|(r & -> & _ & Hin)]; [now left|].
  right. exists r. now repeat split.
Qed.

Lemma inside_offset (tz : timezone) (utc at_ : Z) (days : Z) :
  well_formed tz = true -> inside (days + 1) utc ->
  inside days (utc + utcoffset_at tz at_).
Proof.
  intros Hwf [Hlo Hhi]. pose proof (well_formed_offset tz at_ Hwf) as Ho.
  unfold inside. rewrite DAYS_1_eq in *. lia.
Qed.

Lemma inside_in_range (days x : Z) : 0 <= days -> inside days x ->
  in_range x = true.
Proof.
  intros Hd [Hlo Hhi]. apply in_range_spec. rewrite DAYS_1_eq in *. nia.
Qed.

Lemma load_values_found (self : LoadMethod) (utc : Z) (ztz : timezone) :
  pg_zone (zone (load_tz self)) = Some ztz ->
  well_formed (load_tz self) = true ->
  inside 2 (utc + utcoffset_at
                    (if String.eqb (conversion self) "implicit"
                     then connection_tz else ztz) utc) ->
  exists loaded,
    load_values self utc = Ok (mk_datetime utc (Some tzUTC), loaded)
    /\ in_zone (load_tz self) loaded
    /\ fields loaded
       = utc + utcoffset_at
                 (if String.eqb (conversion self) "implicit"
                  then connection_tz else ztz) utc
    /\ localize (load_tz self)
         (mk_datetime
            (utc + utcoffset_at
                     (if String.eqb (conversion self) "implicit"
                      then connection_tz else ztz) utc) None)
         (Some false) = Ok loaded.
Proof.
  intros Hz Hwf Hx. rewrite (load_values_known self utc ztz Hz).
  destruct (localize_returns (load_tz self) _ Hwf Hx) as (r & Hr & Hf & Hin).
  exists r. rewrite Hr. now repeat split.
Qed.

(** C8 as the code has it. For a record of the table whose instant is
    three days or more from the bounds of [datetime], a zone name the
    server knows and well-formed zones, [load] returns a pair and leaves
    the table as it was. The first component is the stored instant read
    without conversion and localized as UTC. The second has the wall
    clock of that instant, in the zone of the connection when
    [conversion] is ['implicit'] and in the zone the query names when it
    is ['explicit'], localized with [self.tz]; it is an aware value of
    [self.tz]. *)
Theorem load_returns_stored_and_loaded
    (self : LoadMethod) (ts : Timestamp) (db : Database) (utc : Z)
    (ztz : timezone) :
  db !! pk ts = Some utc ->
  pg_zone (zone (load_tz self)) = Some ztz ->
  well_formed (load_tz self) = true ->
  well_formed ztz = true ->
  well_formed connection_tz = true ->
  inside 3 utc ->
  exists loaded,
    load self ts db = (Ok (mk_datetime utc (Some tzUTC), loaded), db)
    /\ in_zone UTC (mk_datetime utc (Some tzUTC))
    /\ instant (mk_datetime utc (Some tzUTC)) = utc
    /\ in_zone (load_tz self) loaded
    /\ (conversion self = "implicit" ->
        fields loaded = utc + utcoffset_at connection_tz utc
        /\ localize (load_tz self)
             (mk_datetime (utc + utcoffset_at connection_tz utc) None)
             (Some false) = Ok loaded)
    /\ (conversion self = "explicit" ->
        fields loaded = utc + utcoffset_at ztz utc
        /\ localize (load_tz self)
             (mk_datetime (utc + utcoffset_at ztz utc) None)
             (Some false) = Ok loaded).
Proof.
  intros Hrow Hz Hwf Hwz Hwc Hu.
  destruct (load_values_found self utc ztz Hz Hwf)
    as (loaded & Hl & Hin & Hf & Hloc).
  { apply inside_offset; [|exact Hu].
    now destruct (String.eqb (conversion self) "implicit"). }
  exists loaded. rewrite load_eq, Hrow, Hl.
  split; [reflexivity|]. split; [exists tzUTC; now split|].
  split; [unfold instant; simpl; lia|]. split; [exact Hin|].
  split; intros E; rewrite E in Hloc, Hf; now split.
Qed.



(** ** The round trip of an aware save and an explicit load *)

Lemma default_prefers_asym (a b : ttinfo) (u u' : Z) :
  default_prefers a u b u' = true -> default_prefers b u' a u = true -> False.
Proof.
  unfold default_prefers.
  destruct (tt_dst a =? 0), (tt_dst b =? 0); simpl;
    rewrite ?andb_true_iff, ?orb_true_iff, ?Z.ltb_lt;
    intuition (try discriminate; try lia).
Qed.

Lemma trial_found (test : Test) (dt : datetime) (ztz : timezone) :
  is_aware dt = true ->
  pg_zone (zone (load_tz (load_method test))) = Some ztz ->
  forall handed value,
    saved_value (save_method test) dt = Ok (handed, value) ->
    well_formed (load_tz (load_method test)) = true ->
    inside 2 (value
              + utcoffset_at
                  (if String.eqb (conversion (load_method test)) "implicit"
                   then connection_tz else ztz) value) ->
    exists loaded,
      load_values (load_method test) value
        = Ok (mk_datetime value (Some tzUTC), loaded)
      /\ in_zone (load_tz (load_method test)) loaded
      /\ trial test dt =
           Ok (mk_TestResult (value =? instant dt)
                             (instant loaded =? instant dt)
                             (value - instant dt)
                             (instant loaded - instant dt)).
Proof.
  intros Haware Hz handed value Hs Hwf Hx.
  destruct (load_values_found (load_method test) value ztz Hz Hwf Hx)
    as (loaded & Hl & Hin & _).
  exists loaded. repeat (split; [assumption|]).
  unfold trial. rewrite Hs. simpl. rewrite Hl. simpl.
  rewrite TestResult_init_aware;
    [|assumption|reflexivity|now apply in_zone_aware in Hin].
  assert (instant (mk_datetime value (Some tzUTC)) = value) as ->
    by (unfold instant; simpl; lia).
  reflexivity.
Qed.

(** C2 as the code has it. A test that saves aware in a well-formed zone
    and loads explicitly in the same zone, under a name by which the
    server knows that zone, returns for every aware instant three days or
    more from the bounds of [datetime] and stores it correctly. The
    loaded value is the default localization of the wall clock the
    instant has in the zone, and the load is correct exactly when that
    localization gives the instant back. It does for UTC and for a
    fixed-offset zone. For a zone with transitions two days apart it does
    exactly when every other instant with the same wall clock loses
    against the saved one under the default [is_dst=False]: the saved
    instant alone has no daylight-saving component, or both or neither
    have one and the saved instant is the later. *)
Theorem aware_explicit_roundtrip
    (tz : timezone) (number : Z) (dt : datetime) (db : Database) :
  is_aware dt = true ->
  pg_zone (zone tz) = Some tz ->
  well_formed tz = true ->
  inside 3 (instant dt) ->
  exists loaded r,
    localize tz
      (mk_datetime (instant dt + utcoffset_at tz (instant dt)) None)
      (Some false) = Ok loaded
    /\ fst (run_test (mk_Test number (mk_SaveMethod tz "aware")
                                      (mk_LoadMethod tz "explicit")) dt db)
         = Ok r
    /\ stored_correctly r = true
    /\ stored_error r = 0
    /\ loaded_correctly r = (instant loaded =? instant dt)
    /\ loaded_error r = instant loaded - instant dt
    /\ (tz = UTC \/ (exists z info, tz = StaticTzInfo z info) ->
        loaded_correctly r = true /\ loaded_error r = 0)
    /\ (forall z lmt trs, tz = DstTzInfo z lmt trs -> spaced trs = true ->
        let inf := transition_info_at lmt trs (instant dt) in
        (loaded_correctly r = true /\ loaded_error r = 0)
        <-> (forall u',
               u' + tt_utcoffset (transition_info_at lmt trs u')
                 = instant dt + tt_utcoffset inf ->
               u' <> instant dt ->
               default_prefers inf (instant dt)
                               (transition_info_at lmt trs u') u' = true)).
Proof.
  intros Haware Hz Hwf Hu.
  set (test := mk_Test number (mk_SaveMethod tz "aware")
                       (mk_LoadMethod tz "explicit")).
  assert (inside 2 (instant dt + utcoffset_at tz (instant dt))) as Hx
    by (now apply inside_offset).
  destruct (saved_value_aware (save_method test) dt Haware)
    as (handed & value & Hs & Hv & _).
  { apply (inside_in_range 3); [lia | exact Hu]. }
  { apply (inside_in_range 2); [lia | exact Hx]. }
  assert (value = instant dt) as -> by (apply Hv; discriminate).
  destruct (trial_found test dt tz Haware Hz handed (instant dt) Hs Hwf Hx)
    as (loaded & Hl & Hin & Ht).
  destruct (load_values_found (load_method test) (instant dt) tz Hz Hwf Hx)
    as (loaded' & Hl' & _ & Hf & Hloc).
  rewrite Hl in Hl'. injection Hl' as <-.
  change (String.eqb (conversion (load_method test)) "implicit")
    with false in Hloc, Hf. cbn [load_method test load_tz] in Hloc, Hin, Hf.
  exists loaded. eexists. split; [exact Hloc|].
  rewrite run_test_eq, Ht.
  split; [reflexivity|]. cbn [stored_correctly stored_error loaded_correctly
                             loaded_error].
  split; [apply Z.eqb_refl|]. split; [lia|].
  split; [reflexivity|]. split; [reflexivity|].
  assert (instant loaded = instant dt ->
          (instant loaded =? instant dt) = true
          /\ instant loaded - instant dt = 0) as Hdone
    by (intros ->; split; [apply Z.eqb_refl | lia]).
  split.
  - intros [->|(z & info & ->)]; apply Hdone;
      unfold localize in Hloc; simpl in Hloc; injection Hloc as <-;
      unfold instant at 1; simpl; lia.
  - intros z lmt trs -> Hsp.
    cbn [utcoffset_at] in Hloc, Hx, Hf.
    set (inf := transition_info_at lmt trs (instant dt)) in *.
    unfold localize in Hloc. cbn [tzinfo_of fields] in Hloc.
    unfold localize_fuel in Hloc.
    match type of Hloc with
    | localize_dst (S ?n) _ _ _ _ _ = _ =>
        destruct (localize_dst_preferred z lmt trs n _ (instant dt) Hwf Hsp
                    Hx eq_refl) as (r & Hr & _ & Hrd & Hpref)
    end.
    rewrite Hloc in Hr. injection Hr as <-.
    assert (instant loaded
            + tt_utcoffset (transition_info_at lmt trs (instant loaded))
            = instant dt + tt_utcoffset inf) as Hread.
    { rewrite <- Hf. rewrite Hrd at 3. reflexivity. }
    split.
    + intros [Hc _]. apply Z.eqb_eq in Hc. intros u' Hu' Hne.
      specialize (Hpref u' Hu'). rewrite Hc in Hpref. now apply Hpref.
    + intros Hall. apply Hdone.
      destruct (Z.eq_dec (instant loaded) (instant dt)) as [E|E]; [exact E|].
      exfalso.
      apply (default_prefers_asym inf
               (transition_info_at lmt trs (instant loaded))
               (instant dt) (instant loaded)).
      * now apply Hall.
      * apply Hpref; [reflexivity | congruence].
Qed.

End MainFacts.

(** ** The table *)

Lemma map_some_Forall2 {A B} (f : A -> option B) (l : list A) (l' : list B) :
  map_some f l = Some l' -> Forall2 (fun a b => f a = Some b) l l'.
Proof.
  revert l'. induction l as [|a l IH]; intros l' H; simpl in H.
  - injection H as <-. constructor.
  - destruct (f a) as [b|] eqn:Ea; [|discriminate].
    destruct (map_some f l) as [bs|]; [|discriminate].
    injection H as <-. constructor; [exact Ea | now apply IH].
Qed.

Lemma map_some_length {A B} (f : A -> option B) (l : list A) (l' : list B) :
  map_some f l = Some l' -> length l' = length l.
Proof.
  intros H. apply map_some_Forall2 in H. symmetry.
  exact (Forall2_length _ _ _ H).
Qed.

Lemma map_some_ext {A B} (f g : A -> option B) (l : list A) :
  Forall (fun a => f a = g a) l -> map_some f l = map_some g l.
Proof.
  induction 1 as [|a l Ha _ IH]; simpl; [reflexivity|]. now rewrite Ha, IH.
Qed.

Lemma map_some_snoc {A B} (f : A -> option B) (l : list A) (a : A) :
  map_some f (l ++ [a]) =
    match map_some f l, f a with
    | Some bs, Some b => Some (bs ++ [b])%list
    | _, _ => None
    end.
Proof.
  induction l as [|x l IH]; simpl.
  - now destruct (f a).
  - rewrite IH. destruct (f x), (map_some f l), (f a); reflexivity.
Qed.

Section TableFacts.

Context {env : Environment}.

Lemma run_test_cell (test : Test) (dt : datetime) (db : Database) :
  to_option (fst (run_test test dt db)) = cell test dt.
Proof. now rewrite cell_eq, run_test_eq. Qed.

Lemma append_column_spec (dt : datetime) (rs : list Row) (db : Database) :
  match map_some (column_cell dt) rs with
  | Some rs' =>
      exists db', append_column dt rs db = (Ok tt, rs', db')
  | None =>
      exists e rs' db', append_column dt rs db = (Raise e, rs', db')
  end.
Proof.
  revert db. induction rs as [|row rest IH]; intros db; simpl.
  - eexists. reflexivity.
  - unfold column_cell at 1. rewrite <- (run_test_cell _ dt db).
    destruct (run_test (row_test row) dt db) as [[r|e] db1]; simpl.
    + specialize (IH db1).
      destruct (map_some (column_cell dt) rest) as [rest'|].
      * destruct IH as (db' & ->). eexists. reflexivity.
      * destruct IH as (e & rs' & db' & ->). eexists _, _, _. reflexivity.
    + eexists _, _, _. reflexivity.
Qed.

Lemma fill_row_spec (test : Test) (hs : list datetime) (row : Row)
    (db : Database) :
  match map_some (cell test) hs with
  | Some rs =>
      exists db', fill_row test hs row db =
        (Ok tt,
         mk_Row (row_test row) (row_save row) (row_load row)
                (row_results row ++ rs), db')
  | None => exists e row' db', fill_row test hs row db = (Raise e, row', db')
  end.
Proof.
  revert row db. induction hs as [|dt rest IH]; intros row db; simpl.
  - eexists. rewrite app_nil_r. now destruct row.
  - rewrite <- (run_test_cell test dt db).
    destruct (run_test test dt db) as [[r|e] db1]; simpl.
    + specialize (IH (row_append row r) db1).
      destruct (map_some (cell test) rest) as [rs|].
      * destruct IH as (db' & ->). eexists. simpl.
        now rewrite <- app_assoc.
      * destruct IH as (e & row' & db' & ->). eexists _, _, _. reflexivity.
    + eexists _, _, _. reflexivity.
Qed.

Lemma add_datetime_spec (dt : datetime) (t : TestTable) (db : Database) :
  match to_option (normalize DJANGO_TZ dt),
        map_some (column_cell dt) (rows t) with
  | Some h, Some rs' =>
      exists db', add_datetime dt (t, db) =
        (Ok tt, (mk_TestTable (headers t ++ [h]) rs', db'))
  | _, _ => exists e s', add_datetime dt (t, db) = (Raise e, s')
  end.
Proof.
  unfold add_datetime.
  destruct (normalize DJANGO_TZ dt) as [h|e]; simpl.
  - pose proof (append_column_spec dt (rows t) db) as H.
    destruct (map_some (column_cell dt) (rows t)) as [rs'|].
    + destruct H as (db' & ->). eexists. reflexivity.
    + destruct H as (e & rs' & db' & ->). eexists _, _. reflexivity.
  - eexists _, _. reflexivity.
Qed.

Lemma add_test_spec (test : Test) (t : TestTable) (db : Database) :
  match expected_row (headers t) test with
  | Some row =>
      exists db', add_test test (t, db) =
        (Ok tt, (mk_TestTable (headers t) (rows t ++ [row]), db'))
  | None => exists e s', add_test test (t, db) = (Raise e, s')
  end.
Proof.
  unfold add_test, expected_row.
  pose proof (fill_row_spec test (headers t)
                (mk_Row test (save_method test) (load_method test) []) db)
    as H.
  destruct (map_some (cell test) (headers t)) as [rs|].
  - destruct H as (db' & ->). eexists. reflexivity.
  - destruct H as (e & row' & db' & ->). eexists _, _. reflexivity.
Qed.




Lemma expected_row_inv (hs : list datetime) (test : Test) (row : Row) :
  expected_row hs test = Some row ->
  row_test row = test /\ row_save row = save_method test
  /\ row_load row = load_method test
  /\ length (row_results row) = length hs.
Proof.
  unfold expected_row. destruct (map_some (cell test) hs) as [rs|] eqn:E;
    [|discriminate].
  intros [= <-]. simpl. repeat split. now apply map_some_length in E.
Qed.



Lemma run_calls_cons (c : call) (cs : list call) (s : TestTable * Database) :
  run_calls (c :: cs) s =
    match run_call c s with
    | (Ok _, s') => run_calls cs s'
    | (Raise e, s') => (Raise e, s')
    end.
Proof. reflexivity. Qed.

Lemma run_calls_app (cs1 cs2 : list call) (s : TestTable * Database) :
  run_calls (cs1 ++ cs2) s =
    match run_calls cs1 s with
    | (Ok _, s') => run_calls cs2 s'
    | (Raise e, s') => (Raise e, s')
    end.
Proof.
  revert s. induction cs1 as [|c cs1 IH]; intros s.
  - reflexivity.
  - simpl app. rewrite !run_calls_cons.
    destruct (run_call c s) as [[[]|e] s']; [apply IH | reflexivity].
Qed.



End TableFacts.

(** ** The order in which a table grows *)

Lemma map_some_app {A B} (f : A -> option B) (l l' : list A) :
  map_some f (l ++ l') =
    match map_some f l, map_some f l' with
    | Some bs, Some bs' => Some (bs ++ bs')%list
    | _, _ => None
    end.
Proof.
  induction l as [|x l IH]; simpl.
  - now destruct (map_some f l').
  - rewrite IH.
    destruct (f x), (map_some f l), (map_some f l'); reflexivity.
Qed.

Lemma map_some_None_mono {A B C} (f : A -> option B) (g : A -> option C)
    (l : list A) :
  (forall a, f a = None -> g a = None) ->
  map_some f l = None -> map_some g l = None.
Proof.
  intros Hfg. induction l as [|a l IH]; simpl; [discriminate|].
  destruct (f a) as [b|] eqn:Ea.
  - destruct (map_some f l); [discriminate|]. intros _.
    rewrite IH by reflexivity. now destruct (g a).
  - intros _. now rewrite (Hfg a Ea).
Qed.

Lemma map_some_is_Some {A B} (f : A -> option B) (l : list A) :
  Forall (fun a => is_Some (f a)) l -> is_Some (map_some f l).
Proof.
  induction 1 as [|a l [b Hb] _ [bs IH]]; simpl; [eauto|].
  rewrite Hb, IH. eauto.
Qed.

Section OrderFacts.

Context {env : Environment}.

Lemma build_built (cs : list call) (db : Database) :
  to_option (fst (build cs db)) = built (run_calls cs (TestTable_init, db)).
Proof.
  unfold build, built.
  now destruct (run_calls cs (TestTable_init, db)) as [[[]|e] [t db']].
Qed.

Lemma saved_value_normalize (self : SaveMethod) (d h : datetime) :
  valid d -> normalize DJANGO_TZ d = Ok h ->
  saved_value self h = saved_value self d.
Proof.
  intros Hv Hn. unfold saved_value.
  now rewrite (normalize_after DJANGO_TZ (save_tz self) d h Hv Hn).
Qed.

Lemma trial_normalize (test : Test) (d h : datetime) :
  valid d -> normalize DJANGO_TZ d = Ok h -> trial test h = trial test d.
Proof.
  intros Hv Hn. unfold trial. rewrite (saved_value_normalize _ d h Hv Hn).
  destruct (saved_value (save_method test) d) as [[handed value]|e];
    [|reflexivity].
  cbn [rbind snd].
  destruct (load_values (load_method test) value) as [[s l]|e] eqn:El;
    [|reflexivity].
  cbn [rbind fst snd].
  assert (is_aware s = true /\ is_aware l = true) as [Hs Hl].
  { unfold load_values in El.
    destruct (select_row _ value) as [row|]; [|discriminate].
    cbn [rbind] in El.
    destruct (localize UTC _ _) as [s'|] eqn:Es; [|discriminate].
    cbn [rbind] in El.
    destruct (localize (load_tz (load_method test)) _ _) as [l'|] eqn:E2;
      [|discriminate].
    injection El as <- <-.
    split; eapply localize_ok_aware; eassumption. }
  pose proof (normalize_inv DJANGO_TZ d h Hn) as [Hd ->].
  rewrite !TestResult_init_aware by (assumption || apply reading_aware).
  now rewrite reading_instant.
Qed.

Lemma expected_row_normalize (ds hs : list datetime) (test : Test) :
  Forall valid ds ->
  map_some (fun dt => to_option (normalize DJANGO_TZ dt)) ds = Some hs ->
  expected_row hs test = expected_row ds test.
Proof.
  intros Hv H. apply map_some_Forall2 in H. unfold expected_row.
  assert (map_some (cell test) hs = map_some (cell test) ds) as ->;
    [|reflexivity].
  induction H as [|d h ds hs Hd _ IH]; [reflexivity|]. simpl.
  apply Forall_cons_1 in Hv as [Hvd Hv].
  rewrite (IH Hv), !cell_eq.
  destruct (normalize DJANGO_TZ d) as [h'|] eqn:En; [|discriminate].
  injection Hd as ->. now rewrite (trial_normalize test d h Hvd En).
Qed.

(** Columns added to a table without rows. *)
Lemma columns_first (dts : list datetime) (t : TestTable) (db : Database) :
  rows t = [] ->
  built (run_calls (List.map AddDatetime dts) (t, db)) =
    match map_some (fun dt => to_option (normalize DJANGO_TZ dt)) dts with
    | Some hs => Some (mk_TestTable (headers t ++ hs) [])
    | None => None
    end.
Proof.
  revert t db. induction dts as [|d dts IH]; intros t db Hrows.
  - simpl. rewrite app_nil_r. destruct t. simpl in Hrows. now subst.
  - simpl List.map. rewrite run_calls_cons. cbn [run_call map_some].
    pose proof (add_datetime_spec d t db) as S. rewrite Hrows in S.
    destruct (normalize DJANGO_TZ d) as [h|e]; cbn [to_option map_some] in *.
    + destruct S as (db' & ->). rewrite IH by reflexivity. simpl.
      destruct (map_some _ dts); [|reflexivity]. now rewrite <- app_assoc.
    + destruct S as (e' & s' & ->). reflexivity.
Qed.

(** Rows added to a table. *)
Lemma rows_added (tests : list Test) (t : TestTable) (db : Database) :
  built (run_calls (List.map AddTest tests) (t, db)) =
    match map_some (expected_row (headers t)) tests with
    | Some rs => Some (mk_TestTable (headers t) (rows t ++ rs))
    | None => None
    end.
Proof.
  revert t db. induction tests as [|test tests IH]; intros t db.
  - simpl. rewrite app_nil_r. now destruct t.
  - simpl List.map. rewrite run_calls_cons. cbn [run_call map_some].
    pose proof (add_test_spec test t db) as S.
    destruct (expected_row (headers t) test) as [row|].
    + destruct S as (db' & ->). rewrite IH. simpl.
      destruct (map_some _ tests); [|reflexivity]. now rewrite <- app_assoc.
    + destruct S as (e' & s' & ->). reflexivity.
Qed.

(** The rows over one more datetime are the rows with one more cell. *)
Lemma expected_rows_snoc (ds : list datetime) (d : datetime)
    (tests : list Test) :
  map_some (expected_row (ds ++ [d])) tests =
    match map_some (expected_row ds) tests with
    | Some rs => map_some (column_cell d) rs
    | None => None
    end.
Proof.
  induction tests as [|test tests IH]; [reflexivity|].
  cbn [map_some]. rewrite IH. unfold expected_row at 1 3.
  rewrite map_some_snoc.
  destruct (map_some (cell test) ds) as [rs|]; [|reflexivity].
  destruct (map_some (expected_row ds) tests) as [rows0|].
  - cbn [map_some]. unfold column_cell at 2. cbn [row_test].
    destruct (cell test d) as [r|]; [|reflexivity].
    unfold row_append. cbn [row_test row_save row_load row_results].
    reflexivity.
  - now destruct (cell test d).
Qed.

Lemma expected_rows_None (ds ds' : list datetime) (tests : list Test) :
  map_some (expected_row ds) tests = None ->
  map_some (expected_row (ds ++ ds')) tests = None.
Proof.
  apply map_some_None_mono. intros test. unfold expected_row.
  rewrite map_some_app.
  destruct (map_some (cell test) ds); [discriminate|reflexivity].
Qed.

(** Columns added to the table of the datetimes [ds]. *)
Lemma columns_after_rows (tests : list Test) (dts ds : list datetime)
    (t : TestTable) (db : Database) :
  map_some (fun dt => to_option (normalize DJANGO_TZ dt)) ds
    = Some (headers t) ->
  map_some (expected_row ds) tests = Some (rows t) ->
  built (run_calls (List.map AddDatetime dts) (t, db))
    = expected_table (ds ++ dts) tests.
Proof.
  revert ds t db. induction dts as [|d dts IH]; intros ds t db Hh Hr.
  - simpl. rewrite app_nil_r. unfold expected_table. rewrite Hh, Hr.
    now destruct t.
  - simpl List.map. rewrite run_calls_cons. cbn [run_call].
    pose proof (add_datetime_spec d t db) as S.
    replace (ds ++ d :: dts)%list with ((ds ++ [d]) ++ dts)%list
      by (now rewrite <- app_assoc).
    pose proof (map_some_snoc
                  (fun dt => to_option (normalize DJANGO_TZ dt)) ds d) as Hs.
    pose proof (expected_rows_snoc ds d tests) as Hx.
    rewrite Hh in Hs. rewrite Hr in Hx.
    destruct (to_option (normalize DJANGO_TZ d)) as [h|].
    + destruct (map_some (column_cell d) (rows t)) as [rs'|].
      * destruct S as (db' & ->). now apply IH.
      * destruct S as (e & s' & ->). simpl. unfold expected_table.
        rewrite (expected_rows_None _ dts _ Hx).
        now destruct (map_some _ ((ds ++ [d]) ++ dts)).
    + destruct S as (e & s' & ->). simpl. unfold expected_table.
      rewrite map_some_app, Hs. reflexivity.
Qed.

Lemma expected_rows_nil (tests : list Test) :
  is_Some (map_some (expected_row []) tests).
Proof.
  apply map_some_is_Some, Forall_forall. intros test _.
  unfold expected_row. simpl. eauto.
Qed.

Lemma generate_test_table_expected (dts : list datetime) (tests : list Test)
    (db : Database) :
  Forall valid dts ->
  to_option (fst (generate_test_table dts tests db))
    = expected_table dts tests.
Proof.
  intros Hv.
  unfold generate_test_table. rewrite build_built, run_calls_app.
  pose proof (columns_first dts TestTable_init db eq_refl) as Hc.
  unfold expected_table.
  destruct (run_calls (List.map AddDatetime dts) (TestTable_init, db))
    as [[[]|e] [t db']]; simpl in Hc.
  - destruct (map_some _ dts) as [hs|] eqn:Eh; [|discriminate].
    injection Hc as ->. rewrite rows_added. simpl.
    rewrite (map_some_ext (expected_row hs) (expected_row dts));
      [reflexivity|].
    apply Forall_forall. intros test _. now apply expected_row_normalize.
  - simpl. now destruct (map_some _ dts).
Qed.

Lemma generate_rows_first_expected (dts : list datetime) (tests : list Test)
    (db : Database) :
  to_option (fst (generate_rows_first dts tests db))
    = expected_table dts tests.
Proof.
  unfold generate_rows_first. rewrite build_built, run_calls_app.
  pose proof (rows_added tests TestTable_init db) as Hr.
  destruct (run_calls (List.map AddTest tests) (TestTable_init, db))
    as [[[]|e] [t db']]; simpl in Hr.
  - destruct (map_some (expected_row []) tests) as [rs|] eqn:Er;
      [|discriminate].
    injection Hr as ->.
    now apply (columns_after_rows tests dts []).
  - destruct (expected_rows_nil tests) as [rs Ers]. rewrite Ers in Hr.
    discriminate.
Qed.

Lemma inside_le (a b x : Z) : b <= a -> inside a x -> inside b x.
Proof. intros Hab [Hlo Hhi]. unfold inside. rewrite DAYS_1_eq in *. nia. Qed.

(** In a well-formed environment, a round trip between well-formed zones
    of an aware datetime five days or more from the bounds returns. *)
Lemma trial_returns (test : Test) (dt : datetime) :
  env_well_formed ->
  is_aware dt = true -> inside 5 (instant dt) ->
  well_formed (save_tz (save_method test)) = true ->
  well_formed (load_tz (load_method test)) = true ->
  is_Some (pg_zone (zone (load_tz (load_method test)))) ->
  exists r, trial test dt = Ok r.
Proof.
  intros Henv Ha Hu Hws Hwl [ztz Hz].
  pose proof (pg_zone_well_formed _ _ Henv Hz) as Hwz.
  destruct Henv as (_ & Hwc & _ & Hlit).
  assert (inside 4 (instant dt
                    + utcoffset_at (save_tz (save_method test)) (instant dt)))
    as Hx by (now apply inside_offset).
  destruct (saved_value_aware (save_method test) dt Ha)
    as (handed & value & Hs & Hv1 & Hv2).
  { apply (inside_in_range 5); [lia | exact Hu]. }
  { apply (inside_in_range 4); [lia | exact Hx]. }
  assert (inside 3 value) as Hval.
  { destruct (String.eqb_spec (style (save_method test)) "naive") as [E|E].
    - rewrite (Hv2 E). specialize (Hlit (instant dt
        + utcoffset_at (save_tz (save_method test)) (instant dt))).
      destruct Hx as [Hlo Hhi]. unfold inside. rewrite DAYS_1_eq in *. lia.
    - rewrite (Hv1 E). now apply (inside_le 5). }
  destruct (trial_found test dt ztz Ha Hz handed value Hs Hwl)
    as (loaded & _ & _ & ->); [|eauto].
  apply inside_offset; [|exact Hval].
  now destruct (String.eqb (conversion (load_method test)) "implicit").
Qed.

Lemma trial_ok (test : Test) (dt : datetime) :
  env_well_formed ->
  is_aware dt = true -> inside 5 (instant dt) ->
  well_formed (save_tz (save_method test)) = true ->
  well_formed (load_tz (load_method test)) = true ->
  is_Some (pg_zone (zone (load_tz (load_method test)))) ->
  is_Some (cell test dt).
Proof.
  intros Henv Ha Hu Hws Hwl Hz. rewrite cell_eq.
  destruct (trial_returns test dt Henv Ha Hu Hws Hwl Hz) as [r ->].
  simpl. eauto.
Qed.

(** The table of aware datetimes five days or more from the bounds and
    of tests between well-formed zones the server knows. *)
Lemma expected_table_some (dts : list datetime) (tests : list Test) :
  env_well_formed ->
  Forall (fun dt => is_aware dt = true /\ inside 5 (instant dt)) dts ->
  Forall (fun test =>
            well_formed (save_tz (save_method test)) = true
            /\ well_formed (load_tz (load_method test)) = true
            /\ is_Some (pg_zone (zone (load_tz (load_method test)))))
         tests ->
  exists hs rs,
    map_some (fun dt => to_option (normalize DJANGO_TZ dt)) dts = Some hs
    /\ map_some (expected_row dts) tests = Some rs
    /\ expected_table dts tests = Some (mk_TestTable hs rs).
Proof.
  intros Henv Hd Ht. unfold expected_table.
  assert (is_Some (map_some (fun dt => to_option (normalize DJANGO_TZ dt))
                            dts)) as [hs Hhs].
  { apply map_some_is_Some. eapply Forall_impl; [exact Hd|].
    intros dt [Ha Hu]. simpl in Ha.
    rewrite normalize_ok; [simpl; eauto | exact Ha | |].
    - apply (inside_in_range 5); [lia | exact Hu].
    - apply (inside_in_range 4); [lia|]. apply inside_offset; [|exact Hu].
      now destruct Henv. }
  assert (is_Some (map_some (expected_row dts) tests)) as [rs Hrs].
  { apply map_some_is_Some. eapply Forall_impl; [exact Ht|].
    intros test (Hws & Hwl & Hz). unfold expected_row.
    assert (is_Some (map_some (cell test) dts)) as [cs ->]; [|eauto].
    apply map_some_is_Some. eapply Forall_impl; [exact Hd|].
    intros dt [Ha Hu]. now apply trial_ok. }
  rewrite Hhs, Hrs. eauto.
Qed.

(** C6. For the same catalogs, adding every column and then every row, as
    [generate_test_table] does, and adding every row and then every
    column, leave the same table, cell by cell: the header cells are the
    datetimes normalized to [DJANGO_TZ] and the row of a test holds the
    results of its round trips of the datetimes, in order; if in one
    order a call raises, so does one in the other. The datetimes are
    [datetime] objects, with fields within the bounds. In a well-formed
    environment, with aware datetimes five days or more from the bounds
    and tests between well-formed zones the server knows, both orders
    build that table. *)
Theorem table_growth_order_independent
    (dts : list datetime) (tests : list Test) (db1 db2 : Database) :
  Forall valid dts ->
  to_option (fst (generate_test_table dts tests db1))
    = to_option (fst (generate_rows_first dts tests db2))
  /\ to_option (fst (generate_test_table dts tests db1))
       = expected_table dts tests
  /\ (env_well_formed ->
      Forall (fun dt => is_aware dt = true /\ inside 5 (instant dt)) dts ->
      Forall (fun test =>
                well_formed (save_tz (save_method test)) = true
                /\ well_formed (load_tz (load_method test)) = true
                /\ is_Some (pg_zone (zone (load_tz (load_method test)))))
             tests ->
      exists t, expected_table dts tests = Some t
                /\ length (headers t) = length dts
                /\ length (rows t) = length tests
                /\ rectangular t).
Proof.
  intros Hv.
  rewrite generate_test_table_expected, generate_rows_first_expected
    by exact Hv.
  split; [reflexivity|]. split; [reflexivity|].
  intros Henv Hd Ht.
  destruct (expected_table_some dts tests Henv Hd Ht)
    as (hs & rs & Hhs & Hrs & ->).
  eexists. split; [reflexivity|]. simpl.
  split; [now apply map_some_length in Hhs|].
  split; [now apply map_some_length in Hrs|].
  unfold rectangular. simpl. apply map_some_Forall2 in Hrs.
  apply map_some_length in Hhs. rewrite Hhs. clear Hhs Ht.
  induction Hrs as [|test row ts rs0 Hrow _ IH]; constructor; [|exact IH].
  now apply expected_row_inv in Hrow as (_ & _ & _ & ->).
Qed.

End OrderFacts.

(** ** Rendering *)

Lemma length_append (a b : string) :
  String.length (a +:+ b) = (String.length a + String.length b)%nat.
Proof. induction a as [|c a IH]; simpl; [reflexivity | now rewrite IH]. Qed.

Lemma length_string_repeat (c : string) (n : nat) :
  String.length (string_repeat c n) = (n * String.length c)%nat.
Proof.
  induction n as [|n IH]; simpl; [reflexivity|].
  now rewrite length_append, IH.
Qed.

Lemma length_format_right (w : nat) (s : string) :
  String.length (format_right w s) = Nat.max w (String.length s).
Proof.
  unfold format_right. rewrite length_append, length_string_repeat.
  change (String.length " ") with 1%nat. lia.
Qed.

Lemma length_format_center (w : nat) (s : string) :
  String.length (format_center w s) = Nat.max w (String.length s).
Proof.
  unfold format_center.
  rewrite !length_append, !length_string_repeat.
  change (String.length " ") with 1%nat.
  assert ((w - String.length s) / 2 <= w - String.length s)%nat
    by (apply Nat.Div0.div_le_upper_bound; lia).
  lia.
Qed.

(** C3 as the code has it. A result cell is the text of the stored outcome,
    a slash and the text of the loaded outcome, each being ["OK"] when its
    flag holds and the signed error otherwise, so a cell with both flags
    reads ["OK/OK"]. The text of a table is its lines joined by newlines:
    the header line, a rule of dashes as long as the header line, and one
    line per row. A line joins its columns with a bar: the row label
    right-aligned to 2, the save label centred to 18, the load label
    centred to 21, then one cell per header datetime centred to 27. *)
Theorem table_rendering (str_datetime : datetime -> string) (t : TestTable) :
  (forall r,
      TestResult_unicode r =
        (if stored_correctly r then "OK" else str_timedelta (stored_error r))
        +:+ "/"
        +:+ (if loaded_correctly r then "OK"
             else str_timedelta (loaded_error r)))
  /\ (forall se le, TestResult_unicode (mk_TestResult true true se le)
                    = "OK/OK")
  /\ (forall se le,
        format_center 27 (TestResult_unicode (mk_TestResult true true se le))
          = "           OK/OK           ")
  /\ TestTable_unicode str_datetime t
       = join newline
           (header_line str_datetime t
              :: string_repeat "-"
                   (String.length (header_line str_datetime t))
              :: List.map row_line (rows t))
  /\ String.length
       (string_repeat "-" (String.length (header_line str_datetime t)))
       = String.length (header_line str_datetime t)
  /\ length (TestTable_lines str_datetime t) = (2 + length (rows t))%nat
  /\ header_line str_datetime t
       = join "|" ([" #"; "     Save As      "; "       Load As       "]
                   ++ List.map (fun dt => format_center 27 (str_datetime dt))
                        (headers t))
  /\ (forall row, In row (rows t) ->
        row_line row
          = join "|"
              ([format_right 2 (Test_unicode (row_test row));
                format_center 18 (SaveMethod_unicode (row_save row));
                format_center 21 (LoadMethod_unicode (row_load row))]
               ++ List.map (fun r => format_center 27 (TestResult_unicode r))
                    (row_results row)))
  /\ (forall w s, String.length (format_center w s)
                  = Nat.max w (String.length s))
  /\ (forall w s, String.length (format_right w s)
                  = Nat.max w (String.length s)).
Proof.
  split; [reflexivity|]. split; [reflexivity|]. split; [reflexivity|].
  split; [reflexivity|].
  split; [rewrite length_string_repeat;
          change (String.length "-") with 1%nat; lia|].
  split; [unfold TestTable_lines; simpl; now rewrite length_map|].
  split.
  { unfold header_line, add_row, add_row_cols. now rewrite List.map_map. }
  split.
  { intros row _. unfold row_line, add_row, add_row_cols.
    now rewrite List.map_map. }
  split; [apply length_format_center | apply length_format_right].
Qed.

(** ** The catalogs of [main.py] under [TIME_ZONE = 'US/Pacific'] *)

Lemma inside_computed (days x : Z) :
  (days * DAYS_1 <=? x) && (x <=? max_fields - days * DAYS_1) = true ->
  inside days x.
Proof.
  intros H. apply andb_true_iff in H as [Hlo Hhi].
  apply Z.leb_le in Hlo, Hhi. now split.
Qed.

Lemma pacific_env_well_formed : @env_well_formed pacific_env.
Proof.
  split; [reflexivity|]. split; [reflexivity|]. split.
  - intros name tz. cbn [pg_timezone pacific_env].
    destruct (String.eqb name "US/Pacific"); [|discriminate].
    now intros [= <-].
  - intros x. cbn [pg_input_local pacific_env]. rewrite DAYS_1_eq. lia.
Qed.

(** The entry of US/Pacific in force at an instant around 2002. *)
Lemma US_Pacific_entry (u : Z) :
  transition_info_at PST
    [(utc_fields 2002 4 7 10 0 0, PDT); (utc_fields 2002 10 27 9 0 0, PST)] u
  = if u <? 63153770400000000 then PST
    else if u <? 63171306000000000 then PDT else PST.
Proof. reflexivity. Qed.

(** C1 at the first datetime of the catalog, stored as it is and loaded
    as 01:30 standard time. *)
Lemma TestResult_init_compares_instants_witness :
  is_aware dt_fall_back = true
  /\ is_aware fall_back_loaded = true
  /\ TestResult_init dt_fall_back dt_fall_back fall_back_loaded
     = Ok (mk_TestResult true false 0 3600000000).
Proof.
  split; [reflexivity|]. split; [reflexivity|].
  exact (proj1 (TestResult_init_compares_instants
                  dt_fall_back dt_fall_back fall_back_loaded
                  eq_refl eq_refl eq_refl)).
Defined.


(** C8, as the code has it, at an explicit load of a row holding the
    second datetime. *)
Lemma load_returns_stored_and_loaded_witness :
  let db : Database := {[1%positive := instant dt_fall_forward]} in
  let ts := mk_Timestamp 1 dt_fall_forward in
  db !! pk ts = Some (instant dt_fall_forward)
  /\ @pg_zone pacific_env "US/Pacific" = Some US_Pacific
  /\ well_formed US_Pacific = true
  /\ inside 3 (instant dt_fall_forward)
  /\ exists loaded,
       @load pacific_env (mk_LoadMethod US_Pacific "explicit") ts db
       = (Ok (dt_fall_forward, loaded), db)
       /\ in_zone US_Pacific loaded
       /\ fields loaded = utc_fields 2002 4 6 18 30 0.
Proof.
  intros db ts.
  assert (inside 3 (instant dt_fall_forward)) as Hin
    by (now apply inside_computed).
  split; [reflexivity|]. split; [reflexivity|]. split; [reflexivity|].
  split; [exact Hin|].
  destruct (@load_returns_stored_and_loaded pacific_env
              (mk_LoadMethod US_Pacific "explicit") ts db
              (instant dt_fall_forward) US_Pacific eq_refl eq_refl
              eq_refl eq_refl eq_refl Hin)
    as (loaded & Hload & _ & _ & Hz & _ & He).
  exists loaded. split; [exact Hload|]. split; [exact Hz|].
  exact (proj1 (He eq_refl)).
Defined.

(** C2, as the code has it, at 09:00 UTC of 2002-10-27, the first instant
    of standard time: its wall clock 01:00 is also that of 08:00 UTC, in
    daylight time, and the default localization goes for standard time. *)
Lemma aware_explicit_roundtrip_witness :
  let dt := datetime.new 2002 10 27 9 0 0 (Some tzUTC) in
  is_aware dt = true
  /\ @pg_zone pacific_env (zone US_Pacific) = Some US_Pacific
  /\ well_formed US_Pacific = true
  /\ inside 3 (instant dt)
  /\ exists r,
       fst (@run_test pacific_env
              (mk_Test 4 (mk_SaveMethod US_Pacific "aware")
                         (mk_LoadMethod US_Pacific "explicit"))
              dt ∅) = Ok r
       /\ stored_correctly r = true
       /\ loaded_correctly r = true.
Proof.
  intros dt.
  assert (inside 3 (instant dt)) as Hin by (now apply inside_computed).
  split; [reflexivity|]. split; [reflexivity|]. split; [reflexivity|].
  split; [exact Hin|].
  destruct (@aware_explicit_roundtrip pacific_env US_Pacific 4
              dt ∅ eq_refl eq_refl eq_refl Hin)
    as (loaded & r & _ & Hr & Hs & _ & _ & _ & _ & Hdst).
  exists r. split; [exact Hr|]. split; [exact Hs|].
  apply (Hdst _ _ _ eq_refl eq_refl).
  change (instant dt) with 63171306000000000.
  intros u' Hu' Hne. rewrite !US_Pacific_entry in *.
  change (63171306000000000 <? 63153770400000000) with false in *.
  change (63171306000000000 <? 63171306000000000) with false in *.
  cbv iota in *.
  destruct (Z.ltb_spec u' 63153770400000000);
    [|destruct (Z.ltb_spec u' 63171306000000000)];
    first [reflexivity
          | exfalso; change (tt_utcoffset PST) with (-28800000000) in Hu';
            lia].
Defined.


(** C6 at the catalogs of [main.py]. *)
Lemma table_growth_order_independent_witness :
  Forall valid datetimes
  /\ to_option (fst (@generate_test_table pacific_env datetimes
                       pacific_tests ∅))
     = to_option (fst (@generate_rows_first pacific_env datetimes
                         pacific_tests ∅))
  /\ is_Some (to_option (fst (@generate_test_table pacific_env datetimes
                                pacific_tests ∅))).
Proof.
  assert (Forall valid datetimes) as Hv by (repeat constructor).
  split; [exact Hv|]. split.
  - exact (proj1 (@table_growth_order_independent pacific_env datetimes
                    pacific_tests ∅ ∅ Hv)).
  - vm_compute. eexists. reflexivity.
Defined.

(** Against C2 as stated: the aware save and explicit load of
    [dt_fall_back] in US/Pacific stores the instant as it is and loads it
    one hour late. *)
Lemma aware_explicit_fall_back :
  is_aware dt_fall_back = true
  /\ @pg_zone pacific_env (zone US_Pacific) = Some US_Pacific
  /\ fst (@run_test pacific_env
            (mk_Test 4 (mk_SaveMethod US_Pacific "aware")
                       (mk_LoadMethod US_Pacific "explicit"))
            dt_fall_back ∅)
     = Ok (mk_TestResult true false 0 (timedelta_of 0 1 0 0)).
Proof. repeat split; vm_compute; reflexivity. Qed.

(** Against C3 as stated: a cell with both flags is not the text ["OK"]. *)
Lemma both_correct_cell_text :
  TestResult_unicode (mk_TestResult true true 0 0) = "OK/OK"
  /\ TestResult_unicode (mk_TestResult true true 0 0) <> "OK"
  /\ TestResult_unicode
       (mk_TestResult true false 0 (timedelta_of 0 1 0 0)) = "OK/1:00:00".
Proof. repeat split; try reflexivity. discriminate. Qed.



(** Against C8 as stated: for a record holding noon UTC of 9999-12-31,
    an explicit load in US/Pacific raises [OverflowError], since
    [localize] looks a day after the wall clock; and a load in a zone the
    server does not know raises [DatabaseError], also when the conversion
    is ['implicit']. *)
Lemma load_raises_for_some_records :
  let late := datetime.new 9999 12 31 12 0 0 (Some tzUTC) in
  let row := mk_Timestamp 1 late in
  let db : Database := {[1%positive := instant late]} in
  let nowhere := StaticTzInfo "Nowhere" (mk_ttinfo 0 0 "NOW") in
  valid late
  /\ db !! pk row = Some (instant late)
  /\ @load pacific_env (mk_LoadMethod US_Pacific "explicit") row db
     = (Raise OverflowError, db)
  /\ @load pacific_env (mk_LoadMethod nowhere "implicit") row db
     = (Raise DatabaseError, db).
Proof. repeat split; vm_compute; reflexivity. Qed.

(** * Further properties *)

(** ** The outcomes of a round trip *)

Lemma eqb_sub_zero (x y : Z) : (x =? y) = (y - x =? 0).
Proof.
  destruct (Z.eqb_spec x y) as [->|H]; symmetry.
  - rewrite Z.sub_diag. reflexivity.
  - apply Z.eqb_neq. lia.
Qed.

(** X1. [TestResult] can be built exactly when the stored and the loaded
    value are aware or naive as the saved one is; otherwise the comparison
    of a naive with an aware datetime raises [TypeError]. *)
Theorem TestResult_init_needs_same_awareness
    (saved_dt stored_dt loaded_dt : datetime) :
  if Bool.eqb (is_aware stored_dt) (is_aware saved_dt)
     && Bool.eqb (is_aware loaded_dt) (is_aware saved_dt)
  then exists r, TestResult_init saved_dt stored_dt loaded_dt = Ok r
  else TestResult_init saved_dt stored_dt loaded_dt = Raise TypeError.
Proof.
  unfold TestResult_init, datetime_eq, datetime_sub, is_aware.
  destruct (tzinfo_of saved_dt) as [a|], (tzinfo_of stored_dt) as [b|],
           (tzinfo_of loaded_dt) as [c|]; simpl;
    repeat match goal with
           | |- context [decide (?x = ?y)] => destruct (decide (x = y))
           end; simpl; eauto.
Qed.

(** X2. In every [TestResult] a flag holds exactly when its error is the
    zero duration, so a rendered cell shows ["OK"] for a part exactly when
    that part has no error and never prints a zero duration. *)
Theorem flags_hold_iff_errors_zero
    (saved_dt stored_dt loaded_dt : datetime) (r : TestResult) :
  TestResult_init saved_dt stored_dt loaded_dt = Ok r ->
  stored_correctly r = (stored_error r =? 0)
  /\ loaded_correctly r = (loaded_error r =? 0)
  /\ TestResult_unicode r =
       (if stored_error r =? 0 then "OK" else str_timedelta (stored_error r))
       +:+ "/"
       +:+ (if loaded_error r =? 0 then "OK"
            else str_timedelta (loaded_error r)).
Proof.
  intros H.
  assert (stored_correctly r = (stored_error r =? 0)
          /\ loaded_correctly r = (loaded_error r =? 0)) as [Hs Hl].
  { unfold TestResult_init, datetime_eq, datetime_sub in H.
    destruct (tzinfo_of saved_dt) as [a|], (tzinfo_of stored_dt) as [b|],
             (tzinfo_of loaded_dt) as [c|]; simpl in H;
      repeat match type of H with
             | context [decide (?x = ?y)] => destruct (decide (x = y))
             end; simpl in H; try discriminate;
      try (exfalso; congruence); subst;
      injection H as <-; simpl; split;
      rewrite eqb_sub_zero; f_equal; lia. }
  split; [exact Hs|]. split; [exact Hl|].
  unfold TestResult_unicode. now rewrite Hs, Hl.
Qed.

Lemma flags_hold_iff_errors_zero_witness :
  let r := mk_TestResult true false 0 3600000000 in
  TestResult_init dt_fall_back dt_fall_back fall_back_loaded = Ok r
  /\ TestResult_unicode r = "OK/1:00:00".
Proof.
  intros r. split; [reflexivity|].
  exact (proj2 (proj2 (flags_hold_iff_errors_zero
                         dt_fall_back dt_fall_back fall_back_loaded r
                         eq_refl))).
Defined.

Section TrialFacts.

Context {env : Environment}.

Lemma run_test_full (test : Test) (dt : datetime) (db : Database) :
  run_test test dt db =
    match saved_value (save_method test) dt with
    | Raise e => (Raise e, db)
    | Ok (_, value) =>
        (rbind (load_values (load_method test) value) (fun p =>
           TestResult_init dt (fst p) (snd p)),
         <[fresh (dom db) := value]> db)
    end.
Proof.
  unfold run_test, make_roundtrip, bind. rewrite save_eq.
  destruct (saved_value (save_method test) dt) as [[handed value]|e];
    [|reflexivity].
  rewrite load_eq. simpl pk. rewrite lookup_insert_eq.
  destruct (load_values (load_method test) value) as [p|e]; reflexivity.
Qed.

(** What a round trip that returned went through. *)
Lemma trial_inv (test : Test) (dt : datetime) (r : TestResult) :
  trial test dt = Ok r ->
  exists handed value ztz loaded,
    saved_value (save_method test) dt = Ok (handed, value)
    /\ pg_zone (zone (load_tz (load_method test))) = Some ztz
    /\ load_values (load_method test) value
       = Ok (mk_datetime value (Some tzUTC), loaded)
    /\ r = mk_TestResult (value =? instant dt)
                         (instant loaded =? instant dt)
                         (value - instant dt)
                         (instant loaded - instant dt).
Proof.
  unfold trial. intros H.
  destruct (saved_value (save_method test) dt) as [[handed value]|e] eqn:Es;
    [|discriminate].
  pose proof (saved_value_inv _ _ _ _ Es) as (Ha & _).
  cbn [rbind snd] in H.
  destruct (pg_zone (zone (load_tz (load_method test)))) as [ztz|] eqn:Hz;
    [|rewrite load_values_unknown_zone in H by exact Hz; discriminate].
  destruct (load_values_cases (load_method test) value ztz Hz)
    as [Hl|(loaded & Hl & Hin & _)]; rewrite Hl in H; [discriminate|].
  cbn [rbind fst snd] in H.
  rewrite TestResult_init_aware in H;
    [|assumption|reflexivity|now apply in_zone_aware in Hin].
  assert (instant (mk_datetime value (Some tzUTC)) = value) as Hi
    by (unfold instant; simpl; lia).
  rewrite Hi in H. injection H as <-.
  now exists handed, value, ztz, loaded.
Qed.




Lemma trial_ok_inv (test : Test) (dt : datetime) (r : TestResult) :
  trial test dt = Ok r ->
  is_aware dt = true
  /\ exists ztz, pg_zone (zone (load_tz (load_method test))) = Some ztz.
Proof.
  intros H. destruct (trial_inv test dt r H)
    as (handed & value & ztz & loaded & Hs & Hz & _).
  split; [now apply saved_value_inv in Hs as (? & _) | eauto].
Qed.


(** X6. Saving aware in any well-formed zone and loading explicitly in
    UTC gives the instant back exactly, for every aware datetime a day or
    more from the bounds of [datetime] and every server: both flags hold
    and both errors are zero. These are the two last tests of the
    catalog. *)
Theorem aware_save_utc_explicit_load_exact
    (tz : timezone) (number : Z) (dt : datetime) (db : Database) :
  is_aware dt = true ->
  well_formed tz = true ->
  inside 1 (instant dt) ->
  fst (run_test (mk_Test number (mk_SaveMethod tz "aware")
                                (mk_LoadMethod UTC "explicit")) dt db)
    = Ok (mk_TestResult true true 0 0).
Proof.
  intros Ha Hwf Hu. rewrite run_test_eq.
  set (test := mk_Test number (mk_SaveMethod tz "aware")
                       (mk_LoadMethod UTC "explicit")).
  destruct (saved_value_aware (save_method test) dt Ha)
    as (handed & value & Hs & Hv & _).
  { apply (inside_in_range 1); [lia | exact Hu]. }
  { apply (inside_in_range 0); [lia|]. now apply inside_offset. }
  assert (value = instant dt) as -> by (apply Hv; discriminate).
  unfold trial. rewrite Hs. cbn [rbind snd].
  rewrite (load_values_known (load_method test) (instant dt) UTC pg_zone_UTC).
  change (String.eqb (conversion (load_method test)) "implicit") with false.
  cbv iota. cbn [load_method test load_tz utcoffset_at localize tzinfo_of
                 rbind fst snd replace_tzinfo fields].
  rewrite TestResult_init_aware by (assumption || reflexivity).
  assert (instant (mk_datetime (instant dt) (Some tzUTC)) = instant dt) as ->
    by (unfold instant at 1; simpl; lia).
  assert (instant (replace_tzinfo (mk_datetime (instant dt + 0) None)
                                  (Some tzUTC)) = instant dt)
    as -> by (unfold instant at 1; simpl; lia).
  now rewrite Z.eqb_refl, Z.sub_diag.
Qed.

(** X7. When the zone of the connection is the zone the server knows
    under the name of the load zone, an implicit and an explicit load in
    that zone give the same outcome for every save method and datetime. *)
Theorem implicit_load_is_explicit_in_connection_zone
    (tz : timezone) (sm : SaveMethod) (n1 n2 : Z) (dt : datetime)
    (db1 db2 : Database) :
  pg_zone (zone tz) = Some connection_tz ->
  fst (run_test (mk_Test n1 sm (mk_LoadMethod tz "implicit")) dt db1)
    = fst (run_test (mk_Test n2 sm (mk_LoadMethod tz "explicit")) dt db2).
Proof.
  intros Hz. rewrite !run_test_eq. unfold trial. cbn [save_method load_method].
  destruct (saved_value sm dt) as [[handed value]|e]; [|reflexivity].
  cbn [rbind snd].
  assert (load_values (mk_LoadMethod tz "implicit") value
          = load_values (mk_LoadMethod tz "explicit") value) as ->;
    [|reflexivity].
  unfold load_values, select_row, at_time_zone. cbn [load_tz conversion].
  rewrite Hz, pg_zone_UTC. reflexivity.
Qed.

End TrialFacts.

Lemma aware_save_utc_explicit_load_exact_witness :
  is_aware dt_fall_back = true
  /\ well_formed US_Pacific = true
  /\ inside 1 (instant dt_fall_back)
  /\ fst (@run_test pacific_env
            (mk_Test 9 (mk_SaveMethod US_Pacific "aware")
                       (mk_LoadMethod UTC "explicit")) dt_fall_back ∅)
     = Ok (mk_TestResult true true 0 0).
Proof.
  assert (inside 1 (instant dt_fall_back)) as Hin
    by (now apply inside_computed).
  split; [reflexivity|]. split; [reflexivity|]. split; [exact Hin|].
  exact (@aware_save_utc_explicit_load_exact pacific_env US_Pacific 9
           dt_fall_back ∅ eq_refl eq_refl Hin).
Defined.


Lemma implicit_load_is_explicit_in_connection_zone_witness :
  @pg_zone pacific_env (zone US_Pacific) = Some (@connection_tz pacific_env)
  /\ fst (@run_test pacific_env
            (mk_Test 1 (mk_SaveMethod US_Pacific "naive")
                       (mk_LoadMethod US_Pacific "implicit")) dt_fall_back ∅)
     = fst (@run_test pacific_env
              (mk_Test 2 (mk_SaveMethod US_Pacific "naive")
                         (mk_LoadMethod US_Pacific "explicit"))
              dt_fall_back ∅).
Proof.
  split; [reflexivity|].
  exact (@implicit_load_is_explicit_in_connection_zone pacific_env
           US_Pacific (mk_SaveMethod US_Pacific "naive") 1 2 dt_fall_back
           ∅ ∅ eq_refl).
Defined.

(** ** Tables built by any sequence of calls *)

Section CallFacts.

Context {env : Environment}.

Lemma expected_row_None_app (ds ds' : list datetime) (test : Test) :
  expected_row ds test = None -> expected_row (ds ++ ds') test = None.
Proof.
  unfold expected_row. rewrite map_some_app.
  destruct (map_some (cell test) ds); [discriminate|reflexivity].
Qed.

Lemma run_calls_expected (cs : list call) :
  forall (ds : list datetime) (ts : list Test) (t : TestTable) (db : Database),
    Forall valid ds -> Forall valid (call_datetimes cs) ->
    map_some (fun dt => to_option (normalize DJANGO_TZ dt)) ds
      = Some (headers t) ->
    map_some (expected_row ds) ts = Some (rows t) ->
    built (run_calls cs (t, db))
      = expected_table (ds ++ call_datetimes cs) (ts ++ call_tests cs).
Proof.
  induction cs as [|[d|test] cs IH]; intros ds ts t db Hv Hvc Hh Hr.
  - simpl. rewrite !app_nil_r. unfold expected_table. rewrite Hh, Hr.
    now destruct t.
  - rewrite run_calls_cons. cbn [run_call call_datetimes call_tests].
    cbn [call_datetimes] in Hvc. apply Forall_cons_1 in Hvc as [Hvd Hvc].
    pose proof (add_datetime_spec d t db) as S.
    replace (ds ++ d :: call_datetimes cs)%list
      with ((ds ++ [d]) ++ call_datetimes cs)%list
      by (now rewrite <- app_assoc).
    pose proof (map_some_snoc
                  (fun dt => to_option (normalize DJANGO_TZ dt)) ds d) as Hs.
    pose proof (expected_rows_snoc ds d ts) as Hx.
    rewrite Hh in Hs. rewrite Hr in Hx.
    destruct (to_option (normalize DJANGO_TZ d)) as [h|].
    + destruct (map_some (column_cell d) (rows t)) as [rs'|].
      * destruct S as (db' & ->). apply IH; try assumption.
        apply Forall_app. split; [exact Hv | now constructor].
      * destruct S as (e & s' & ->). simpl. unfold expected_table.
        rewrite (map_some_app (expected_row _) ts),
          (expected_rows_None _ (call_datetimes cs) _ Hx).
        now destruct (map_some _ ((ds ++ [d]) ++ call_datetimes cs)).
    + destruct S as (e & s' & ->). simpl. unfold expected_table.
      rewrite (map_some_app _ (ds ++ [d])), Hs. reflexivity.
  - rewrite run_calls_cons. cbn [run_call call_datetimes call_tests].
    cbn [call_datetimes] in Hvc.
    pose proof (add_test_spec test t db) as S.
    rewrite (expected_row_normalize ds (headers t) test Hv Hh) in S.
    replace (ts ++ test :: call_tests cs)%list
      with ((ts ++ [test]) ++ call_tests cs)%list
      by (now rewrite <- app_assoc).
    pose proof (map_some_snoc (expected_row ds) ts test) as Hs.
    rewrite Hr in Hs.
    destruct (expected_row ds test) as [row|] eqn:Erow.
    + destruct S as (db' & ->). now apply IH.
    + destruct S as (e & s' & ->). simpl. unfold expected_table.
      rewrite (map_some_app _ (ts ++ [test])).
      assert (map_some (expected_row (ds ++ call_datetimes cs)) (ts ++ [test])
              = None) as ->.
      { rewrite map_some_snoc, (expected_row_None_app _ _ _ Erow).
        destruct (map_some (expected_row (ds ++ call_datetimes cs)) ts);
          reflexivity. }
      destruct (map_some (fun dt => to_option (normalize DJANGO_TZ dt))
                         (ds ++ call_datetimes cs)); reflexivity.
Qed.

(** X8. Whatever the order in which columns and rows are added to an
    empty table, the table built is the one of the datetimes and of the
    tests in the order they were added: its header cells are the datetimes
    normalized to [DJANGO_TZ] and each row holds the round trips of its
    test; and if a call raises in one interleaving, one raises in every
    interleaving of the same datetimes and tests. The datetimes are
    [datetime] objects, with fields within the bounds. *)
Theorem any_call_order_builds_expected_table
    (cs : list call) (db : Database) :
  Forall valid (call_datetimes cs) ->
  built (run_calls cs (TestTable_init, db))
    = expected_table (call_datetimes cs) (call_tests cs).
Proof.
  intros Hv. now apply (run_calls_expected cs [] [] TestTable_init db).
Qed.

Lemma run_test_ok_size (test : Test) (dt : datetime) (db db' : Database)
    (r : TestResult) :
  run_test test dt db = (Ok r, db') -> size db' = S (size db).
Proof.
  rewrite run_test_full.
  destruct (saved_value (save_method test) dt) as [[h v]|e];
    [|discriminate].
  intros [= _ <-]. apply map_size_insert_None, fresh_key_free.
Qed.

Lemma append_column_ok_size (dt : datetime) (rs rs' : list Row)
    (db db' : Database) :
  append_column dt rs db = (Ok tt, rs', db') ->
  size db' = (size db + length rs)%nat /\ length rs' = length rs.
Proof.
  revert rs' db. induction rs as [|row rest IH]; intros rs' db H; simpl in H.
  - injection H as <- <-. simpl. lia.
  - destruct (run_test (row_test row) dt db) as [[r|e] db1] eqn:E;
      [|discriminate].
    destruct (append_column dt rest db1) as [[res rest'] db2] eqn:E2.
    injection H as -> <- <-.
    apply run_test_ok_size in E.
    destruct (IH _ _ E2) as [Hs Hl]. simpl. lia.
Qed.

Lemma fill_row_ok_size (test : Test) (hs : list datetime) (row row' : Row)
    (db db' : Database) :
  fill_row test hs row db = (Ok tt, row', db') ->
  size db' = (size db + length hs)%nat.
Proof.
  revert row db. induction hs as [|dt rest IH]; intros row db H; simpl in H.
  - injection H as _ <-. simpl. lia.
  - destruct (run_test test dt db) as [[r|e] db1] eqn:E; [|discriminate].
    apply run_test_ok_size in E. apply IH in H. simpl. lia.
Qed.

Lemma run_call_ok_size (c : call) (t t' : TestTable) (db db' : Database) :
  run_call c (t, db) = (Ok tt, (t', db')) ->
  (size db' + length (headers t) * length (rows t)
   = size db + length (headers t') * length (rows t'))%nat
  /\ match c with
     | AddDatetime _ =>
         length (headers t') = S (length (headers t))
         /\ length (rows t') = length (rows t)
     | AddTest _ =>
         length (headers t') = length (headers t)
         /\ length (rows t') = S (length (rows t))
     end.
Proof.
  destruct c as [dt|test]; simpl; intros H.
  - unfold add_datetime in H.
    destruct (normalize DJANGO_TZ dt) as [h|e]; [|discriminate].
    destruct (append_column dt (rows t) db) as [[res rs'] db1] eqn:E.
    injection H as -> <- <-. apply append_column_ok_size in E as [Hs Hl].
    simpl. rewrite length_app, Hl. simpl. lia.
  - unfold add_test in H.
    destruct (fill_row test (headers t) _ db) as [[res row'] db1] eqn:E.
    injection H as -> <- <-. apply fill_row_ok_size in E.
    simpl. rewrite length_app. simpl. lia.
Qed.

Lemma run_calls_ok_size (cs : list call) (t t' : TestTable)
    (db db' : Database) :
  run_calls cs (t, db) = (Ok tt, (t', db')) ->
  (size db' + length (headers t) * length (rows t)
   = size db + length (headers t') * length (rows t'))%nat
  /\ length (headers t')
     = (length (headers t) + length (call_datetimes cs))%nat
  /\ length (rows t') = (length (rows t) + length (call_tests cs))%nat.
Proof.
  revert t db. induction cs as [|c cs IH]; intros t db H.
  - injection H as <- <-. simpl. lia.
  - rewrite run_calls_cons in H.
    destruct (run_call c (t, db)) as [[[]|e] [t1 db1]] eqn:E; [|discriminate].
    apply run_call_ok_size in E as [Es El].
    apply IH in H as (Hs & Hh & Hr).
    destruct c as [dt|test]; cbn [call_datetimes call_tests length];
      destruct El as [El1 El2]; lia.
Qed.

(** X9. Every cell of a table costs one stored record: after any sequence
    of calls on an empty table that returned, the database has grown by
    the number of header cells times the number of rows, and
    [generate_test_table] stores one record per datetime and test. *)
Theorem one_record_per_cell
    (cs : list call) (db : Database) (t : TestTable) (db' : Database) :
  run_calls cs (TestTable_init, db) = (Ok tt, (t, db')) ->
  size db' = (size db + length (headers t) * length (rows t))%nat
  /\ length (headers t) = length (call_datetimes cs)
  /\ length (rows t) = length (call_tests cs).
Proof.
  intros H. apply run_calls_ok_size in H as (Hsize & Hh & Hr).
  simpl in Hsize, Hh, Hr. split; [lia|]. split; assumption.
Qed.

(** Where a column stopped: the rows before the one whose round trip
    raised have their new cell, this row and those after it are as they
    were. *)
Lemma append_column_raise (dt : datetime) (rs rs' : list Row)
    (db db' : Database) (e : exception) :
  append_column dt rs db = (Raise e, rs', db') ->
  exists done row rest done',
    rs = (done ++ row :: rest)%list
    /\ rs' = (done' ++ row :: rest)%list
    /\ Forall2 (fun old new => exists r, cell (row_test old) dt = Some r
                                         /\ new = row_append old r)
               done done'
    /\ cell (row_test row) dt = None.
Proof.
  revert rs' db. induction rs as [|row rest IH]; intros rs' db H; simpl in H.
  - discriminate.
  - pose proof (run_test_cell (row_test row) dt db) as Hc.
    destruct (run_test (row_test row) dt db) as [[r|e1] db1] eqn:E.
    + destruct (append_column dt rest db1) as [[res rest'] db2] eqn:E2.
      injection H as -> <- <-.
      destruct (IH _ _ E2) as (done & row0 & rest0 & done' & -> & -> & Hd & Hn).
      exists (row :: done), row0, rest0, (row_append row r :: done').
      split; [reflexivity|]. split; [reflexivity|]. split; [|exact Hn].
      constructor; [|exact Hd]. exists r. split; [now symmetry | reflexivity].
    + injection H as _ <- _. exists [], row, rest, [].
      split; [reflexivity|]. split; [reflexivity|].
      split; [constructor | now symmetry].
Qed.

(** Where a row stopped: it holds the results of the header cells before
    the one whose round trip raised. *)
Lemma fill_row_raise (test : Test) (hs : list datetime) (row row' : Row)
    (db db' : Database) (e : exception) :
  fill_row test hs row db = (Raise e, row', db') ->
  exists rs h,
    row' = mk_Row (row_test row) (row_save row) (row_load row)
                  (row_results row ++ rs)
    /\ hs !! length rs = Some h
    /\ Forall2 (fun h r => cell test h = Some r) (take (length rs) hs) rs
    /\ cell test h = None.
Proof.
  revert row db. induction hs as [|dt rest IH]; intros row db H; simpl in H.
  - discriminate.
  - pose proof (run_test_cell test dt db) as Hc.
    destruct (run_test test dt db) as [[r|e1] db1] eqn:E.
    + destruct (IH _ _ H) as (rs & h & -> & Hl & Hd & Hn).
      exists (r :: rs), h. cbn [row_append row_test row_save row_load
                                row_results].
      split; [now rewrite <- app_assoc|]. split; [exact Hl|].
      split; [|exact Hn]. simpl. constructor; [now symmetry | exact Hd].
    + injection H as _ <- _. exists [], dt. rewrite app_nil_r.
      split; [now destruct row|]. split; [reflexivity|].
      split; [constructor | now symmetry].
Qed.

(** X10. A call that raises leaves the table as far as it got. An
    [add_datetime] whose [normalize] raises, [ValueError] for a naive
    datetime and [OverflowError] for an aware one, has changed nothing,
    since the header cell is computed before it is appended. One whose
    round trip raises has already appended the header cell: the rows
    before the one that raised have their new result, this row and those
    after it are as they were. An [add_test] whose round trip raises has
    already appended the row, which holds the results of the header cells
    before the one that raised and no more. In the last two cases a
    rectangular table is no longer rectangular. *)
Theorem raising_call_leaves_partial_table
    (c : call) (t : TestTable) (db : Database) (e : exception)
    (t' : TestTable) (db' : Database) :
  rectangular t ->
  run_call c (t, db) = (Raise e, (t', db')) ->
  match c with
  | AddDatetime dt =>
      (normalize DJANGO_TZ dt = Raise e
       /\ (if is_aware dt then e = OverflowError else e = ValueError)
       /\ t' = t /\ db' = db)
      \/ (exists h done row rest done',
            normalize DJANGO_TZ dt = Ok h
            /\ headers t' = (headers t ++ [h])%list
            /\ rows t = (done ++ row :: rest)%list
            /\ rows t' = (done' ++ row :: rest)%list
            /\ Forall2 (fun old new =>
                          exists r, cell (row_test old) dt = Some r
                                    /\ new = row_append old r)
                       done done'
            /\ cell (row_test row) dt = None
            /\ ~ rectangular t')
  | AddTest test =>
      exists rs h,
        headers t' = headers t
        /\ rows t'
           = (rows t ++ [mk_Row test (save_method test) (load_method test)
                                rs])%list
        /\ headers t !! length rs = Some h
        /\ Forall2 (fun h r => cell test h = Some r)
                   (take (length rs) (headers t)) rs
        /\ cell test h = None
        /\ ~ rectangular t'
  end.
Proof.
  intros Hrect H. destruct c as [dt|test]; simpl in H.
  - unfold add_datetime in H.
    destruct (normalize DJANGO_TZ dt) as [h|e1] eqn:En.
    + right.
      destruct (append_column dt (rows t) db) as [[res rs'] db1] eqn:E.
      injection H as -> <- <-.
      destruct (append_column_raise _ _ _ _ _ _ E)
        as (done & row & rest & done' & Hrs & -> & Hd & Hn).
      exists h, done, row, rest, done'. cbn [headers rows].
      repeat (split; [first [reflexivity | assumption]|]).
      unfold rectangular. cbn [headers rows]. intros Hr.
      apply Forall_app in Hr as [_ Hr]. apply Forall_cons_1 in Hr as [Hr _].
      unfold rectangular in Hrect. rewrite Hrs in Hrect.
      apply Forall_app in Hrect as [_ Hrect].
      apply Forall_cons_1 in Hrect as [Hrect _].
      rewrite length_app in Hr. simpl in Hr. lia.
    + left. injection H as <- <- <-. split; [reflexivity|].
      split; [|now split].
      destruct (normalize_raise _ _ _ En) as [[-> ->]|(-> & -> & _)];
        reflexivity.
  - unfold add_test in H.
    destruct (fill_row test (headers t) _ db) as [[res row'] db1] eqn:E.
    injection H as -> <- <-.
    destruct (fill_row_raise _ _ _ _ _ _ _ E) as (rs & h & -> & Hl & Hd & Hn).
    exists rs, h. cbn [headers rows row_test row_save row_load row_results app].
    repeat (split; [first [reflexivity | assumption]|]).
    unfold rectangular. cbn [headers rows]. intros Hr.
    apply Forall_app in Hr as [_ Hr]. apply Forall_cons_1 in Hr as [Hr _].
    cbn [row_results] in Hr. apply lookup_lt_Some in Hl. lia.
Qed.

End CallFacts.

Lemma any_call_order_builds_expected_table_witness :
  let cs := [AddTest (mk_Test 1 (mk_SaveMethod US_Pacific "naive")
                                (mk_LoadMethod US_Pacific "implicit"));
             AddDatetime dt_fall_back;
             AddTest (mk_Test 4 (mk_SaveMethod US_Pacific "aware")
                                (mk_LoadMethod US_Pacific "explicit"));
             AddDatetime dt_fall_forward] in
  Forall valid (call_datetimes cs)
  /\ built (@run_calls pacific_env cs (TestTable_init, ∅))
     = @expected_table pacific_env (call_datetimes cs) (call_tests cs)
  /\ is_Some (built (@run_calls pacific_env cs (TestTable_init, ∅))).
Proof.
  intros cs.
  assert (Forall valid (call_datetimes cs)) as Hv by (repeat constructor).
  split; [exact Hv|]. split.
  - exact (@any_call_order_builds_expected_table pacific_env cs ∅ Hv).
  - vm_compute. eexists. reflexivity.
Defined.

Lemma one_record_per_cell_witness :
  let out := @run_calls pacific_env pacific_calls (TestTable_init, ∅) in
  fst out = Ok tt /\ size (snd (snd out)) = 18%nat.
Proof.
  intros out. split; [vm_compute; reflexivity|].
  assert (out = (Ok tt, (fst (snd out), snd (snd out)))) as H
    by (vm_compute; reflexivity).
  pose proof (@one_record_per_cell pacific_env pacific_calls ∅ _ _ H)
    as (Hsize & Hh & Hr).
  rewrite Hsize, Hh, Hr. reflexivity.
Defined.

(** A test that loads in a zone the server does not know: the column of
    [dt_fall_back] gets its header cell, and the row stays without a
    result. *)
Lemma raising_call_leaves_partial_table_witness :
  let nowhere := StaticTzInfo "Nowhere" (mk_ttinfo 0 0 "NOW") in
  let test := mk_Test 1 (mk_SaveMethod UTC "aware")
                        (mk_LoadMethod nowhere "implicit") in
  let row := mk_Row test (save_method test) (load_method test) [] in
  let t := mk_TestTable [] [row] in
  let out := @run_call pacific_env (AddDatetime dt_fall_back) (t, ∅) in
  rectangular t
  /\ fst out = Raise DatabaseError
  /\ length (headers (fst (snd out))) = 1%nat
  /\ rows (fst (snd out)) = [row]
  /\ ~ rectangular (fst (snd out)).
Proof.
  intros nowhere test row t out.
  assert (rectangular t) as Hrect by (repeat constructor).
  assert (out = (Raise DatabaseError, (fst (snd out), snd (snd out)))) as H
    by (vm_compute; reflexivity).
  split; [exact Hrect|]. split; [vm_compute; reflexivity|].
  split; [vm_compute; reflexivity|]. split; [vm_compute; reflexivity|].
  pose proof (@raising_call_leaves_partial_table pacific_env
                (AddDatetime dt_fall_back) t ∅ _ _ _ Hrect H) as [C|C].
  - destruct C as (C & _). exfalso. vm_compute in C. discriminate C.
  - destruct C as (h & done & r0 & rest & done' & _ & _ & _ & _ & _ & _ & C).
    exact C.
Defined.

(** ** The width of the rendered lines *)

Lemma length_join_bar (x : string) (l : list string) :
  String.length (join "|" (x :: l))
  = (String.length x
     + fold_right (fun s acc => 1 + String.length s + acc) 0 l)%nat.
Proof.
  revert x. induction l as [|y l IH]; intros x.
  - simpl. lia.
  - change (join "|" (x :: y :: l)) with (x +:+ "|" +:+ join "|" (y :: l)).
    rewrite !length_append, IH. simpl. lia.
Qed.

Lemma length_add_row (c0 c1 c2 : string) (vals : list string) :
  String.length (add_row c0 c1 c2 vals)
  = (Nat.max 2 (String.length c0) + 1 + Nat.max 18 (String.length c1) + 1
     + Nat.max 21 (String.length c2) + cells_width vals)%nat.
Proof.
  unfold add_row, add_row_cols. cbn [app]. rewrite length_join_bar.
  cbn [fold_right]. rewrite length_format_right, !length_format_center.
  assert (fold_right (fun s acc => (1 + String.length s + acc)%nat) 0%nat
            (List.map (format_center 27) vals) = cells_width vals) as ->.
  { unfold cells_width. induction vals as [|v vals IH]; [reflexivity|].
    simpl List.map. cbn [fold_right].
    rewrite IH, length_format_center. reflexivity. }
  lia.
Qed.

Lemma cells_width_ge (vals : list string) :
  (28 * length vals <= cells_width vals)%nat.
Proof.
  unfold cells_width. induction vals as [|v vals IH]; simpl in *; lia.
Qed.

Lemma cells_width_fits (vals : list string) :
  forallb (cell_fits 27) vals = true ->
  cells_width vals = (28 * length vals)%nat.
Proof.
  unfold cells_width, cell_fits.
  induction vals as [|v vals IH]; [reflexivity|].
  cbn [forallb fold_right length]. intros H.
  apply andb_true_iff in H as [Hv Hrest]. apply Nat.leb_le in Hv.
  rewrite (IH Hrest). lia.
Qed.

Lemma cells_width_wide (vals : list string) (v : string) :
  In v vals -> (27 < String.length v)%nat ->
  (28 * length vals < cells_width vals)%nat.
Proof.
  intros Hin Hv. induction vals as [|w vals IH]; [destruct Hin|].
  pose proof (cells_width_ge vals) as Hge.
  unfold cells_width in *. cbn [fold_right length].
  destruct Hin as [->|Hin]; [lia|]. specialize (IH Hin). lia.
Qed.

Lemma forallb_map {A B} (f : A -> B) (p : B -> bool) (l : list A) :
  forallb p (List.map f l) = forallb (fun a => p (f a)) l.
Proof. induction l as [|a l IH]; simpl; [reflexivity | now rewrite IH]. Qed.

(** X11. The grid is of one width as long as the text fits. In a
    rectangular table whose labels and cells all fit their columns, every
    line of the rendering, the rule included, has 43 characters plus 28
    per datetime. A text is never cut: in any rectangular table no row
    line is shorter than that, and a row with a cell of more than 27
    characters gives a longer line. *)
Theorem rendered_lines_width (str_datetime : datetime -> string)
    (t : TestTable) :
  rectangular t ->
  (table_fits str_datetime t = true ->
   Forall (fun line =>
             String.length line = (43 + 28 * length (headers t))%nat)
          (TestTable_lines str_datetime t))
  /\ (forall row, In row (rows t) ->
        (43 + 28 * length (headers t) <= String.length (row_line row))%nat)
  /\ (forall row r, In row (rows t) -> In r (row_results row) ->
        (27 < String.length (TestResult_unicode r))%nat ->
        (43 + 28 * length (headers t) < String.length (row_line row))%nat).
Proof.
  intros Hrect. unfold rectangular in Hrect. rewrite Forall_forall in Hrect.
  split; [|split].
  - intros Hfit. unfold table_fits in Hfit.
    apply andb_true_iff in Hfit as [Hh Hr].
    assert (String.length (header_line str_datetime t)
            = (43 + 28 * length (headers t))%nat) as Hhead.
    { unfold header_line. rewrite length_add_row, cells_width_fits.
      - rewrite length_map. simpl. lia.
      - now rewrite forallb_map. }
    unfold TestTable_lines. constructor; [exact Hhead|].
    constructor.
    { rewrite length_string_repeat. change (String.length "-") with 1%nat.
      lia. }
    apply Forall_forall. intros line Hin.
    apply list_elem_of_In, in_map_iff in Hin as (row & <- & Hin).
    rewrite forallb_forall in Hr. specialize (Hr row Hin).
    unfold row_fits in Hr. apply andb_true_iff in Hr as [Hr Hcells].
    apply andb_true_iff in Hr as [Hr H2].
    apply andb_true_iff in Hr as [H0 H1].
    unfold cell_fits in H0, H1, H2.
    apply Nat.leb_le in H0, H1, H2.
    unfold row_line. rewrite length_add_row, cells_width_fits.
    + rewrite length_map, (Hrect row) by now apply list_elem_of_In. lia.
    + now rewrite forallb_map.
  - intros row Hin. unfold row_line. rewrite length_add_row.
    pose proof (cells_width_ge
                  (List.map TestResult_unicode (row_results row))) as Hge.
    rewrite length_map, (Hrect row) in Hge by now apply list_elem_of_In.
    lia.
  - intros row r Hin Hr Hwide. unfold row_line. rewrite length_add_row.
    pose proof (cells_width_wide
                  (List.map TestResult_unicode (row_results row))
                  (TestResult_unicode r)
                  (in_map TestResult_unicode _ _ Hr) Hwide) as Hlt.
    rewrite length_map, (Hrect row) in Hlt by now apply list_elem_of_In.
    lia.
Qed.

Lemma rendered_lines_width_witness :
  let str := fun _ : datetime => "2002-10-27 01:30:00-07:00" in
  let cs := (List.map AddDatetime datetimes
             ++ [AddTest (mk_Test 8 (mk_SaveMethod UTC "aware")
                                    (mk_LoadMethod UTC "explicit"))])%list in
  let t := fst (snd (@run_calls pacific_env cs (TestTable_init, ∅))) in
  rectangular t
  /\ table_fits str t = true
  /\ Forall (fun line => String.length line = 99%nat) (TestTable_lines str t).
Proof.
  intros str cs t.
  assert (rectangular t) as Hrect by (vm_compute; repeat constructor).
  assert (table_fits str t = true) as Hfit by (vm_compute; reflexivity).
  split; [exact Hrect|]. split; [exact Hfit|].
  exact (proj1 (rendered_lines_width str t Hrect) Hfit).
Defined.

(** ** The command *)

Section CommandFacts.

Context {env : Environment}.

Variable str_datetime : datetime -> string.

Lemma expected_rows_tests (ds : list datetime) (ts : list Test)
    (rs : list Row) :
  map_some (expected_row ds) ts = Some rs -> List.map row_test rs = ts.
Proof.
  intros H. apply map_some_Forall2 in H.
  induction H as [|test row ts rs Hrow _ IH]; [reflexivity|].
  simpl. apply expected_row_inv in Hrow as (-> & _). now rewrite IH.
Qed.

Lemma add_datetime_no_rows (dt h : datetime) (t : TestTable) (db : Database) :
  rows t = [] -> normalize DJANGO_TZ dt = Ok h ->
  add_datetime dt (t, db)
    = (Ok tt, (mk_TestTable (headers t ++ [h]) [], db)).
Proof. intros Hr Hn. unfold add_datetime. now rewrite Hn, Hr. Qed.

Lemma tests_catalog :
  fst (tests DJANGO_TZ Test_next_test_number_init) =
    Ok [mk_Test 1 (mk_SaveMethod DJANGO_TZ "naive")
                  (mk_LoadMethod DJANGO_TZ "implicit");
        mk_Test 2 (mk_SaveMethod DJANGO_TZ "naive")
                  (mk_LoadMethod DJANGO_TZ "explicit");
        mk_Test 3 (mk_SaveMethod DJANGO_TZ "aware")
                  (mk_LoadMethod DJANGO_TZ "implicit");
        mk_Test 4 (mk_SaveMethod DJANGO_TZ "aware")
                  (mk_LoadMethod DJANGO_TZ "explicit");
        mk_Test 5 (mk_SaveMethod DJANGO_TZ "naive")
                  (mk_LoadMethod UTC "explicit");
        mk_Test 6 (mk_SaveMethod UTC "aware")
                  (mk_LoadMethod DJANGO_TZ "implicit");
        mk_Test 7 (mk_SaveMethod UTC "naive") (mk_LoadMethod UTC "implicit");
        mk_Test 8 (mk_SaveMethod UTC "aware") (mk_LoadMethod UTC "explicit");
        mk_Test 9 (mk_SaveMethod DJANGO_TZ "aware")
                  (mk_LoadMethod UTC "explicit")].
Proof. reflexivity. Qed.

(** X12. The command over the catalogs of [main.py], in a well-formed
    environment. When the server knows the zone name of
    [settings.TIME_ZONE], it prints a table of eleven lines, a header, a
    rule and the nine tests numbered 1 to 9 in order, over two datetimes,
    and leaves eighteen new records. When the server does not know that
    name, the first round trip raises [DatabaseError] and its record
    stays. *)
Theorem Command_handle_prints_the_table (db : Database) :
  env_well_formed ->
  (is_Some (pg_zone (zone DJANGO_TZ)) ->
   exists table db',
     Command_handle str_datetime db
       = (Ok (TestTable_unicode str_datetime table), db')
     /\ size db' = (size db + 18)%nat
     /\ length (headers table) = 2%nat
     /\ List.map (fun row => test_number (row_test row)) (rows table)
        = [1; 2; 3; 4; 5; 6; 7; 8; 9]
     /\ length (TestTable_lines str_datetime table) = 11%nat)
  /\ (pg_zone (zone DJANGO_TZ) = None ->
      exists db',
        Command_handle str_datetime db = (Raise DatabaseError, db')
        /\ size db' = S (size db)).
Proof.
  intros Henv. pose proof Henv as (Hwd & _).
  assert (Forall (fun dt => is_aware dt = true /\ inside 5 (instant dt))
                 datetimes) as Hdts.
  { repeat constructor; now apply inside_computed. }
  assert (Forall valid datetimes) as Hvalid by (repeat constructor).
  unfold Command_handle, bind, lift, ret. rewrite tests_catalog.
  match goal with
  | |- context [generate_test_table datetimes ?l] => set (ts := l)
  end.
  unfold generate_test_table, build.
  set (cs := (List.map AddDatetime datetimes ++ List.map AddTest ts)%list).
  split.
  - intros Hz.
    destruct (expected_table_some datetimes ts Henv Hdts)
      as (hs & rs & Hhs & Hrs & Ht).
    { assert (is_Some (pg_zone (zone UTC))) as Hu
        by (rewrite pg_zone_UTC; eauto).
      repeat constructor; cbn [save_method load_method save_tz load_tz];
        assumption. }
    pose proof (run_calls_expected cs [] [] TestTable_init db
                  (Forall_nil_2 _) Hvalid eq_refl eq_refl) as Hb.
    change (call_datetimes cs) with datetimes in Hb.
    change (call_tests cs) with ts in Hb. simpl app in Hb. rewrite Ht in Hb.
    destruct (run_calls cs (TestTable_init, db)) as [[[]|e] [t' db']] eqn:E;
      [|discriminate].
    simpl in Hb. injection Hb as ->.
    exists (mk_TestTable hs rs), db'. split; [reflexivity|].
    apply run_calls_ok_size in E as (E & _). cbn [headers rows] in *.
    apply map_some_length in Hhs. apply expected_rows_tests in Hrs.
    assert (length rs = 9%nat) as Hrows
      by (rewrite <- (length_map row_test), Hrs; reflexivity).
    rewrite Hhs, Hrows in E. simpl in E, Hhs.
    split; [lia|]. split; [exact Hhs|]. split.
    + rewrite <- (List.map_map row_test test_number), Hrs. reflexivity.
    + unfold TestTable_lines. simpl. now rewrite length_map, Hrows.
  - intros Hz.
    assert (forall dt, is_aware dt = true /\ inside 5 (instant dt) ->
              exists h, normalize DJANGO_TZ dt = Ok h) as Hnorm.
    { intros dt [Ha Hu]. eexists. apply normalize_ok; [exact Ha| |].
      - apply (inside_in_range 5); [lia | exact Hu].
      - apply (inside_in_range 4); [lia|]. now apply inside_offset. }
    apply Forall_cons_1 in Hdts as [Hd1 Hdts].
    apply Forall_cons_1 in Hdts as [Hd2 _].
    destruct (Hnorm _ Hd1) as [h1 Hn1]. destruct (Hnorm _ Hd2) as [h2 Hn2].
    unfold cs, datetimes. simpl List.map. simpl app.
    rewrite run_calls_cons. cbn [run_call].
    rewrite (add_datetime_no_rows _ h1) by (reflexivity || assumption).
    rewrite run_calls_cons. cbn [run_call].
    rewrite (add_datetime_no_rows _ h2) by (reflexivity || assumption).
    rewrite run_calls_cons. cbn [run_call]. unfold add_test.
    cbn [headers TestTable_init app fill_row].
    rewrite run_test_full. cbn [save_method load_method].
    assert (valid dt_fall_back) as Hv1 by reflexivity.
    rewrite (saved_value_normalize _ dt_fall_back h1 Hv1 Hn1).
    destruct (saved_value (mk_SaveMethod DJANGO_TZ "naive") dt_fall_back)
      as [[handed value]|e] eqn:Es.
    + rewrite load_values_unknown_zone by exact Hz.
      cbn [rbind]. eexists. split; [reflexivity|].
      apply map_size_insert_None, fresh_key_free.
    + apply saved_value_raise in Es. cbn [save_tz] in Es. congruence.
Qed.

End CommandFacts.

Lemma Command_handle_prints_the_table_witness :
  @env_well_formed pacific_env
  /\ exists table db',
       @Command_handle pacific_env (fun _ => "cell") ∅
         = (Ok (@TestTable_unicode (fun _ => "cell") table), db')
       /\ size db' = 18%nat
       /\ length (TestTable_lines (fun _ => "cell") table) = 11%nat.
Proof.
  split; [exact pacific_env_well_formed|].
  destruct (proj1 (@Command_handle_prints_the_table pacific_env
                     (fun _ => "cell") ∅ pacific_env_well_formed))
    as (table & db' & Hc & Hs & _ & _ & Hl).
  - eexists. reflexivity.
  - exists table, db'. split; [exact Hc|]. split; [exact Hs | exact Hl].
Defined.

(** ** The labels of a row *)

Lemma unicode_int_inj (a b : Z) : unicode_int a = unicode_int b -> a = b.
Proof.
  assert (forall n, Z.to_int n <> Decimal.Pos Decimal.Nil
                    /\ Z.to_int n <> Decimal.Neg Decimal.Nil) as Hnil.
  { intros n. split; intros H; pose proof (f_equal Z.of_int H) as H';
      rewrite DecimalZ.of_to in H'; simpl in H'; subst n; discriminate H. }
  unfold unicode_int. intros H.
  apply (f_equal NilZero.int_of_string) in H.
  rewrite !NilZero.isi in H by apply Hnil.
  injection H as H. now apply DecimalZ.to_int_inj.
Qed.

(** X13. The labels tell the rows apart: two tests with the same label
    have the same number, and two save methods, or two load methods,
    whose style or conversion passed the assertion of [__init__] and whose
    labels agree have the same style or conversion and the same zone
    name. *)
Theorem row_labels_identify :
  (forall a b : Test,
      Test_unicode a = Test_unicode b -> test_number a = test_number b)
  /\ (forall a b : SaveMethod,
        In (style a) ["aware"; "naive"] ->
        In (style b) ["aware"; "naive"] ->
        SaveMethod_unicode a = SaveMethod_unicode b ->
        style a = style b /\ zone (save_tz a) = zone (save_tz b))
  /\ (forall a b : LoadMethod,
        In (conversion a) ["implicit"; "explicit"] ->
        In (conversion b) ["implicit"; "explicit"] ->
        LoadMethod_unicode a = LoadMethod_unicode b ->
        conversion a = conversion b /\ zone (load_tz a) = zone (load_tz b)).
Proof.
  split; [|split].
  - intros a b. apply unicode_int_inj.
  - intros a b Ha Hb. unfold SaveMethod_unicode.
    simpl in Ha, Hb.
    destruct Ha as [<-|[<-|[]]], Hb as [<-|[<-|[]]]; simpl; intros H;
      first [discriminate | injection H as H; now split].
  - intros a b Ha Hb. unfold LoadMethod_unicode.
    simpl in Ha, Hb.
    destruct Ha as [<-|[<-|[]]], Hb as [<-|[<-|[]]]; simpl; intros H;
      first [discriminate | injection H as H; now split].
Qed.
